(** * EinschulungsProject: the filter and aggregation logic of the four diagrams

    A shallow embedding of [ProjectArbeit/EinschulungsProject.py].  The
    program loads a table of school-enrolment rates and shows it as a bar
    diagram, a scatter plot, a pie chart (three aggregation modes) and a
    per-continent panel.  What is embedded here is the data path of each
    [update] method: the pandas selections and aggregations, and the
    sequence of drawing calls issued on the matplotlib axes.

    Conventions of the embedding.
    - A DataFrame is the list of its rows, in row order.
    - Finite floats are rationals ([Q]); arithmetic on them is exact, the
      rounding of IEEE doubles is not modelled.  Values returned by Python's
      [float()] may also be [inf], [-inf] or [nan] ([Py.float]).
    - The axes are the list of drawing calls issued since the last
      [ax.clear()]; purely cosmetic calls (axis labels, grid, font sizes,
      colours of pie slices, [tight_layout], [canvas.draw]) are left out.
    - Python exceptions are values of [Py.result]; a [while] loop runs on
      fuel and [None] stands for a loop that has not finished.
    - What the libraries answer is a parameter where the program depends
      on it: [float] and [str] for the two builtins, [ax_pie] for the
      wedge sizes matplotlib draws and those it refuses. *)

From Stdlib Require Import QArith Qround Qabs Qminmax Lqa Ascii.
From stdpp Require Import gmap strings list sorting pretty.

Local Open Scope string_scope.

(** ** Decidable order on the rationals *)

#[global] Instance Qle_rel_dec : RelDecision Qle :=
  λ x y, decide (Qnum x * QDen y ≤ Qnum y * QDen x)%Z.
#[global] Instance Qlt_rel_dec : RelDecision Qlt :=
  λ x y, decide (Qnum x * QDen y < Qnum y * QDen x)%Z.
#[global] Instance Qeq_rel_dec : RelDecision Qeq :=
  λ x y, decide (Qnum x * QDen y = Qnum y * QDen x)%Z.

(** ** Python values and builtins *)

Module Py.

(** A Python [float]. *)
Inductive float :=
| Fin (q : Q)
| PosInf
| NegInf
| NaN.

(** [a < b] on floats; every comparison with [nan] is false. *)
Definition lt (a b : float) : bool :=
  match a, b with
  | NaN, _ | _, NaN => false
  | Fin x, Fin y => bool_decide (x < y)%Q
  | NegInf, NegInf => false
  | NegInf, _ => true
  | _, NegInf => false
  | PosInf, _ => false
  | Fin _, PosInf => true
  end.

(** [a == b] on floats. *)
Definition eq (a b : float) : bool :=
  match a, b with
  | Fin x, Fin y => bool_decide (x == y)%Q
  | PosInf, PosInf | NegInf, NegInf => true
  | _, _ => false
  end.

(** [a + b] on floats. *)
Definition add (a b : float) : float :=
  match a, b with
  | NaN, _ | _, NaN => NaN
  | Fin x, Fin y => Fin (x + y)
  | PosInf, NegInf | NegInf, PosInf => NaN
  | PosInf, _ | _, PosInf => PosInf
  | NegInf, _ | _, NegInf => NegInf
  end.

(** The builtin [min(a, b)]: the first argument unless the second is
    strictly smaller. *)
Definition min (a b : float) : float := if lt b a then b else a.

(** The builtin [max(a, b)]: the first argument unless the second is
    strictly larger. *)
Definition max (a b : float) : float := if lt a b then b else a.

(** Exceptions, with the text [str(e)] gives. *)
Inductive exn :=
| ValueError (msg : string)
| TypeError (msg : string).

Definition str_exn (e : exn) : string :=
  match e with ValueError m | TypeError m => m end.

(** The outcome of a computation that may raise. *)
Inductive result (A : Type) :=
| Ok (a : A)
| Raise (e : exn).
Arguments Ok {A} a.
Arguments Raise {A} e.

Definition bind {A B} (m : result A) (k : A → result B) : result B :=
  match m with
  | Ok a => k a
  | Raise e => Raise e
  end.

(** Rounding to the nearest integer, ties to even, as the [f] format
    does. *)
Definition round_half_even (q : Q) : Z :=
  let f := Qfloor q in
  match (q - inject_Z f ?= 1 # 2)%Q with
  | Lt => f
  | Gt => (f + 1)%Z
  | Eq => if Z.even f then f else (f + 1)%Z
  end.

Fixpoint zero_pad (width : nat) (s : string) : string :=
  match width with
  | O => s
  | S w => if decide (String.length s < width)%nat then zero_pad w ("0" +:+ s) else s
  end.

(** [f"{q:.df}"] for a finite float. *)
Definition format_Q (d : nat) (q : Q) : string :=
  let scale := (10 ^ Z.of_nat d)%Z in
  let n := round_half_even (Qabs q * inject_Z scale) in
  (if bool_decide (q < 0)%Q then "-" else "")
    +:+ pretty (n `div` scale)%Z
    +:+ match d with
        | O => ""
        | S _ => "." +:+ zero_pad d (pretty (n `mod` scale)%Z)
        end.

(** [f"{x:.df}"]. *)
Definition format_f (d : nat) (x : float) : string :=
  match x with
  | Fin q => format_Q d q
  | PosInf => "inf"
  | NegInf => "-inf"
  | NaN => "nan"
  end.

(** The line break an f-string writes as a backslash followed by n. *)
Definition newline : string := String "010"%char "".

(** [str(int(n))]. *)
Definition str_int (n : Z) : string := pretty n.

(** A reading of the texts of the scenarios, which are strings of decimal
    digits such as [60] and [10]: on those it is [float(s)].  It refuses
    every other string, also those [float()] reads; the diagrams take
    [float] as a parameter and use this function nowhere. *)
Fixpoint digits_value (acc : Z) (s : string) : option Z :=
  match s with
  | EmptyString => Some acc
  | String c t =>
    match Ascii.is_nat c with
    | Some n => digits_value (10 * acc + Z.of_nat n) t
    | None => None
    end
  end.

Definition float_of_digits (s : string) : result float :=
  match s with
  | EmptyString => Raise (ValueError "could not convert string to float: ''")
  | _ =>
    match digits_value 0 s with
    | Some n => Ok (Fin (inject_Z n))
    | None => Raise (ValueError
                ("could not convert string to float: '" +:+ s +:+ "'"))
    end
  end.

(** [sorted(l)] on strings. *)
Definition sorted (l : list string) : list string := merge_sort String.le l.

End Py.

#[global] Instance result_bind : MBind Py.result := λ A B k m, Py.bind m k.

(** ** The table and the pandas operations used on it *)

Module pd.

(** One row.  [Rate] is the column
    ["Combined total net enrolment rate, primary, both sexes"]. *)
Record row := Row {
  Entity : string;
  Continent : string;
  Year : Z;
  Rate : Q;
}.

Abbreviation DataFrame := (list row).

#[global] Instance row_eq_dec : EqDecision row.
Proof.
  intros [e1 c1 y1 [n1 d1]] [e2 c2 y2 [n2 d2]].
  destruct (decide (e1 = e2)); [|right; congruence].
  destruct (decide (c1 = c2)); [|right; congruence].
  destruct (decide (y1 = y2)); [|right; congruence].
  destruct (decide (n1 = n2)); [|right; congruence].
  destruct (decide (d1 = d2)); [|right; congruence].
  left; congruence.
Defined.

(** [series.unique()]: the distinct values in order of first appearance. *)
Fixpoint unique {A} `{EqDecision A} (l : list A) : list A :=
  match l with
  | [] => []
  | x :: t => x :: filter (λ y, y ≠ x) (unique t)
  end.

(** [df[df[col] == v]] for the two string columns. *)
Definition where_Continent (v : string) (df : DataFrame) : DataFrame :=
  filter (λ r, Continent r = v) df.
Definition where_Entity (v : string) (df : DataFrame) : DataFrame :=
  filter (λ r, Entity r = v) df.

(** The order [sort_values(by=Rate, ascending=False)] sorts by. *)
Definition rate_desc (r1 r2 : row) : Prop := (Rate r2 <= Rate r1)%Q.
#[global] Instance rate_desc_dec : RelDecision rate_desc :=
  λ r1 r2, decide (Rate r2 <= Rate r1)%Q.

(** [df.sort_values(by=Rate, ascending=False)].  pandas leaves the order
    of rows with equal rates to its sorting algorithm, and the merge sort
    used here need not put them in the same order: what is proved about
    the sorted rows holds for every order of equal rates. *)
Definition sort_values_Rate_desc (df : DataFrame) : DataFrame :=
  merge_sort rate_desc df.

(** A Series of numbers indexed by [K], as the list of its
    (index, value) entries. *)
Abbreviation Series K V := (list (K * V)).

Fixpoint sum (l : list Q) : Q :=
  match l with
  | [] => 0
  | x :: t => x + sum t
  end.

(** The arithmetic mean of a non-empty column, exact: the rounding of
    the mean pandas computes on doubles is not modelled. *)
Definition mean (l : list Q) : Q := sum l / inject_Z (Z.of_nat (length l)).

(** [df.groupby('Continent')[Rate].mean()]: one entry per continent,
    the group keys in sorted order. *)
Definition groupby_Continent_mean (df : DataFrame) : Series string Q :=
  (λ c, (c, mean (Rate <$> where_Continent c df)))
    <$> Py.sorted (unique (Continent <$> df)).

Definition value_desc {K} (e1 e2 : K * Q) : Prop := (e2.2 <= e1.2)%Q.
#[global] Instance value_desc_dec {K} : RelDecision (@value_desc K) :=
  λ e1 e2, decide (e2.2 <= e1.2)%Q.

(** [series.sort_values(ascending=False)]; entries with equal values can
    come out in another order than pandas gives them. *)
Definition sort_values_desc {K} (s : Series K Q) : Series K Q :=
  merge_sort value_desc s.

Definition count_desc {K} (e1 e2 : K * nat) : Prop := (e2.2 ≤ e1.2)%nat.
#[global] Instance count_desc_dec {K} : RelDecision (@count_desc K) :=
  λ e1 e2, decide (e2.2 ≤ e1.2)%nat.

(** [series.value_counts()] on a column of integers: every distinct value
    with the number of rows that carry it, most frequent first. *)
Definition value_counts (col : list Z) : Series Z nat :=
  merge_sort count_desc
    ((λ v, (v, length (filter (λ x, x = v) col))) <$> unique col).

Definition index_asc {V} (e1 e2 : Z * V) : Prop := (e1.1 ≤ e2.1)%Z.
#[global] Instance index_asc_dec {V} : RelDecision (@index_asc V) :=
  λ e1 e2, decide (e1.1 ≤ e2.1)%Z.

(** [series.sort_index()] on an integer index. *)
Definition sort_index {V} (s : Series Z V) : Series Z V :=
  merge_sort index_asc s.

(** *** [pd.cut] *)

(** [bins.searchsorted(x, side='left')] on ascending edges: the number of
    edges strictly below [x]. *)
Fixpoint searchsorted_left (bins : list Py.float) (x : Py.float) : nat :=
  match bins with
  | [] => 0
  | b :: t => if Py.lt b x then S (searchsorted_left t x) else 0
  end.

Fixpoint is_monotonic_increasing (bins : list Py.float) : bool :=
  match bins with
  | b1 :: (b2 :: _) as t => negb (Py.lt b2 b1) && is_monotonic_increasing t
  | _ => true
  end.

(** Whether some edge occurs twice; on ascending edges equal ones are
    neighbours. *)
Fixpoint has_duplicates (bins : list Py.float) : bool :=
  match bins with
  | b1 :: (b2 :: _) as t => Py.eq b1 b2 || has_duplicates t
  | _ => false
  end.

(** The category of one value: [Some i] for the interval between edges
    [i] and [i + 1], [None] for a value no interval holds. *)
Definition cut_code (bins : list Py.float) (include_lowest : bool)
    (x : Q) : option nat :=
  let ids := searchsorted_left bins (Py.Fin x) in
  let ids :=
    match bins with
    | b0 :: _ => if include_lowest && Py.eq (Py.Fin x) b0 then 1 else ids
    | [] => ids
    end in
  if decide (ids = length bins ∨ ids = 0) then None else Some (ids - 1).

(** A categorical column: the categories in order, and for every row the
    position of its category. *)
Record Categorical := {
  categories : list string;
  codes : list (option nat);
}.

(** [pd.cut(x, bins=bins, labels=labels, include_lowest=...)] with the
    default [right=True]: intervals open on the left and closed on the
    right.  The checks on the arguments come first, in pandas' order. *)
Definition cut (x : list Q) (bins : list Py.float) (labels : list string)
    (include_lowest : bool) : Py.result Categorical :=
  if negb (is_monotonic_increasing bins)
  then Py.Raise (Py.ValueError "bins must increase monotonically.")
  else if has_duplicates bins && negb (bool_decide (length bins = 2))
  then Py.Raise (Py.ValueError "Bin edges must be unique")
  else if negb (bool_decide (NoDup labels))
  then Py.Raise (Py.ValueError "labels must be unique if ordered=True")
  else if negb (bool_decide (length labels = length bins - 1))
  then Py.Raise (Py.ValueError
         "Bin labels must be one fewer than the number of bin edges")
  else Py.Ok {| categories := labels;
                codes := cut_code bins include_lowest <$> x |}.

(** [categorical.value_counts().sort_index()]: every category, used or
    not, with the number of rows in it, in category order. *)
Definition value_counts_sort_index (c : Categorical) : Series string nat :=
  imap (λ i label,
          (label, length (filter (λ code, code = Some i) (codes c))))
       (categories c).

End pd.

(** ** The matplotlib axes *)

Module plt.

(** Where a text is anchored. *)
Inductive anchor :=
| At (x y : Q)                  (* explicit coordinates *)
| BarCentre (i : nat) (y : Q)   (* the horizontal centre of the i-th bar *)
| Point (x : Z) (y : Q).        (* above a data point *)

(** The drawing calls. *)
Inductive call :=
| text (a : anchor) (s : string)
| bar (x : list string) (height : list Q) (color : list string)
| plot (x : list Z) (y : list Q)
| scatter (x : list Z) (y : list Q) (label : string)
| legend (ncol : nat)
| pie (x : list Q) (explode : option (list Q)) (labels : list string)
| set_title (s : string).

End plt.

(** ** Diagram: the state the bar diagram and the scatter plot share *)

Module Diagram.

(** [df], [highlight_country], [countries_by_continent] and the axes are
    attributes of the base class; the two comboboxes, each with its
    [StringVar] and its list of values, are created by [BarDiagram] and
    by [ScatterPlot] alike. *)
Record state := State {
  df : option pd.DataFrame;
  highlight_country : option string;
  countries_by_continent : gmap string (list string);
  continent_var : string;
  continent_combo : list string;
  country_var : string;
  country_combo : list string;
  ax : list plt.call;
}.

(** The state [__init__] leaves: no table, comboboxes disabled and empty. *)
Definition init : state := State None None ∅ "" [] "" [] [].

Definition set_ax (calls : list plt.call) (st : state) : state :=
  State (df st) (highlight_country st) (countries_by_continent st)
        (continent_var st) (continent_combo st)
        (country_var st) (country_combo st) calls.

Definition set_highlight_country (h : option string) (st : state) : state :=
  State (df st) h (countries_by_continent st)
        (continent_var st) (continent_combo st)
        (country_var st) (country_combo st) (ax st).

Definition set_continent_var (v : string) (st : state) : state :=
  State (df st) (highlight_country st) (countries_by_continent st)
        v (continent_combo st) (country_var st) (country_combo st) (ax st).

Definition set_country_var (v : string) (st : state) : state :=
  State (df st) (highlight_country st) (countries_by_continent st)
        (continent_var st) (continent_combo st) v (country_combo st) (ax st).

(** [combo.config(values=values)] followed by [combo.current(0)] on the
    country combobox: the first value becomes the selection. *)
Definition country_combo_reset (values : list string) (st : state) : state :=
  State (df st) (highlight_country st) (countries_by_continent st)
        (continent_var st) (continent_combo st)
        (default (country_var st) (values !! 0)) values (ax st).

(** The part of [set_data] that fills the comboboxes and the dictionary,
    the same in both classes. *)
Definition load (d : pd.DataFrame) (st : state) : state :=
  let continents := Py.sorted (pd.unique (pd.Continent <$> d)) in
  let continent_values := "Alle" :: continents in
  let by_continent :=
    foldl (λ m continent,
             <[continent :=
                 Py.sorted (pd.unique
                   (pd.Entity <$> pd.where_Continent continent d))]> m)
          {["Alle" := Py.sorted (pd.unique (pd.Entity <$> d))]}
          continents in
  let country_values := "Alle Länder" :: default [] (by_continent !! "Alle") in
  State (Some d) (highlight_country st) by_continent
        (default (continent_var st) (continent_values !! 0)) continent_values
        (default (country_var st) (country_values !! 0)) country_values
        (ax st).

(** [on_continent_selected] up to its final [self.update()]. *)
Definition continent_selected (st : state) : state :=
  let selected_continent := continent_var st in
  let st :=
    match countries_by_continent st !! selected_continent with
    | Some countries => country_combo_reset ("Alle Länder" :: countries) st
    | None => st
    end in
  set_highlight_country None st.

(** [on_country_selected] up to its final [self.update()]. *)
Definition country_selected (st : state) : state :=
  let selected_country := country_var st in
  if decide (selected_country = "Alle Länder")
  then set_highlight_country None st
  else set_highlight_country (Some selected_country) st.

End Diagram.

(** ** BarDiagram: the ranking view *)

Module BarDiagram.
Import Diagram.

Definition year_labels (years : list Z) : list plt.call :=
  imap (λ i y, plt.text (plt.BarCentre i 5) (Py.str_int y)) years.

Definition value_labels (values : list Q) : list plt.call :=
  imap (λ i h, plt.text (plt.BarCentre i (h + 1)) (Py.format_Q 2 h +:+ "%"))
       values.

(** The body of [update] for a loaded table. *)
Definition draw (selected_continent : string) (highlight : option string)
    (d : pd.DataFrame) : list plt.call :=
  let '(filtered_df, title) :=
    if decide (selected_continent = "Alle")
    then (d, "Einschulungsrate auf allen Kontinenten")
    else (pd.where_Continent selected_continent d,
          "Einschulungsrate - " +:+ selected_continent) in
  let filtered_df := pd.sort_values_Rate_desc filtered_df in
  let countries := pd.Entity <$> filtered_df in
  let values := pd.Rate <$> filtered_df in
  let years := pd.Year <$> filtered_df in
  match filtered_df with
  | [] => [plt.text (plt.At 0.5 0.5)
             ("Keine Daten für " +:+ selected_continent +:+ " vorhanden")]
  | _ =>
    let colors :=
      (λ country, if decide (highlight = Some country)
                  then "orange" else "skyblue") <$> countries in
    [plt.bar countries values colors]
      ++ year_labels years
      ++ [plt.set_title title]
      ++ value_labels values
  end.

Definition update (st : state) : state :=
  match df st with
  | None => st
  | Some d => set_ax (draw (continent_var st) (highlight_country st) d) st
  end.

Definition set_data (d : option pd.DataFrame) (st : state) : state :=
  match d with
  | Some d => update (load d st)
  | None => State None (highlight_country st) (countries_by_continent st)
              (continent_var st) (continent_combo st)
              (country_var st) (country_combo st) (ax st)
  end.

Definition on_country_selected (st : state) : state :=
  update (country_selected st).

Definition on_continent_selected (st : state) : state :=
  update (continent_selected st).

(** The user picks [v] in a combobox: Tk stores it in the variable of the
    combobox and runs the handler bound to the selection event. *)
Definition select_continent (v : string) (st : state) : state :=
  on_continent_selected (set_continent_var v st).

Definition select_country (v : string) (st : state) : state :=
  on_country_selected (set_country_var v st).

End BarDiagram.

(** ** ScatterPlot: the trend view *)

Module ScatterPlot.
Import Diagram.

Definition point_labels (years : list Z) (values : list Q) : list plt.call :=
  (λ '(x, y), plt.text (plt.Point x (y + 1)) (Py.format_Q 1 y +:+ "%"))
    <$> zip years values.

(** The body of [update] for a loaded table.  In the multi-country branch
    the test [len(years) > 0] is left out: a country taken from the
    filtered rows has at least one of them. *)
Definition draw (selected_continent selected_country : string)
    (d : pd.DataFrame) : list plt.call :=
  let '(filtered_df, title) :=
    if decide (selected_continent = "Alle")
    then (d, "Einschulungsrate im Zeitverlauf - Alle Kontinente")
    else (pd.where_Continent selected_continent d,
          "Einschulungsrate im Zeitverlauf - " +:+ selected_continent) in
  let '(filtered_df, title) :=
    if decide (selected_country ≠ "Alle Länder")
    then (pd.where_Entity selected_country filtered_df,
          "Einschulungsrate im Zeitverlauf - " +:+ selected_country)
    else (filtered_df, title) in
  match filtered_df with
  | [] => [plt.text (plt.At 0.5 0.5)
             "Keine Daten für die ausgewählten Filter vorhanden"]
  | _ =>
    (if decide (selected_country ≠ "Alle Länder")
     then
       let years := pd.Year <$> filtered_df in
       let values := pd.Rate <$> filtered_df in
       [plt.plot years values] ++ point_labels years values
     else
       let countries := pd.unique (pd.Entity <$> filtered_df) in
       ((λ country,
           let country_data := pd.where_Entity country filtered_df in
           plt.scatter (pd.Year <$> country_data) (pd.Rate <$> country_data)
                       country) <$> countries)
       ++ (if decide (1 < length countries ∧ length countries ≤ 15)%nat
           then [plt.legend (5 `min` length countries)%nat]
           else []))
    ++ [plt.set_title title]
  end.

Definition update (st : state) : state :=
  match df st with
  | None => st
  | Some d => set_ax (draw (continent_var st) (country_var st) d) st
  end.

Definition set_data (d : option pd.DataFrame) (st : state) : state :=
  match d with
  | Some d => update (load d st)
  | None => State None (highlight_country st) (countries_by_continent st)
              (continent_var st) (continent_combo st)
              (country_var st) (country_combo st) (ax st)
  end.

Definition on_continent_selected (st : state) : state :=
  update (continent_selected st).

Definition on_country_selected (st : state) : state :=
  update (country_selected st).

(** The user picks [v] in a combobox: Tk stores it in the variable of the
    combobox and runs the handler bound to the selection event. *)
Definition select_continent (v : string) (st : state) : state :=
  on_continent_selected (set_continent_var v st).

Definition select_country (v : string) (st : state) : state :=
  on_country_selected (set_country_var v st).

End ScatterPlot.

(** ** PieDiagram: the composition view *)

Module PieDiagram.

Record state := State {
  df : option pd.DataFrame;
  chart_type_var : string;
  min_var : string;
  step_var : string;
  ax : list plt.call;
}.

Definition set_ax (calls : list plt.call) (st : state) : state :=
  State (df st) (chart_type_var st) (min_var st) (step_var st) calls.

Definition count_values {K} (s : pd.Series K nat) : list Q :=
  (λ e, inject_Z (Z.of_nat e.2)) <$> s.

(** The calls [create_year_distribution_chart] makes on the axes; [update]
    makes them through [on_axes], where the pie can be refused. *)
Definition create_year_distribution_chart (d : pd.DataFrame) : list plt.call :=
  let year_counts := pd.sort_index (pd.value_counts (pd.Year <$> d)) in
  let values := count_values year_counts in
  let labels := (λ e, Py.str_int e.1) <$> year_counts in
  [plt.pie values None labels;
   plt.set_title "Verteilung der Daten nach Erhebungsjahr"].

(** The [while current < max_val] loop: the edges it appends.  The sums
    are exact; on doubles [current + step_val] is rounded, which for
    numbers that are not integers can leave a sum just below 100 where the
    exact sum reaches it. *)
Fixpoint while_append (fuel : nat) (current step_val max_val : Py.float)
    : option (list Py.float) :=
  match fuel with
  | O => None
  | S fuel =>
    if Py.lt current max_val then
      let current := Py.add current step_val in
      let current := Py.min current max_val in
      (current ::.) <$> while_append fuel current step_val max_val
    else Some []
  end.

(** The edges of the buckets, from the two numbers read from the
    spin boxes: the clamping and the loop. *)
Definition range_bins (fuel : nat) (min_val step_val : Py.float)
    : option (list Py.float) :=
  let min_val := Py.max (Py.Fin 0) (Py.min (Py.Fin 100) min_val) in
  let step_val := Py.max (Py.Fin 5) (Py.min (Py.Fin 25) step_val) in
  let max_val := Py.Fin 100 in
  let current := min_val in
  (min_val ::.) <$> while_append fuel current step_val max_val.

(** [[f"{bins[i]:.0f}%-{bins[i + 1]:.0f}%" for i in range(len(bins) - 1)]]. *)
Definition range_labels (bins : list Py.float) : list string :=
  zip_with (λ lo hi, Py.format_f 0 lo +:+ "%-" +:+ Py.format_f 0 hi +:+ "%")
           bins (drop 1 bins).

(** What the [except Exception as e] handler draws. *)
Definition error_text (e : Py.exn) : list plt.call :=
  [plt.text (plt.At 0.5 0.5)
     ("Fehler bei der Diagrammerstellung:" +:+ Py.newline
      +:+ Py.str_exn e)].

Section builtins.

(** [float(s)] for the text of a spin box: the number read, or the
    [ValueError] raised. *)
Variable float : string → Py.result Py.float.

(** [str(x)] for a number, as an f-string interpolates it. *)
Variable str : Py.float → string.

(** [self.ax.pie(values, ...)] as matplotlib answers it: [None] when it
    draws the wedges, the exception when it refuses the sizes.  matplotlib
    refuses sizes that are all zero and sizes with a negative number among
    them; the theorems hold for every answer. *)
Variable ax_pie : list Q → option Py.exn.

Definition pie (values : list Q) (explode : option (list Q))
    (labels : list string) : Py.result plt.call :=
  match ax_pie values with
  | Some e => Py.Raise e
  | None => Py.Ok (plt.pie values explode labels)
  end.

(** The calls of a chart made on the axes one after the other: a pie that
    is refused raises, and the calls after it are not made. *)
Fixpoint on_axes (calls : list plt.call) : Py.result (list plt.call) :=
  match calls with
  | [] => Py.Ok []
  | plt.pie values explode labels :: rest =>
    wedges ← pie values explode labels;
    rest ← on_axes rest;
    Py.Ok (wedges :: rest)
  | call :: rest =>
    rest ← on_axes rest;
    Py.Ok (call :: rest)
  end.

(** [create_continent_avg_chart]: no [try] around the pie, so an exception
    of [ax.pie] leaves the function before the title is set. *)
Definition create_continent_avg_chart (d : pd.DataFrame)
    : Py.result (list plt.call) :=
  let continent_avg := pd.groupby_Continent_mean d in
  let continent_avg := pd.sort_values_desc continent_avg in
  let values := snd <$> continent_avg in
  let labels := fst <$> continent_avg in
  let explode := imap (λ i _, if decide (i = 0)%nat then 0.1%Q else 0%Q) values in
  wedges ← pie values (Some explode) labels;
  Py.Ok [wedges;
         plt.set_title "Durchschnittliche Einschulungsrate nach Kontinent"].

(** The [try] block of [create_range_distribution_chart]. *)
Definition range_distribution_body (fuel : nat) (min_var step_var : string)
    (d : pd.DataFrame) : option (Py.result (list plt.call)) :=
  match float min_var with
  | Py.Raise e => Some (Py.Raise e)
  | Py.Ok min_val =>
    match float step_var with
    | Py.Raise e => Some (Py.Raise e)
    | Py.Ok step_val =>
      bins ← range_bins fuel min_val step_val;
      let min_val := Py.max (Py.Fin 0) (Py.min (Py.Fin 100) min_val) in
      let step_val := Py.max (Py.Fin 5) (Py.min (Py.Fin 25) step_val) in
      let range_labels := range_labels bins in
      Some (
        binned_data ← pd.cut (pd.Rate <$> d) bins range_labels true;
        let range_counts := pd.value_counts_sort_index binned_data in
        if decide (length range_counts = 0)%nat then
          Py.Ok [plt.text (plt.At 0.5 0.5)
                   "Keine Daten in den angegebenen Bereichen"]
        else
          let values := count_values range_counts in
          let labels := fst <$> range_counts in
          wedges ← pie values None labels;
          Py.Ok [wedges;
                 plt.set_title
                   ("Verteilung der Länder nach Einschulungsrate (Minimum: "
                    +:+ str min_val +:+ "%, Schritte: "
                    +:+ str step_val +:+ "%)")])
    end
  end.

(** [create_range_distribution_chart]: the [try] block and its
    [except Exception] handler. *)
Definition create_range_distribution_chart (fuel : nat)
    (min_var step_var : string) (d : pd.DataFrame)
    : option (list plt.call) :=
  outcome ← range_distribution_body fuel min_var step_var d;
  match outcome with
  | Py.Ok calls => Some calls
  | Py.Raise e => Some (error_text e)
  end.

(** [update].  [self.ax.clear()] comes first.  The result is the state
    the call leaves and the exception that leaves it, if one does: the
    continent averages and the year distribution have no [try] around
    their pie, the range distribution catches what its [try] block
    raises. *)
Definition update (fuel : nat) (st : state)
    : option (state * option Py.exn) :=
  match df st with
  | None => Some (st, None)
  | Some d =>
    let st := set_ax [] st in
    let chart_type := chart_type_var st in
    let drawn (chart : Py.result (list plt.call)) :=
      match chart with
      | Py.Ok calls => (set_ax calls st, None)
      | Py.Raise e => (st, Some e)
      end in
    if decide (chart_type = "Durchschnittliche Einschulungsrate nach Kontinent")
    then Some (drawn (create_continent_avg_chart d))
    else if decide (chart_type = "Verteilung nach Einschulungsratenbereichen")
    then calls ← create_range_distribution_chart fuel
                    (min_var st) (step_var st) d;
         Some (set_ax calls st, None)
    else if decide (chart_type = "Verteilung der Daten nach Jahr")
    then Some (drawn (on_axes (create_year_distribution_chart d)))
    else Some (st, None)
  end.

End builtins.

End PieDiagram.

(** ** PlotterDiagram: the per-continent panels *)

Module PlotterDiagram.

(** The order of [sorted] on (year, rate) pairs. *)
Definition pair_le (p1 p2 : Z * Q) : Prop :=
  (p1.1 < p2.1)%Z ∨ (p1.1 = p2.1 ∧ (p1.2 <= p2.2)%Q).
#[global] Instance pair_le_dec : RelDecision pair_le.
Proof. intros p1 p2. unfold pair_le. apply _. Defined.

(** The calls on the axes of one continent. *)
Definition panel (continent : string) (d : pd.DataFrame) : list plt.call :=
  let rows := pd.where_Continent continent d in
  let continent_years := pd.Year <$> rows in
  let continent_rates := pd.Rate <$> rows in
  let continent_ents := pd.Entity <$> rows in
  let unique_entities := Py.sorted (pd.unique continent_ents) in
  [plt.set_title ("Einschulung - " +:+ continent)]
  ++ mjoin ((λ entity,
       let entity_rows := pd.where_Entity entity rows in
       let entity_years := pd.Year <$> entity_rows in
       let entity_rates := pd.Rate <$> entity_rows in
       plt.scatter entity_years entity_rates entity ::
       (if decide (1 < length entity_years)%nat then
          let entity_data := merge_sort pair_le (zip entity_years entity_rates) in
          [plt.plot (fst <$> entity_data) (snd <$> entity_data)]
        else [])) <$> unique_entities)
  ++ (if decide (length unique_entities ≤ 15)%nat
      then [plt.legend 1]
      else [plt.text (plt.At 0.02 0.98)
              (pretty (length unique_entities) +:+ " Länder")]).

(** [update]: one axes per continent, in sorted order. *)
Definition update (d : pd.DataFrame) : list (list plt.call) :=
  let unique_continents := Py.sorted (pd.unique (pd.Continent <$> d)) in
  (λ continent, panel continent d) <$> unique_continents.

End PlotterDiagram.

(** ** EinschulungsApp: loading a file and the file menu *)

Module EinschulungsApp.

(** [s.lstrip(chars)] on the characters of a string. *)
Fixpoint lstrip (chars : list ascii) (s : list ascii) : list ascii :=
  match s with
  | [] => []
  | c :: t => if decide (c ∈ chars) then lstrip chars t else s
  end.

(** [s.strip(chars)]: the characters of [chars] are taken off both ends. *)
Definition strip (chars : list ascii) (s : string) : string :=
  String.string_of_list_ascii
    (reverse
       (lstrip chars
          (reverse (lstrip chars (String.list_ascii_of_string s))))).

(** The characters of the argument of [h.strip] in [load_csv_file]: the
    double quote, the single quote and the space. *)
Definition header_chars : list ascii := ["034"; "039"; " "]%char.

(** [sep.join(l)]. *)
Definition join (sep : string) (l : list string) : string :=
  match l with
  | [] => ""
  | x :: t => foldl (λ acc y, acc +:+ sep +:+ y) x t
  end.

(** What the two readers of [load_csv_file] give for a file that can be
    read: the first row as [csv.reader] splits it, the column names of the
    frame [pd.read_csv] builds, and the rows of that frame under the four
    required columns.  The rows are typed and there is at least one: a
    file whose year or rate cells are not numbers, and a file of a header
    line only, are not values of this type. *)
Record csv_file := CsvFile {
  headers : list string;
  columns : list string;
  first_row : pd.row;
  more_rows : list pd.row;
}.

Definition rows (f : csv_file) : pd.DataFrame := first_row f :: more_rows f.

Definition required_columns : list string :=
  ["Entity"; "Continent"; "Year";
   "Combined total net enrolment rate, primary, both sexes"].

(** [{col: clean for col, clean in zip(df.columns, cleaned_headers)}]: a
    later pair replaces an earlier one with the same key. *)
Definition rename_dict (columns cleaned_headers : list string)
    : gmap string string :=
  foldl (λ m p, <[p.1 := p.2]> m) ∅ (zip columns cleaned_headers).

(** The column names of [df.rename(columns=rename_dict)]. *)
Definition rename (d : gmap string string) (columns : list string)
    : list string :=
  (λ col, default col (d !! col)) <$> columns.

(** [df.columns] as it stands when the required columns are looked for. *)
Definition final_columns (f : csv_file) : list string :=
  let cleaned_headers := strip header_chars <$> headers f in
  if decide (("Entity" ∉ columns f) ∧ ("Entity" ∈ cleaned_headers))
  then rename (rename_dict (columns f) cleaned_headers) (columns f)
  else columns f.

Definition missing_cols (cols : list string) : list string :=
  filter (λ col, col ∉ cols) required_columns.

(** What the program shows or writes; [print_exc] is a traceback on the
    standard error stream, written by [traceback.print_exc()] and by Tk for
    an exception that leaves a callback. *)
Inductive effect :=
| print_exc (e : Py.exn)
| showerror (title message : string)
| showwarning (title message : string)
| showinfo (title message : string)
| to_csv (path : string) (d : pd.DataFrame)
| write_json (path : string) (d : pd.DataFrame)
| savefig (tab : nat) (path : string).

(** The panel diagram: its table and one list of calls per axes. *)
Record plotter_state := PlotterState {
  plotter_df : option pd.DataFrame;
  plotter_axes : list (list plt.call);
}.

Record state := State {
  df : option pd.DataFrame;
  file_path : option string;
  bar_diagram : Diagram.state;
  scatter_plot : Diagram.state;
  pie_diagram : PieDiagram.state;
  plotter_diagram : plotter_state;
}.

(** The state [__init__] leaves. *)
Definition init : state :=
  State None None Diagram.init Diagram.init
    (PieDiagram.State None
       "Durchschnittliche Einschulungsrate nach Kontinent" "60" "10" [])
    (PlotterState None []).

(** [PlotterDiagram.update] on the state of the diagram. *)
Definition plotter_update (st : plotter_state) : plotter_state :=
  match plotter_df st with
  | None => st
  | Some d => PlotterState (Some d) (PlotterDiagram.update d)
  end.

(** [Diagram.set_data], which the panel diagram inherits. *)
Definition plotter_set_data (d : pd.DataFrame) (st : plotter_state)
    : plotter_state :=
  plotter_update (PlotterState (Some d) (plotter_axes st)).

Section builtins.

Variable float : string → Py.result Py.float.
Variable str : Py.float → string.
Variable ax_pie : list Q → option Py.exn.

(** [Diagram.set_data], which the pie diagram inherits: the table is
    stored before [update] runs. *)
Definition pie_set_data (fuel : nat) (d : pd.DataFrame)
    (st : PieDiagram.state) : option (PieDiagram.state * option Py.exn) :=
  PieDiagram.update float str ax_pie fuel
    (PieDiagram.State (Some d) (PieDiagram.chart_type_var st)
       (PieDiagram.min_var st) (PieDiagram.step_var st) (PieDiagram.ax st)).

(** The user picks [v] in the combobox of the pie diagram:
    [on_chart_type_selected] runs with [v] in [chart_type_var]. *)
Definition pie_select_chart_type (fuel : nat) (v : string)
    (st : PieDiagram.state) : option (PieDiagram.state * option Py.exn) :=
  PieDiagram.update float str ax_pie fuel
    (PieDiagram.State (PieDiagram.df st) v
       (PieDiagram.min_var st) (PieDiagram.step_var st) (PieDiagram.ax st)).

(** The user edits the two spin boxes and presses the button bound to
    [update]. *)
Definition pie_refresh (fuel : nat) (min_text step_text : string)
    (st : PieDiagram.state) : option (PieDiagram.state * option Py.exn) :=
  PieDiagram.update float str ax_pie fuel
    (PieDiagram.State (PieDiagram.df st) (PieDiagram.chart_type_var st)
       min_text step_text (PieDiagram.ax st)).

(** What Tk does with an exception that leaves a callback: the traceback
    is printed and the program goes on. *)
Definition report_callback_exception (raised : option Py.exn)
    : list effect :=
  match raised with
  | Some e => [print_exc e]
  | None => []
  end.

(** What the handler of [load_csv_file] does with an exception. *)
Definition load_failed (e : Py.exn) : list effect :=
  [showerror "Fehler"
     ("Fehler beim Laden der CSV-Datei:" +:+ Py.newline +:+ Py.str_exn e);
   print_exc e].

(** [load_csv_file].  [file_path] is what the file dialog returned, the
    empty string when it was cancelled; [read] is what opening and reading
    the file gave, an exception or the file.  The table and the path are
    stored before the diagrams get the table one after the other; an
    exception of the pie diagram is caught by the handler, and the panel
    diagram, which comes after it, is then left as it was.  For a table
    with a row the ranking, the trend and the panel diagram raise
    nothing. *)
Definition load_csv_file (fuel : nat) (file_path : string)
    (read : Py.result csv_file) (app : state)
    : option (state * list effect) :=
  if decide (file_path = "") then Some (app, [])
  else
    match read with
    | Py.Raise e => Some (app, load_failed e)
    | Py.Ok f =>
      let cols := final_columns f in
      match missing_cols cols with
      | (_ :: _) as missing =>
        Some (app,
              [showerror "Fehler"
                 ("Die Datei hat ein ungültiges Format. Folgende Spalten fehlen: "
                  +:+ join ", " missing +:+ Py.newline +:+ Py.newline
                  +:+ "Vorhandene Spalten: " +:+ join ", " cols)])
      | [] =>
        let d := rows f in
        let bar := BarDiagram.set_data (Some d) (bar_diagram app) in
        let scatter := ScatterPlot.set_data (Some d) (scatter_plot app) in
        '(pie, raised) ← pie_set_data fuel d (pie_diagram app);
        match raised with
        | Some e =>
          Some (State (Some d) (Some file_path) bar scatter pie
                  (plotter_diagram app),
                load_failed e)
        | None =>
          Some (State (Some d) (Some file_path) bar scatter pie
                  (plotter_set_data d (plotter_diagram app)),
                [])
        end
      end
    end.

(** [on_tab_changed] for the tab with the given index. *)
Definition on_tab_changed (fuel : nat) (current_tab_index : nat)
    (app : state) : option (state * list effect) :=
  match df app with
  | None => Some (app, [])
  | Some _ =>
    match current_tab_index with
    | 1 => Some (State (df app) (file_path app)
                   (BarDiagram.update (bar_diagram app))
                   (scatter_plot app) (pie_diagram app) (plotter_diagram app),
                 [])
    | 2 => Some (State (df app) (file_path app) (bar_diagram app)
                   (ScatterPlot.update (scatter_plot app))
                   (pie_diagram app) (plotter_diagram app),
                 [])
    | 3 => '(pie, raised) ← PieDiagram.update float str ax_pie fuel
                               (pie_diagram app);
           Some (State (df app) (file_path app) (bar_diagram app)
                   (scatter_plot app) pie (plotter_diagram app),
                 report_callback_exception raised)
    | 4 => Some (State (df app) (file_path app) (bar_diagram app)
                   (scatter_plot app) (pie_diagram app)
                   (plotter_update (plotter_diagram app)),
                 [])
    | _ => Some (app, [])
    end
  end.

End builtins.

(** [save_csv_file].  [csv_path] is what the file dialog returned and
    [failure] the exception of [to_csv], if it raised one. *)
Definition save_csv_file (csv_path : string) (failure : option Py.exn)
    (app : state) : list effect :=
  match df app with
  | None => [showwarning "Warnung" "Keine Daten zum Speichern vorhanden."]
  | Some d =>
    if decide (csv_path = "") then []
    else
      match failure with
      | None => [to_csv csv_path d;
                 showinfo "Erfolg"
                   ("Datei erfolgreich gespeichert:" +:+ Py.newline
                    +:+ csv_path)]
      | Some e => [to_csv csv_path d;
                   showerror "Fehler"
                     ("Fehler beim Speichern der CSV-Datei:" +:+ Py.newline
                      +:+ Py.str_exn e)]
      end
  end.

(** [convert_to_json]. *)
Definition convert_to_json (json_path : string) (failure : option Py.exn)
    (app : state) : list effect :=
  match df app, file_path app with
  | Some d, Some _ =>
    if decide (json_path = "") then []
    else
      match failure with
      | None => [write_json json_path d;
                 showinfo "Erfolg"
                   ("Datei erfolgreich als JSON gespeichert:" +:+ Py.newline
                    +:+ json_path)]
      | Some e => [write_json json_path d;
                   showerror "Fehler"
                     ("Fehler bei der Konvertierung nach JSON:" +:+ Py.newline
                      +:+ Py.str_exn e)]
      end
  | _, _ => [showwarning "Warnung" "Keine Daten zum Konvertieren vorhanden."]
  end.

(** [Diagram.save] for a diagram holding the table [diagram_df]:
    [failure] tells whether [savefig] raised. *)
Definition save (tab : nat) (diagram_df : option pd.DataFrame)
    (filepath : string) (failure : bool) : bool * list effect :=
  match diagram_df with
  | None => (false, [])
  | Some _ => (negb failure, [savefig tab filepath])
  end.

(** [save_chart_as_image] with the tab of the given index in front. *)
Definition save_chart_as_image (current_tab_index : nat)
    (image_path : string) (failure : bool) (app : state) : list effect :=
  match df app with
  | None => [showwarning "Warnung" "Keine Daten zum Speichern vorhanden."]
  | Some _ =>
    let diagram :=
      match current_tab_index with
      | 1 => Some (Diagram.df (bar_diagram app))
      | 2 => Some (Diagram.df (scatter_plot app))
      | 3 => Some (PieDiagram.df (pie_diagram app))
      | _ => None
      end in
    match diagram with
    | None => [showwarning "Warnung"
                 "In diesem Tab gibt es kein Diagramm zum Speichern."]
    | Some diagram_df =>
      if decide (image_path = "") then []
      else
        let '(success, written) :=
          save current_tab_index diagram_df image_path failure in
        (written ++
        [if success
         then showinfo "Erfolg"
                ("Diagramm erfolgreich gespeichert als:" +:+ Py.newline
                 +:+ image_path)
         else showerror "Fehler" "Fehler beim Speichern des Diagramms."])%list
    end
  end.

(** What the user can do, with what the dialogs and the file system
    answer. *)
Inductive event :=
| LoadCsv (file_path : string) (read : Py.result csv_file)
| SaveCsv (csv_path : string) (failure : option Py.exn)
| ConvertToJson (json_path : string) (failure : option Py.exn)
| SaveChartAsImage (tab : nat) (image_path : string) (failure : bool)
| TabChanged (tab : nat)
| BarSelectContinent (v : string)
| BarSelectCountry (v : string)
| ScatterSelectContinent (v : string)
| ScatterSelectCountry (v : string)
| PieSelectChartType (v : string)
| PieRefresh (min_text step_text : string).

Section run.

Variable float : string → Py.result Py.float.
Variable str : Py.float → string.
Variable ax_pie : list Q → option Py.exn.

Definition step (fuel : nat) (ev : event) (app : state)
    : option (state * list effect) :=
  match ev with
  | LoadCsv file_path read =>
    load_csv_file float str ax_pie fuel file_path read app
  | SaveCsv csv_path failure => Some (app, save_csv_file csv_path failure app)
  | ConvertToJson json_path failure =>
    Some (app, convert_to_json json_path failure app)
  | SaveChartAsImage tab image_path failure =>
    Some (app, save_chart_as_image tab image_path failure app)
  | TabChanged tab => on_tab_changed float str ax_pie fuel tab app
  | BarSelectContinent v =>
    Some (State (df app) (file_path app)
            (BarDiagram.select_continent v (bar_diagram app))
            (scatter_plot app) (pie_diagram app) (plotter_diagram app), [])
  | BarSelectCountry v =>
    Some (State (df app) (file_path app)
            (BarDiagram.select_country v (bar_diagram app))
            (scatter_plot app) (pie_diagram app) (plotter_diagram app), [])
  | ScatterSelectContinent v =>
    Some (State (df app) (file_path app) (bar_diagram app)
            (ScatterPlot.select_continent v (scatter_plot app))
            (pie_diagram app) (plotter_diagram app), [])
  | ScatterSelectCountry v =>
    Some (State (df app) (file_path app) (bar_diagram app)
            (ScatterPlot.select_country v (scatter_plot app))
            (pie_diagram app) (plotter_diagram app), [])
  | PieSelectChartType v =>
    '(pie, raised) ← pie_select_chart_type float str ax_pie fuel v
                       (pie_diagram app);
    Some (State (df app) (file_path app) (bar_diagram app)
            (scatter_plot app) pie (plotter_diagram app),
          report_callback_exception raised)
  | PieRefresh min_text step_text =>
    '(pie, raised) ← pie_refresh float str ax_pie fuel min_text step_text
                       (pie_diagram app);
    Some (State (df app) (file_path app) (bar_diagram app)
            (scatter_plot app) pie (plotter_diagram app),
          report_callback_exception raised)
  end.

(** A session: the events one after the other, from a given state; the
    effects are collected in order. *)
Fixpoint run (fuel : nat) (events : list event) (app : state)
    : option (state * list effect) :=
  match events with
  | [] => Some (app, [])
  | ev :: rest =>
    '(app', out) ← step fuel ev app;
    '(final, out') ← run fuel rest app';
    Some (final, (out ++ out')%list)
  end.

End run.

End EinschulungsApp.

(** A table with sixteen countries, one row each. *)
Definition D16 : pd.DataFrame :=
  (λ i : nat, pd.Row ("Land " +:+ pretty i) "Asia" 2000 50) <$> seq 0 16.

(** The table of the scenarios. *)
Definition D0 : pd.DataFrame :=
  [ pd.Row "Ghana" "Africa" 2010 62.5;
    pd.Row "Kenya" "Africa" 2012 74.0;
    pd.Row "France" "Europe" 2015 99.1 ].

(** A table whose rows of Ghana stand in descending order of year. *)
Definition D1 : pd.DataFrame :=
  [ pd.Row "Ghana" "Africa" 2012 70;
    pd.Row "Ghana" "Africa" 2010 60 ].

(** An answer of [ax.pie] for the scenarios: sizes with a negative number
    among them and sizes that are all zero are refused, with texts that
    stand for matplotlib's; other sizes are drawn.  The scenarios hand it
    no empty list of sizes. *)
Definition pie0 (values : list Q) : option Py.exn :=
  if decide (Exists (λ v, (v < 0)%Q) values)
  then Some (Py.ValueError "Wedge sizes 'x' must be non negative values")
  else if decide (values ≠ [] ∧ Forall (λ v, (v == 0)%Q) values)
  then Some (Py.ValueError "cannot convert float NaN to integer")
  else None.

(** A file with the four required columns and the rows of [D0]. *)
Definition file0 : EinschulungsApp.csv_file :=
  EinschulungsApp.CsvFile EinschulungsApp.required_columns
    EinschulungsApp.required_columns
    (pd.Row "Ghana" "Africa" 2010 62.5)
    [ pd.Row "Kenya" "Africa" 2012 74.0;
      pd.Row "France" "Europe" 2015 99.1 ].

(** A file with one row, of rate zero. *)
Definition file_zero : EinschulungsApp.csv_file :=
  EinschulungsApp.CsvFile EinschulungsApp.required_columns
    EinschulungsApp.required_columns
    (pd.Row "Mali" "Africa" 2010 0) [].

(** A file whose header line puts its names in single quotes and a space
    after the comma; both readers keep the quotes and the space. *)
Definition file1 : EinschulungsApp.csv_file :=
  EinschulungsApp.CsvFile
    ["'Entity'"; " 'Continent'"] ["'Entity'"; " 'Continent'"]
    (pd.Row "Ghana" "Africa" 2010 62.5)
    [ pd.Row "Kenya" "Africa" 2012 74.0;
      pd.Row "France" "Europe" 2015 99.1 ].

(** A session: a file whose continent averages matplotlib refuses is
    loaded, then the file of [D0]; the user looks at the range
    distribution, picks a continent and a country in the ranking, and
    saves the table. *)
Definition session0 : list EinschulungsApp.event :=
  [ EinschulungsApp.LoadCsv "null.csv" (Py.Ok file_zero);
    EinschulungsApp.LoadCsv "daten.csv" (Py.Ok file0);
    EinschulungsApp.TabChanged 3;
    EinschulungsApp.PieSelectChartType
      "Verteilung nach Einschulungsratenbereichen";
    EinschulungsApp.TabChanged 1;
    EinschulungsApp.BarSelectContinent "Africa";
    EinschulungsApp.BarSelectCountry "Ghana";
    EinschulungsApp.SaveCsv "kopie.csv" None ].

(** Where [session0] ends and what it showed and wrote. *)
Definition end0 : EinschulungsApp.state * list EinschulungsApp.effect :=
  default (EinschulungsApp.init, [])
    (EinschulungsApp.run Py.float_of_digits (Py.format_f 1) pie0 (21 + 0)
       session0 EinschulungsApp.init).

(** ** Predicates used in the statements *)

(** What the loop appends after the edge [c]: nothing once [c] has reached
    100, otherwise the next edge [min(c + s, 100)] and what follows it. *)
Fixpoint edge_chain (s c : Q) (rest : list Q) : Prop :=
  match rest with
  | [] => ¬ (c < 100)%Q
  | b :: t => (c < 100)%Q ∧ (b == Qmin (c + s) 100)%Q ∧ edge_chain s b t
  end.

(** A text without the percent sign. *)
Fixpoint no_percent (s : string) : Prop :=
  match s with
  | EmptyString => True
  | String c t => c ≠ "%"%char ∧ no_percent t
  end.

(** The application and its ranking, trend and composition diagrams hold
    the same table, and a table is held exactly when the path of its file
    is. *)
Definition consistent (app : EinschulungsApp.state) : Prop :=
  Diagram.df (EinschulungsApp.bar_diagram app) = EinschulungsApp.df app
  ∧ Diagram.df (EinschulungsApp.scatter_plot app) = EinschulungsApp.df app
  ∧ PieDiagram.df (EinschulungsApp.pie_diagram app) = EinschulungsApp.df app
  ∧ (is_Some (EinschulungsApp.df app)
     ↔ is_Some (EinschulungsApp.file_path app)).

(** Once a table is held, the axes of the ranking and of the trend diagram
    show what [update] draws from it and from what the comboboxes show;
    the panel diagram shows the panels of the table it holds itself. *)
Definition in_sync (app : EinschulungsApp.state) : Prop :=
  (∀ d, EinschulungsApp.df app = Some d →
    let bar := EinschulungsApp.bar_diagram app in
    let scatter := EinschulungsApp.scatter_plot app in
    Diagram.ax bar
    = BarDiagram.draw (Diagram.continent_var bar)
        (Diagram.highlight_country bar) d
    ∧ Diagram.ax scatter
      = ScatterPlot.draw (Diagram.continent_var scatter)
          (Diagram.country_var scatter) d)
  ∧ ∀ d, EinschulungsApp.plotter_df (EinschulungsApp.plotter_diagram app)
         = Some d →
      EinschulungsApp.plotter_axes (EinschulungsApp.plotter_diagram app)
      = PlotterDiagram.update d.

(** * Properties *)

(** ** Orders *)

#[global] Instance rate_desc_total : Total pd.rate_desc.
Proof.
  intros r1 r2. unfold pd.rate_desc.
  destruct (Qlt_le_dec (pd.Rate r1) (pd.Rate r2)) as [Hlt|Hle]; [right|left]; [|done].
  by apply Qlt_le_weak.
Qed.

#[global] Instance rate_desc_trans : Transitive pd.rate_desc.
Proof. intros r1 r2 r3 H12 H23. unfold pd.rate_desc in *. by eapply Qle_trans. Qed.

#[global] Instance value_desc_total {K} : Total (@pd.value_desc K).
Proof.
  intros e1 e2. unfold pd.value_desc.
  destruct (Qlt_le_dec e1.2 e2.2) as [Hlt|Hle]; [right|left]; [|done].
  by apply Qlt_le_weak.
Qed.

#[global] Instance value_desc_trans {K} : Transitive (@pd.value_desc K).
Proof. intros e1 e2 e3 H12 H23. unfold pd.value_desc in *. by eapply Qle_trans. Qed.

#[global] Instance index_asc_total {V} : Total (@pd.index_asc V).
Proof. intros e1 e2. unfold pd.index_asc. lia. Qed.

#[global] Instance index_asc_trans {V} : Transitive (@pd.index_asc V).
Proof. intros e1 e2 e3. unfold pd.index_asc. lia. Qed.

(** ** [unique] *)

Section unique_facts.
Context {A : Type} `{EqDecision A}.
Implicit Types l : list A.

Lemma elem_of_unique l x : x ∈ pd.unique l ↔ x ∈ l.
Proof.
  induction l as [|y t IH]; simpl; [done|].
  rewrite !elem_of_cons, list_elem_of_filter, IH.
  destruct (decide (x = y)); tauto.
Qed.

Lemma NoDup_unique l : NoDup (pd.unique l).
Proof.
  induction l as [|y t IH]; simpl; [constructor|].
  constructor; [|by apply NoDup_filter].
  rewrite list_elem_of_filter. tauto.
Qed.

Lemma count_not_elem_of l x : x ∉ l → filter (λ y, y = x) l = [].
Proof.
  induction l as [|z t IH]; intros Hnin; [done|].
  apply not_elem_of_cons in Hnin as [Hne Hnin].
  rewrite filter_cons, decide_False by congruence. by apply IH.
Qed.

(** Counting the rows of every distinct value counts every row once. *)
Lemma sum_counts_filter (f : A → nat) l x :
  NoDup l →
  sum_list_with f l =
    (sum_list_with f (filter (λ y, y ≠ x) l)
     + (if decide (x ∈ l) then f x else 0))%nat.
Proof.
  induction 1 as [|y t Hy Hnd IH]; simpl; [done|].
  rewrite filter_cons. destruct (decide (y ≠ x)) as [Hne|Heq]; simpl.
  - rewrite IH. destruct (decide (x ∈ t)), (decide (x ∈ y :: t)) as [Hin|Hnin];
      try lia.
    + exfalso. apply Hnin. by right.
    + exfalso. apply elem_of_cons in Hin as [->|?]; done.
  - apply dec_stable in Heq as ->.
    rewrite IH. destruct (decide (x ∈ t)); [done|].
    destruct (decide (x ∈ x :: t)) as [|Hnin]; [lia|].
    exfalso. apply Hnin. by left.
Qed.

Lemma sum_counts_unique l :
  sum_list_with (λ v, length (filter (λ x, x = v) l)) (pd.unique l) = length l.
Proof.
  induction l as [|y t IH]; simpl; [done|].
  rewrite filter_cons, decide_True by done. simpl.
  rewrite <-IH.
  rewrite (sum_counts_filter _ (pd.unique t) y) by apply NoDup_unique.
  assert (Hother :
    sum_list_with (λ v, length (filter (λ x, x = v) (y :: t)))
                  (filter (λ z, z ≠ y) (pd.unique t))
    = sum_list_with (λ v, length (filter (λ x, x = v) t))
                    (filter (λ z, z ≠ y) (pd.unique t))).
  { generalize (pd.unique t). intros u.
    induction u as [|z u IHu]; simpl; [done|].
    rewrite filter_cons. destruct (decide (z ≠ y)); simpl; [|done].
    rewrite IHu, filter_cons, decide_False; [done|congruence]. }
  rewrite Hother.
  destruct (decide (y ∈ pd.unique t)) as [Hin|Hnin]; [lia|].
  rewrite elem_of_unique in Hnin.
  rewrite count_not_elem_of by done. simpl. lia.
Qed.

End unique_facts.

(** ** Sorted series *)

Lemma count_fmap {A B} `{EqDecision B} (f : A → B) (l : list A) (v : B) :
  length (filter (λ x, x = v) (f <$> l)) = length (filter (λ a, f a = v) l).
Proof.
  induction l as [|a t IH]; [done|].
  rewrite fmap_cons, !filter_cons.
  destruct (decide (f a = v)); simpl; by rewrite IH.
Qed.

Lemma count_pos_elem_of {A} `{EqDecision A} (l : list A) (v : A) :
  (0 < length (filter (λ x, x = v) l))%nat ↔ v ∈ l.
Proof.
  split.
  - intros Hpos. destruct (decide (v ∈ l)) as [|Hnin]; [done|].
    rewrite count_not_elem_of in Hpos by done. simpl in Hpos. lia.
  - intros Hin. induction l as [|a t IH]; [by apply elem_of_nil in Hin|].
    rewrite filter_cons. destruct (decide (a = v)); simpl; [lia|].
    apply elem_of_cons in Hin as [->|Hin]; [done|by apply IH].
Qed.

(** A series sorted by its index, whose index has no duplicates, has a
    strictly ascending index. *)
Lemma sorted_index_strict {V} (s : pd.Series Z V) :
  StronglySorted pd.index_asc s → NoDup (s.*1) → StronglySorted Z.lt (s.*1).
Proof.
  induction 1 as [|e t Hsorted IH Hall]; intros Hnd; simpl; [constructor|].
  apply NoDup_cons in Hnd as [Hnin Hnd].
  constructor; [by apply IH|].
  apply Forall_fmap, Forall_forall. intros e' Hin. simpl.
  rewrite Forall_forall in Hall. specialize (Hall e' Hin).
  unfold pd.index_asc in Hall.
  assert (e.1 ≠ e'.1); [|lia].
  intros Heq. apply Hnin. rewrite Heq. by apply list_elem_of_fmap_2.
Qed.

(** ** The ranking view *)

(** C2. The bars of the ranking view are exactly the rows whose continent
    is the selected one (every row when the selection is "Alle"), in
    non-increasing order of rate.  Bar [i] carries the entity and the rate
    of row [i], its year is written as an integer at the foot of the bar,
    and its rate with two decimals above the bar; with no such row the
    view shows its no-data text. *)
Theorem ranking_series_selected_and_sorted
    (d : pd.DataFrame) (C : string) (highlight : option string) :
  ∃ rows : list pd.row,
    rows ≡ₚ filter (λ r, C = "Alle" ∨ pd.Continent r = C) d ∧
    StronglySorted (λ r1 r2, (pd.Rate r2 <= pd.Rate r1)%Q) rows ∧
    BarDiagram.draw C highlight d =
      match rows with
      | [] => [plt.text (plt.At 0.5 0.5)
                 ("Keine Daten für " +:+ C +:+ " vorhanden")]
      | _ =>
        ([plt.bar (pd.Entity <$> rows) (pd.Rate <$> rows)
            ((λ r, if decide (highlight = Some (pd.Entity r))
                   then "orange" else "skyblue") <$> rows)]
         ++ imap (λ i r, plt.text (plt.BarCentre i 5) (pretty (pd.Year r)))
                 rows
         ++ [plt.set_title
               (if decide (C = "Alle")
                then "Einschulungsrate auf allen Kontinenten"
                else "Einschulungsrate - " +:+ C)]
         ++ imap (λ i r, plt.text (plt.BarCentre i (pd.Rate r + 1))
                           (Py.format_Q 2 (pd.Rate r) +:+ "%"))
                 rows)%list
      end.
Proof.
  set (selected := filter (λ r, C = "Alle" ∨ pd.Continent r = C) d).
  exists (pd.sort_values_Rate_desc selected).
  split; [apply merge_sort_Permutation|].
  split; [apply (StronglySorted_merge_sort pd.rate_desc)|].
  assert (Hlabels : ∀ rows : list pd.row,
    BarDiagram.year_labels (pd.Year <$> rows)
    = imap (λ i r, plt.text (plt.BarCentre i 5) (pretty (pd.Year r))) rows
    ∧ BarDiagram.value_labels (pd.Rate <$> rows)
      = imap (λ i r, plt.text (plt.BarCentre i (pd.Rate r + 1))
                       (Py.format_Q 2 (pd.Rate r) +:+ "%")) rows).
  { intros rows. unfold BarDiagram.year_labels, BarDiagram.value_labels.
    by rewrite !imap_fmap. }
  unfold BarDiagram.draw.
  destruct (decide (C = "Alle")) as [->|Hne].
  - assert (selected = d) as ->.
    { unfold selected. clear. induction d as [|r t IH]; [done|].
      rewrite filter_cons_True by (by left). by rewrite IH. }
    destruct (Hlabels (pd.sort_values_Rate_desc d)) as [<- <-].
    destruct (pd.sort_values_Rate_desc d); [done|].
    by rewrite <-list_fmap_compose.
  - assert (pd.where_Continent C d = selected) as ->.
    { unfold selected, pd.where_Continent. apply list_filter_iff. tauto. }
    destruct (Hlabels (pd.sort_values_Rate_desc selected)) as [<- <-].
    destruct (pd.sort_values_Rate_desc selected); [done|].
    by rewrite <-list_fmap_compose.
Qed.

(** The scenario of the specification: all continents of [D0]. *)
Example ranking_scenario :
  ∃ rest, BarDiagram.draw "Alle" None D0 =
    plt.bar ["France"; "Kenya"; "Ghana"] [99.1; 74.0; 62.5]%Q
            ["skyblue"; "skyblue"; "skyblue"]
    :: plt.text (plt.BarCentre 0 5) "2015"
    :: plt.text (plt.BarCentre 1 5) "2012"
    :: plt.text (plt.BarCentre 2 5) "2010" :: rest.
Proof. eexists. vm_compute. reflexivity. Qed.

(** ** The composition view: rows per year *)

(** C9. The year distribution groups the rows by year and counts them: the
    counts add up to the number of rows, the years come in ascending order,
    every year of the table appears with the number of its rows, and the
    label of a slice is the year written as an integer. *)
Theorem year_distribution_counts (d : pd.DataFrame) :
  let year_counts := pd.sort_index (pd.value_counts (pd.Year <$> d)) in
  PieDiagram.create_year_distribution_chart d =
    [plt.pie ((λ e, inject_Z (Z.of_nat e.2)) <$> year_counts) None
             ((λ e, pretty e.1) <$> year_counts);
     plt.set_title "Verteilung der Daten nach Erhebungsjahr"]
  ∧ sum_list (year_counts.*2) = length d
  ∧ StronglySorted Z.lt (year_counts.*1)
  ∧ ∀ y n, (y, n) ∈ year_counts ↔
           n = length (filter (λ r, pd.Year r = y) d) ∧ (0 < n)%nat.
Proof.
  intros year_counts.
  set (col := pd.Year <$> d).
  set (base := (λ v, (v, length (filter (λ x, x = v) col))) <$> pd.unique col).
  assert (Hperm : year_counts ≡ₚ base).
  { unfold year_counts, pd.sort_index, pd.value_counts.
    by rewrite !merge_sort_Permutation. }
  split; [done|]. split; [|split].
  - rewrite Hperm. unfold base. rewrite <-list_fmap_compose.
    transitivity (sum_list_with (λ v, length (filter (λ x, x = v) col))
                                (pd.unique col)).
    + generalize (pd.unique col). intros u.
      induction u as [|v u IH]; csimpl; [done|]. by rewrite IH.
    + rewrite sum_counts_unique. unfold col. by rewrite length_fmap.
  - apply sorted_index_strict.
    + apply (StronglySorted_merge_sort pd.index_asc).
    + rewrite Hperm. unfold base. rewrite <-list_fmap_compose.
      simpl. rewrite list_fmap_id. apply NoDup_unique.
  - intros y n. rewrite Hperm. unfold base.
    assert (Hcount : ∀ v, length (filter (λ x, x = v) col)
                          = length (filter (λ r, pd.Year r = v) d))
      by (intros v; apply count_fmap).
    rewrite list_elem_of_fmap. split.
    + intros (v & Heq & Hin). injection Heq as Hy Hn. subst y n.
      rewrite elem_of_unique in Hin.
      split; [apply Hcount|]. by apply count_pos_elem_of.
    + intros [-> Hpos]. exists y. rewrite <-Hcount in Hpos |- *.
      split; [done|]. apply elem_of_unique. by apply count_pos_elem_of.
Qed.

(** ** The composition view: mean rate per continent *)

(** The [explode] list: the first slice and no other. *)
Lemma explode_first_only {A} (l : list A) :
  imap (λ i _, if decide (i = 0)%nat then 0.1%Q else 0%Q) l =
  match l with
  | [] => []
  | _ :: t => 0.1%Q :: ((λ _, 0%Q) <$> t)
  end.
Proof.
  destruct l as [|x t]; [done|].
  rewrite imap_cons. simpl. f_equal.
  rewrite <-imap_const. by apply imap_ext.
Qed.

(** C8. The continent averages.  For every table the function hands
    [ax.pie] one slice per continent of the table, its value the arithmetic
    mean of the rates of that continent's rows, the slices in
    non-increasing order of mean, and the first slice of that order, and
    only it, pulled out of the pie.  The axes then hold this pie and the
    title; only when matplotlib refuses the sizes does its exception leave
    the function instead.  On the table [D0] the slices are Europe with
    99.1, pulled out, and Africa with 68.25. *)
Theorem continent_average_chart (ax_pie : list Q → option Py.exn) :
  (∀ d : pd.DataFrame,
    ∃ avg : list (string * Q),
      PieDiagram.create_continent_avg_chart ax_pie d =
        match ax_pie (avg.*2) with
        | None =>
          Py.Ok
            [plt.pie (avg.*2)
               (Some match avg with
                     | [] => []
                     | _ :: rest => 0.1%Q :: ((λ _, 0%Q) <$> rest)
                     end)
               (avg.*1);
             plt.set_title
               "Durchschnittliche Einschulungsrate nach Kontinent"]
        | Some e => Py.Raise e
        end
      ∧ NoDup (avg.*1)
      ∧ (∀ c, c ∈ avg.*1 ↔ c ∈ pd.Continent <$> d)
      ∧ (∀ c m, (c, m) ∈ avg →
           m = (pd.sum (pd.Rate <$> filter (λ r, pd.Continent r = c) d)
                / inject_Z (Z.of_nat
                    (length (filter (λ r, pd.Continent r = c) d))))%Q)
      ∧ StronglySorted (λ e1 e2, (e2.2 <= e1.2)%Q) avg)
  ∧ ∃ m : Q,
      PieDiagram.create_continent_avg_chart ax_pie D0 =
        match ax_pie [99.1%Q; m] with
        | None =>
          Py.Ok
            [plt.pie [99.1%Q; m] (Some [0.1%Q; 0%Q]) ["Europe"; "Africa"];
             plt.set_title
               "Durchschnittliche Einschulungsrate nach Kontinent"]
        | Some e => Py.Raise e
        end
      ∧ (m == 68.25)%Q.
Proof.
  split.
  - intros d.
    set (keys := Py.sorted (pd.unique (pd.Continent <$> d))).
    exists (pd.sort_values_desc (pd.groupby_Continent_mean d)).
    assert (Hperm : pd.sort_values_desc (pd.groupby_Continent_mean d)
                    ≡ₚ pd.groupby_Continent_mean d)
      by apply merge_sort_Permutation.
    assert (Hkeys : (pd.sort_values_desc (pd.groupby_Continent_mean d)).*1
                    ≡ₚ pd.unique (pd.Continent <$> d)).
    { rewrite Hperm. unfold pd.groupby_Continent_mean.
      rewrite <-list_fmap_compose. simpl. rewrite list_fmap_id.
      apply merge_sort_Permutation. }
    split; [|split; [|split; [|split]]].
    + unfold PieDiagram.create_continent_avg_chart, PieDiagram.pie.
      rewrite explode_first_only.
      destruct (ax_pie _) as [e|]; [done|].
      destruct (pd.sort_values_desc (pd.groupby_Continent_mean d))
        as [|e rest]; [done|].
      csimpl. by rewrite <-list_fmap_compose.
    + rewrite Hkeys. apply NoDup_unique.
    + intros c. rewrite Hkeys. apply elem_of_unique.
    + intros c m. rewrite Hperm. unfold pd.groupby_Continent_mean.
      rewrite list_elem_of_fmap. intros (c' & Heq & _).
      injection Heq as Hc Hm. subst c m.
      unfold pd.mean, pd.where_Continent. by rewrite length_fmap.
    + apply (StronglySorted_merge_sort pd.value_desc).
  - exists (13650 # 200)%Q. split; [|reflexivity].
    unfold PieDiagram.create_continent_avg_chart, PieDiagram.pie.
    replace ((pd.sort_values_desc (pd.groupby_Continent_mean D0)).*2)
      with [99.1%Q; (13650 # 200)%Q] by (vm_compute; reflexivity).
    by destruct (ax_pie _).
Qed.

(** A table with one row, of rate zero: the only mean is zero, the
    answer [pie0] refuses it, and the exception leaves the function. *)
Example continent_average_refused :
  PieDiagram.create_continent_avg_chart pie0 [pd.Row "Mali" "Africa" 2010 0]
  = Py.Raise (Py.ValueError "cannot convert float NaN to integer").
Proof. vm_compute. reflexivity. Qed.

(** ** The bucket edges of the range distribution *)

Lemma lt_Fin (a b : Q) : Py.lt (Py.Fin a) (Py.Fin b) = bool_decide (a < b)%Q.
Proof. done. Qed.

Lemma min_Fin (a b : Q) :
  Py.min (Py.Fin a) (Py.Fin b) = Py.Fin (if bool_decide (b < a)%Q then b else a).
Proof. unfold Py.min. rewrite lt_Fin. by case_bool_decide. Qed.

(** Clamping with [max(lo, min(hi, x))] always gives a finite number between
    the bounds, whatever [float()] returned. *)
Lemma clamp_finite (lo hi : Q) (x : Py.float) :
  (lo <= hi)%Q →
  ∃ q, Py.max (Py.Fin lo) (Py.min (Py.Fin hi) x) = Py.Fin q
       ∧ (lo <= q <= hi)%Q
       ∧ ∀ v, x = Py.Fin v → (q == Qmax lo (Qmin hi v))%Q.
Proof.
  intros Hle. destruct x as [v| | |]; unfold Py.min, Py.max.
  - rewrite lt_Fin. destruct (bool_decide_reflect (v < hi)%Q) as [Hv|Hv];
      rewrite lt_Fin;
      [destruct (bool_decide_reflect (lo < v)%Q) as [Hlo|Hlo]
      |destruct (bool_decide_reflect (lo < hi)%Q) as [Hlo|Hlo]].
    + exists v. split; [done|]. split; [split; lra|].
      intros ? [= <-]. rewrite (Q.min_r hi v), Q.max_r; lra.
    + exists lo. split; [done|]. split; [split; lra|].
      intros ? [= <-]. rewrite (Q.min_r hi v), Q.max_l; lra.
    + exists hi. split; [done|]. split; [split; lra|].
      intros ? [= <-]. rewrite (Q.min_l hi v), Q.max_r; lra.
    + exists lo. split; [done|]. split; [split; lra|].
      intros ? [= <-]. rewrite (Q.min_l hi v), Q.max_l; lra.
  - simpl. destruct (bool_decide_reflect (lo < hi)%Q).
    + exists hi. split; [done|]. split; [split; lra|]. by intros ? [=].
    + exists lo. split; [done|]. split; [split; lra|]. by intros ? [=].
  - simpl. exists lo. split; [done|]. split; [split; lra|]. by intros ? [=].
  - simpl. destruct (bool_decide_reflect (lo < hi)%Q).
    + exists hi. split; [done|]. split; [split; lra|]. by intros ? [=].
    + exists lo. split; [done|]. split; [split; lra|]. by intros ? [=].
Qed.

Lemma while_append_chain (n k : nat) (s c : Q) :
  (5 <= s)%Q → (c <= 100)%Q → (100 - c <= 5 * inject_Z (Z.of_nat n))%Q →
  ∃ rest,
    PieDiagram.while_append (S n + k) (Py.Fin c) (Py.Fin s) (Py.Fin 100)
      = Some (Py.Fin <$> rest)
    ∧ edge_chain s c rest.
Proof.
  intros Hs. revert c. induction n as [|n IH]; intros c Hc Hn.
  - change (inject_Z (Z.of_nat 0)) with 0%Q in Hn.
    assert (Hnlt : ¬ (c < 100)%Q) by lra.
    exists []. split; [|done].
    change (1 + k)%nat with (S k).
    cbn [PieDiagram.while_append]. by rewrite lt_Fin, bool_decide_false.
  - destruct (decide (c < 100)%Q) as [Hlt|Hnlt].
    + set (b := if bool_decide (100 < c + s)%Q then 100%Q else (c + s)%Q).
      assert (Hb : (b == Qmin (c + s) 100)%Q).
      { unfold b. case_bool_decide.
        - rewrite Q.min_r; lra.
        - rewrite Q.min_l; lra. }
      destruct (IH b) as (rest & Hrun & Hchain).
      { rewrite Hb. apply Q.le_min_r. }
      { rewrite Nat2Z.inj_succ, <-Z.add_1_r, inject_Z_plus in Hn.
        change (inject_Z 1) with 1%Q in Hn.
        unfold b. case_bool_decide.
        - assert (0 <= inject_Z (Z.of_nat n))%Q; [|lra].
          change 0%Q with (inject_Z 0). rewrite <-Zle_Qle. lia.
        - lra. }
      exists (b :: rest). split; [|done].
      change (S (S n) + k)%nat with (S (S n + k)).
      cbn [PieDiagram.while_append]. rewrite lt_Fin, bool_decide_true by done.
      cbn [Py.add]. rewrite min_Fin. fold b. by rewrite Hrun.
    + exists []. split; [|done].
      change (S (S n) + k)%nat with (S (S n + k)).
      cbn [PieDiagram.while_append]. by rewrite lt_Fin, bool_decide_false.
Qed.

#[global] Instance Qlt_transitive : Transitive Qlt := Qlt_trans.

Section edge_chain_facts.
Variable s : Q.
Hypothesis step_pos : (0 < s)%Q.

Lemma edge_chain_next c b t :
  edge_chain s c (b :: t) → (c < b)%Q ∧ (b <= 100)%Q.
Proof.
  intros (Hc & Hb & _). rewrite Hb. split.
  - apply Q.min_glb_lt; lra.
  - apply Q.le_min_r.
Qed.

Lemma edge_chain_sorted c rest :
  edge_chain s c rest → StronglySorted Qlt (c :: rest).
Proof.
  intros Hchain. apply Sorted_StronglySorted; [apply _|].
  revert c Hchain. induction rest as [|b t IH]; intros c Hchain.
  - repeat constructor.
  - constructor.
    + apply IH. by destruct Hchain as (_ & _ & ?).
    + constructor. by apply edge_chain_next in Hchain as [? _].
Qed.

Lemma edge_chain_last c rest :
  (c <= 100)%Q → edge_chain s c rest →
  ∃ top, last (c :: rest) = Some top ∧ (top == 100)%Q.
Proof.
  revert c. induction rest as [|b t IH]; intros c Hc Hchain.
  - exists c. split; [done|]. simpl in Hchain. lra.
  - rewrite last_cons_cons. apply IH.
    + by apply edge_chain_next in Hchain as [_ ?].
    + by destruct Hchain as (_ & _ & ?).
Qed.

Lemma edge_chain_consecutive c rest i lo hi :
  edge_chain s c rest →
  (c :: rest) !! i = Some lo → (c :: rest) !! S i = Some hi →
  (lo < hi)%Q ∧ (hi == Qmin (lo + s) 100)%Q.
Proof.
  revert c i. induction rest as [|b t IH]; intros c i Hchain Hlo Hhi.
  - by destruct i.
  - destruct i as [|i].
    + simpl in Hlo, Hhi. injection Hlo as <-. injection Hhi as <-.
      split; [by apply edge_chain_next in Hchain as [? _]|].
      by destruct Hchain as (_ & ? & _).
    + apply (IH b i); [by destruct Hchain as (_ & _ & ?)|done..].
Qed.

End edge_chain_facts.

(** The edges [range_bins] builds, for whatever the two spin boxes held:
    the clamped minimum, then the chain of the loop.  Twenty-one rounds of
    fuel are always enough. *)
Lemma range_bins_edges (min_val step_val : Py.float) (k : nat) :
  ∃ (m s : Q) (rest : list Q),
    Py.max (Py.Fin 0) (Py.min (Py.Fin 100) min_val) = Py.Fin m
    ∧ Py.max (Py.Fin 5) (Py.min (Py.Fin 25) step_val) = Py.Fin s
    ∧ (0 <= m <= 100)%Q ∧ (5 <= s <= 25)%Q
    ∧ (∀ q, min_val = Py.Fin q → (m == Qmax 0 (Qmin 100 q))%Q)
    ∧ (∀ q, step_val = Py.Fin q → (s == Qmax 5 (Qmin 25 q))%Q)
    ∧ PieDiagram.range_bins (21 + k) min_val step_val
        = Some (Py.Fin <$> m :: rest)
    ∧ edge_chain s m rest.
Proof.
  destruct (clamp_finite 0 100 min_val) as (m & Hm & Hmb & Hmq); [lra|].
  destruct (clamp_finite 5 25 step_val) as (s & Hs & Hsb & Hsq); [lra|].
  destruct (while_append_chain 20 k s m) as (rest & Hrun & Hchain);
    [lra|lra| |].
  { change (inject_Z (Z.of_nat 20)) with 20%Q. lra. }
  exists m, s, rest. repeat (split; [done|]). split; [|done].
  unfold PieDiagram.range_bins. rewrite Hm, Hs.
  by rewrite Hrun.
Qed.

(** C3. The binning policy.  Whatever numbers [float()] read, the minimum
    is clamped to [0, 100] and the step to [5, 25]; the loop ends and gives
    edges that start at the clamped minimum, rise strictly, each one the
    edge before it plus the clamped step but never more than 100, and end at
    exactly 100.  The buckets between neighbouring edges therefore follow
    each other without gap or overlap. *)
Theorem binning_policy_edges (min_val step_val : Py.float) (k : nat) :
  ∃ (m s : Q) (edges : list Q),
    Py.max (Py.Fin 0) (Py.min (Py.Fin 100) min_val) = Py.Fin m
    ∧ Py.max (Py.Fin 5) (Py.min (Py.Fin 25) step_val) = Py.Fin s
    ∧ (0 <= m <= 100)%Q ∧ (5 <= s <= 25)%Q
    ∧ (∀ q, min_val = Py.Fin q → (m == Qmax 0 (Qmin 100 q))%Q)
    ∧ (∀ q, step_val = Py.Fin q → (s == Qmax 5 (Qmin 25 q))%Q)
    ∧ PieDiagram.range_bins (21 + k) min_val step_val
        = Some (Py.Fin <$> edges)
    ∧ head edges = Some m
    ∧ (∃ top, last edges = Some top ∧ (top == 100)%Q)
    ∧ StronglySorted Qlt edges
    ∧ (∀ i lo hi, edges !! i = Some lo → edges !! S i = Some hi →
         (lo < hi)%Q ∧ (hi == Qmin (lo + s) 100)%Q)
    ∧ (∀ i lo hi lo' hi',
         zip edges (drop 1 edges) !! i = Some (lo, hi) →
         zip edges (drop 1 edges) !! S i = Some (lo', hi') →
         (lo < hi)%Q ∧ hi = lo' ∧ (lo' < hi')%Q).
Proof.
  destruct (range_bins_edges min_val step_val k)
    as (m & s & rest & Hm & Hs & Hmb & Hsb & Hmq & Hsq & Hrun & Hchain).
  assert (Hpos : (0 < s)%Q) by lra.
  exists m, s, (m :: rest). repeat (split; [done|]).
  split; [apply (edge_chain_last s Hpos); [lra|done]|].
  split; [by apply (edge_chain_sorted s Hpos)|].
  split; [intros i lo hi; by apply (edge_chain_consecutive s Hpos)|].
  intros i lo hi lo' hi' H1 H2.
  apply lookup_zip_with_Some in H1 as (a & b & [= <- <-] & Ha & Hb).
  apply lookup_zip_with_Some in H2 as (a' & b' & [= <- <-] & Ha' & Hb').
  rewrite lookup_drop in Hb, Hb'. simpl in Hb, Hb'.
  change (rest !! i) with ((m :: rest) !! S i) in Hb.
  change (rest !! S i) with ((m :: rest) !! S (S i)) in Hb'.
  assert (hi = lo') as -> by congruence.
  split; [|split; [done|]].
  - by eapply (edge_chain_consecutive s Hpos m rest i).
  - by eapply (edge_chain_consecutive s Hpos m rest (S i)).
Qed.

(** ** Which bucket a rate falls into *)

Lemma eq_Fin (a b : Q) : Py.eq (Py.Fin a) (Py.Fin b) = bool_decide (a == b)%Q.
Proof. done. Qed.

(** [searchsorted] on strictly ascending edges: the edges before the index
    found are below the value, the others are not. *)
Lemma searchsorted_left_spec (edges : list Q) (r : Q) :
  StronglySorted Qlt edges →
  let n := pd.searchsorted_left (Py.Fin <$> edges) (Py.Fin r) in
  (n ≤ length edges)%nat
  ∧ (∀ j b, edges !! j = Some b → (j < n)%nat → (b < r)%Q)
  ∧ (∀ j b, edges !! j = Some b → (n ≤ j)%nat → (r <= b)%Q).
Proof.
  induction 1 as [|e t Hsorted IH Hall]; [by split; [|split]; intros|].
  rewrite fmap_cons. cbn [pd.searchsorted_left]. rewrite lt_Fin.
  destruct (bool_decide_reflect (e < r)%Q) as [Hlt|Hge].
  - destruct IH as (Hlen & Hbelow & Habove).
    split; [simpl; lia|]. split.
    + intros [|j] b Hb Hj; simpl in Hb; [by injection Hb as <-|].
      apply (Hbelow j); [done|lia].
    + intros [|j] b Hb Hj; [lia|]. simpl in Hb.
      apply (Habove j); [done|lia].
  - split; [simpl; lia|]. split; [intros; lia|].
    intros [|j] b Hb _; simpl in Hb.
    + injection Hb as <-. lra.
    + rewrite Forall_forall in Hall.
      assert (e < b)%Q; [|lra].
      apply Hall. by eapply list_elem_of_lookup_2.
Qed.

Lemma sorted_lookup_lt (edges : list Q) (i j : nat) (a b : Q) :
  StronglySorted Qlt edges →
  edges !! i = Some a → edges !! j = Some b → (i < j)%nat → (a < b)%Q.
Proof.
  intros Hsorted. revert i j.
  induction Hsorted as [|e t Hsorted IH Hall]; intros i j Ha Hb Hij; [done|].
  destruct j as [|j]; [lia|]. simpl in Hb.
  destruct i as [|i]; simpl in Ha.
  - injection Ha as <-. rewrite Forall_forall in Hall.
    apply Hall. by eapply list_elem_of_lookup_2.
  - apply (IH i j); [done..|lia].
Qed.

(** The bucket of a rate, given strictly ascending edges: bucket [i] holds
    the rates above its lower edge up to and including its upper edge, and
    the lowest bucket holds its lower edge as well. *)
Lemma cut_code_interval (edges : list Q) (r : Q) (i : nat) (lo hi : Q) :
  StronglySorted Qlt edges →
  edges !! i = Some lo → edges !! S i = Some hi →
  pd.cut_code (Py.Fin <$> edges) true r = Some i
  ↔ (lo < r)%Q ∧ (r <= hi)%Q ∨ i = 0%nat ∧ (r == lo)%Q.
Proof.
  intros Hsorted Hlo Hhi.
  destruct (searchsorted_left_spec edges r Hsorted) as (Hlen & Hbelow & Habove).
  assert (Hi : (S i < length edges)%nat) by (by eapply lookup_lt_Some).
  destruct edges as [|m rest]; [done|].
  unfold pd.cut_code. rewrite length_fmap.
  set (n := pd.searchsorted_left (Py.Fin <$> m :: rest) (Py.Fin r)) in *.
  rewrite fmap_cons. cbn [andb]. rewrite eq_Fin.
  assert (Hm : (m <= lo)%Q).
  { destruct i as [|i]; [simpl in Hlo; injection Hlo as <-; lra|].
    apply Qlt_le_weak.
    by apply (sorted_lookup_lt (m :: rest) 0 (S i) m lo); [| | |lia]. }
  destruct (bool_decide_reflect (r == m)%Q) as [Heq|Hne].
  - rewrite decide_False by (simpl in Hi |- *; lia).
    split.
    + intros [= <-]. right. split; [done|].
      simpl in Hlo. injection Hlo as <-. done.
    + intros [[Hlt _]|[-> _]]; [lra|done].
  - destruct (decide (n = length (m :: rest) ∨ n = 0%nat)) as [Hout|Hin].
    + split; [done|]. intros [[Hlt Hle]|[-> Heq]].
      * exfalso. destruct Hout as [Hn|Hn].
        -- assert (hi < r)%Q; [|lra]. apply (Hbelow (S i)); [done|lia].
        -- assert (r <= lo)%Q; [|lra]. apply (Habove i); [done|lia].
      * simpl in Hlo. injection Hlo as <-. done.
    + split.
      * intros [= <-]. left.
        assert (Hn : n = S (n - 1)) by lia. split.
        -- apply (Hbelow (n - 1)%nat); [done|lia].
        -- apply (Habove (S (n - 1))); [done|lia].
      * intros [[Hlt Hle]|[-> Heq]].
        -- f_equal.
           destruct (decide (n ≤ i)%nat) as [Hni|Hni].
           { assert (r <= lo)%Q; [|lra]. by apply (Habove i). }
           destruct (decide (S i < n)%nat) as [Hsi|Hsi]; [|lia].
           assert (hi < r)%Q; [|lra]. by apply (Hbelow (S i)).
        -- simpl in Hlo. injection Hlo as <-. done.
Qed.

Lemma cut_code_outside (edges : list Q) (r m top : Q) :
  StronglySorted Qlt edges →
  head edges = Some m → last edges = Some top →
  (r < m)%Q ∨ (top < r)%Q →
  pd.cut_code (Py.Fin <$> edges) true r = None.
Proof.
  intros Hsorted Hhead Hlast Hout.
  destruct (searchsorted_left_spec edges r Hsorted) as (Hlen & Hbelow & Habove).
  destruct edges as [|m' rest]; [done|]. injection Hhead as ->.
  rewrite last_lookup in Hlast.
  assert (Hmtop : (m <= top)%Q).
  { destruct rest as [|b rest]; [simpl in Hlast; injection Hlast as <-; lra|].
    apply Qlt_le_weak.
    apply (sorted_lookup_lt (m :: b :: rest) 0 (pred (length (m :: b :: rest))) m top);
      [done..|simpl; lia]. }
  unfold pd.cut_code. rewrite length_fmap.
  set (n := pd.searchsorted_left (Py.Fin <$> m :: rest) (Py.Fin r)) in *.
  rewrite fmap_cons. cbn [andb]. rewrite eq_Fin.
  rewrite bool_decide_false by (intros Heq; destruct Hout; lra).
  apply decide_True. destruct Hout as [Hlow|Hhigh].
  - right. destruct n as [|n]; [done|].
    assert (m < r)%Q; [|lra]. apply (Hbelow 0%nat); [done|lia].
  - left. destruct (decide (n = length (m :: rest))) as [|Hn]; [done|].
    assert (r <= top)%Q; [|lra].
    apply (Habove (pred (length (m :: rest)))); [done|simpl in *; lia].
Qed.

(** ** The labels of the buckets are distinct *)

Lemma round_half_even_near (q : Q) :
  (q - (1 # 2) <= inject_Z (Py.round_half_even q))%Q
  ∧ (inject_Z (Py.round_half_even q) <= q + (1 # 2))%Q.
Proof.
  unfold Py.round_half_even.
  pose proof (Qfloor_le q) as Hfloor.
  pose proof (Qlt_floor q) as Hceil.
  rewrite inject_Z_plus in Hceil. change (inject_Z 1) with 1%Q in Hceil.
  destruct (q - inject_Z (Qfloor q) ?= 1 # 2)%Q eqn:Hcmp.
  - apply Qeq_alt in Hcmp.
    destruct (Z.even (Qfloor q)).
    + split; lra.
    + rewrite inject_Z_plus. change (inject_Z 1) with 1%Q. split; lra.
  - apply Qlt_alt in Hcmp. split; lra.
  - apply Qgt_alt in Hcmp. rewrite inject_Z_plus.
    change (inject_Z 1) with 1%Q. split; lra.
Qed.

Lemma no_percent_app (s t : string) :
  no_percent s → no_percent t → no_percent (s +:+ t).
Proof. induction s as [|c s IH]; simpl; [done|]. intros [? ?] ?. auto. Qed.

Lemma no_percent_pretty_N_go (x : N) (s : string) :
  no_percent s → no_percent (pretty_N_go x s).
Proof.
  revert s. induction (N.lt_wf_0 x) as [x _ IH]; intros s Hs.
  destruct (decide (x = 0)%N) as [->|Hx]; [by rewrite pretty_N_go_0|].
  rewrite pretty_N_go_step by lia. apply IH.
  - apply N.div_lt; lia.
  - split; [|done]. unfold pretty_N_char. by repeat case_match.
Qed.

Lemma no_percent_pretty_N (x : N) : no_percent (pretty x).
Proof.
  unfold pretty, pretty_N. case_decide; [by split|].
  by apply no_percent_pretty_N_go.
Qed.

Lemma no_percent_pretty_Z (z : Z) : no_percent (pretty z).
Proof.
  destruct z as [|p|p]; unfold pretty, pretty_Z.
  - by split.
  - apply no_percent_pretty_N.
  - apply no_percent_app; [by split|apply no_percent_pretty_N].
Qed.

Lemma no_percent_format_Q_0 (q : Q) : no_percent (Py.format_Q 0 q).
Proof.
  unfold Py.format_Q. apply no_percent_app; [by case_bool_decide; [split|]|].
  apply no_percent_app; [apply no_percent_pretty_Z|done].
Qed.

(** Two texts free of the percent sign that are each followed by one are
    equal when the wholes are. *)
Lemma percent_prefix_inj (s1 s2 r1 r2 : string) :
  no_percent s1 → no_percent s2 →
  s1 +:+ String "%" r1 = s2 +:+ String "%" r2 → s1 = s2.
Proof.
  revert s2. induction s1 as [|c s1 IH]; intros [|c' s2]; simpl.
  - done.
  - intros _ [Hc _] [= Heq _]. by rewrite Heq in Hc.
  - intros [Hc _] _ [= Heq _]. by rewrite Heq in Hc.
  - intros [_ H1] [_ H2] [= -> Heq]. f_equal. by apply IH.
Qed.

Lemma string_app_empty_r (s : string) : s +:+ "" = s.
Proof.
  induction s as [|c s IH]; [done|].
  change (String c s +:+ "") with (String c (s +:+ "")). by f_equal.
Qed.

Lemma string_app_empty_l (s : string) : "" +:+ s = s.
Proof. done. Qed.

(** Non-negative numbers more than one apart are written differently. *)
Lemma format_Q_0_apart (a b : Q) :
  (0 <= a)%Q → (a + 1 < b)%Q → Py.format_Q 0 a ≠ Py.format_Q 0 b.
Proof.
  intros Ha Hab. unfold Py.format_Q.
  rewrite !bool_decide_false by lra.
  change (10 ^ Z.of_nat 0)%Z with 1%Z. rewrite !Z.div_1_r.
  change (inject_Z 1) with 1%Q.
  rewrite !string_app_empty_r, !string_app_empty_l. intros Heq.
  apply (inj pretty) in Heq.
  destruct (round_half_even_near (Qabs a * 1)) as [_ Hup].
  destruct (round_half_even_near (Qabs b * 1)) as [Hdown _].
  rewrite Heq in Hup.
  pose proof (Qabs_pos a Ha) as Habs_a.
  assert (Habs_b : (Qabs b == b)%Q) by (apply Qabs_pos; lra).
  lra.
Qed.

Lemma range_labels_lookup (edges : list Q) (i : nat) (x : string) :
  PieDiagram.range_labels (Py.Fin <$> edges) !! i = Some x
  ↔ ∃ lo hi, edges !! i = Some lo ∧ edges !! S i = Some hi
             ∧ x = Py.format_Q 0 lo +:+ "%-" +:+ Py.format_Q 0 hi +:+ "%".
Proof.
  unfold PieDiagram.range_labels. rewrite lookup_zip_with_Some. split.
  - intros (flo & fhi & -> & Hlo & Hhi).
    rewrite lookup_drop in Hhi. change (1 + i)%nat with (S i) in Hhi.
    apply list_lookup_fmap_Some in Hlo as (lo & -> & Hlo).
    apply list_lookup_fmap_Some in Hhi as (hi & -> & Hhi).
    by exists lo, hi.
  - intros (lo & hi & Hlo & Hhi & ->).
    exists (Py.Fin lo), (Py.Fin hi). split; [done|].
    rewrite lookup_drop. change (1 + i)%nat with (S i).
    by rewrite !list_lookup_fmap, Hlo, Hhi.
Qed.

Lemma range_labels_length (edges : list Q) :
  length (PieDiagram.range_labels (Py.Fin <$> edges)) = (length edges - 1)%nat.
Proof.
  unfold PieDiagram.range_labels.
  rewrite length_zip_with, length_drop, length_fmap. lia.
Qed.

(** Two lower edges of buckets are at least one step apart. *)
Lemma edge_chain_lower_spacing (s c : Q) (rest : list Q)
    (i j : nat) (a b b' : Q) :
  (0 < s)%Q → edge_chain s c rest →
  (c :: rest) !! i = Some a → (c :: rest) !! j = Some b →
  (c :: rest) !! S j = Some b' → (i < j)%nat →
  (a + s <= b)%Q.
Proof.
  intros Hpos Hchain Ha Hb Hb' Hij.
  pose proof (edge_chain_sorted s Hpos c rest Hchain) as Hsorted.
  destruct ((c :: rest) !! S i) as [hi|] eqn:Hhi.
  2:{ apply lookup_ge_None in Hhi. apply lookup_lt_Some in Hb. lia. }
  destruct (edge_chain_consecutive s Hpos c rest i a hi Hchain Ha Hhi)
    as [_ Hstep].
  destruct (edge_chain_consecutive s Hpos c rest j b b' Hchain Hb Hb')
    as [Hbb' Hstep'].
  assert (Hb'100 : (b' <= 100)%Q) by (rewrite Hstep'; apply Q.le_min_r).
  assert (Hhib : (hi <= b)%Q).
  { destruct (decide (S i = j)) as [<-|Hne].
    - assert (hi = b) as -> by congruence. lra.
    - apply Qlt_le_weak.
      apply (sorted_lookup_lt (c :: rest) (S i) j hi b); [done..|lia]. }
  destruct (Qlt_le_dec 100 (a + s)) as [Hover|Hfit].
  - rewrite Q.min_r in Hstep by lra. lra.
  - rewrite Q.min_l in Hstep by lra. lra.
Qed.

Lemma range_labels_NoDup (s m : Q) (rest : list Q) :
  (0 <= m)%Q → (1 < s)%Q → edge_chain s m rest →
  NoDup (PieDiagram.range_labels (Py.Fin <$> m :: rest)).
Proof.
  intros Hm Hs Hchain.
  assert (Hpos : (0 < s)%Q) by lra.
  pose proof (edge_chain_sorted s Hpos m rest Hchain) as Hsorted.
  assert (Hlt : ∀ i j x,
    (i < j)%nat →
    PieDiagram.range_labels (Py.Fin <$> m :: rest) !! i = Some x →
    PieDiagram.range_labels (Py.Fin <$> m :: rest) !! j = Some x → False).
  { intros i j x Hij Hi Hj.
    apply range_labels_lookup in Hi as (a & a' & Ha & Ha' & ->).
    apply range_labels_lookup in Hj as (b & b' & Hb & Hb' & Heq).
    apply percent_prefix_inj in Heq; [|apply no_percent_format_Q_0..].
    assert (Hspace : (a + s <= b)%Q)
      by (by eapply (edge_chain_lower_spacing s m rest i j)).
    assert (Ha0 : (0 <= a)%Q).
    { destruct i as [|i]; [simpl in Ha; injection Ha as <-; done|].
      apply Qlt_le_weak. apply Qle_lt_trans with m; [done|].
      apply (sorted_lookup_lt (m :: rest) 0 (S i) m a); [done..|lia]. }
    apply (format_Q_0_apart a b); [done|lra|done]. }
  apply NoDup_alt. intros i j x Hi Hj.
  destruct (Nat.lt_trichotomy i j) as [Hij|[Hij|Hij]]; [|done|].
  - by destruct (Hlt i j x).
  - by destruct (Hlt j i x).
Qed.

Lemma is_monotonic_increasing_cons (b1 b2 : Py.float) (t : list Py.float) :
  pd.is_monotonic_increasing (b1 :: b2 :: t)
  = negb (Py.lt b2 b1) && pd.is_monotonic_increasing (b2 :: t).
Proof. done. Qed.

Lemma has_duplicates_cons (b1 b2 : Py.float) (t : list Py.float) :
  pd.has_duplicates (b1 :: b2 :: t)
  = Py.eq b1 b2 || pd.has_duplicates (b2 :: t).
Proof. done. Qed.

Lemma sorted_is_monotonic_increasing (edges : list Q) :
  StronglySorted Qlt edges →
  pd.is_monotonic_increasing (Py.Fin <$> edges) = true.
Proof.
  induction 1 as [|e t Hsorted IH Hall]; [done|].
  destruct t as [|e' t]; [done|].
  rewrite !fmap_cons, is_monotonic_increasing_cons.
  rewrite !fmap_cons in IH. rewrite IH, lt_Fin.
  apply Forall_cons in Hall as [Hlt _].
  rewrite bool_decide_false; [done|lra].
Qed.

Lemma sorted_has_no_duplicates (edges : list Q) :
  StronglySorted Qlt edges → pd.has_duplicates (Py.Fin <$> edges) = false.
Proof.
  induction 1 as [|e t Hsorted IH Hall]; [done|].
  destruct t as [|e' t]; [done|].
  rewrite !fmap_cons, has_duplicates_cons.
  rewrite !fmap_cons in IH. rewrite IH, eq_Fin.
  apply Forall_cons in Hall as [Hlt _].
  rewrite bool_decide_false; [done|lra].
Qed.

(** [pd.cut] accepts the edges and labels of the range distribution. *)
Lemma cut_range_bins (s m : Q) (rest : list Q) (x : list Q) :
  (0 <= m)%Q → (1 < s)%Q → edge_chain s m rest →
  let bins := Py.Fin <$> m :: rest in
  pd.cut x bins (PieDiagram.range_labels bins) true =
    Py.Ok {| pd.categories := PieDiagram.range_labels bins;
             pd.codes := pd.cut_code bins true <$> x |}.
Proof.
  intros Hm Hs Hchain bins.
  assert (Hpos : (0 < s)%Q) by lra.
  pose proof (edge_chain_sorted s Hpos m rest Hchain) as Hsorted.
  unfold pd.cut, bins.
  rewrite sorted_is_monotonic_increasing, sorted_has_no_duplicates by done.
  cbn [negb andb].
  rewrite bool_decide_true by (by eapply range_labels_NoDup).
  rewrite bool_decide_true; [done|].
  by rewrite range_labels_length, length_fmap.
Qed.

(** ** The range distribution chart *)

(** What the chart is once both spin boxes hold numbers: the no-data text
    when there is no bucket, the pie of the bucket counts and the title
    when matplotlib draws the pie, and the error text with the message of
    matplotlib's exception when it refuses the counts. *)
Lemma range_chart_parsed (float : string → Py.result Py.float)
    (str : Py.float → string) (ax_pie : list Q → option Py.exn) (k : nat)
    (min_var step_var : string) (min_val step_val : Py.float)
    (d : pd.DataFrame) :
  float min_var = Py.Ok min_val → float step_var = Py.Ok step_val →
  ∃ (m s : Q) (rest : list Q) (title : string),
    PieDiagram.range_bins (21 + k) min_val step_val
      = Some (Py.Fin <$> m :: rest)
    ∧ (0 <= m <= 100)%Q ∧ (5 <= s <= 25)%Q ∧ edge_chain s m rest
    ∧ PieDiagram.create_range_distribution_chart float str ax_pie (21 + k)
        min_var step_var d =
      Some (
        let bins := Py.Fin <$> m :: rest in
        let range_counts :=
          pd.value_counts_sort_index
            {| pd.categories := PieDiagram.range_labels bins;
               pd.codes := pd.cut_code bins true <$> (pd.Rate <$> d) |} in
        if decide (length range_counts = 0)%nat
        then [plt.text (plt.At 0.5 0.5)
                "Keine Daten in den angegebenen Bereichen"]
        else
          match ax_pie (PieDiagram.count_values range_counts) with
          | None =>
            [plt.pie (PieDiagram.count_values range_counts) None
                     (range_counts.*1);
             plt.set_title title]
          | Some e =>
            [plt.text (plt.At 0.5 0.5)
               ("Fehler bei der Diagrammerstellung:" +:+ Py.newline
                +:+ Py.str_exn e)]
          end).
Proof.
  intros Hmin Hstep.
  destruct (range_bins_edges min_val step_val k)
    as (m & s & rest & Hm & Hs & Hmb & Hsb & _ & _ & Hrun & Hchain).
  exists m, s, rest. eexists. split; [done|]. repeat (split; [done|]).
  unfold PieDiagram.create_range_distribution_chart,
    PieDiagram.range_distribution_body.
  rewrite Hmin, Hstep, Hrun. cbn [mbind option_bind].
  rewrite (cut_range_bins s m rest) by (done || lra).
  cbn [mbind result_bind Py.bind].
  case_decide; [reflexivity|].
  unfold PieDiagram.pie. destruct (ax_pie _); reflexivity.
Qed.

Lemma value_counts_sort_index_lookup (labels : list string)
    (codes : list (option nat)) (i : nat) (label : string) :
  labels !! i = Some label →
  pd.value_counts_sort_index
    {| pd.categories := labels; pd.codes := codes |} !! i
  = Some (label, length (filter (λ code, code = Some i) codes)).
Proof.
  intros Hlabel. unfold pd.value_counts_sort_index. simpl.
  by rewrite list_lookup_imap, Hlabel.
Qed.

(** C10. The direction of bucket membership.  With the edges
    b0 < b1 < ... < bn built from the two spin boxes, the slice of bucket
    [i] is labelled with its two edges and counts the rows whose rate lies
    above the lower edge and at most at the upper edge; the lowest bucket
    counts the rows at its lower edge too.  So a rate equal to an edge
    [bi] with [i >= 1] is counted in the bucket below that edge, a rate
    equal to [b0] in the lowest bucket, and a rate below [b0] or above 100
    in none.  The counts go to [ax.pie]; the axes hold the pie of the
    counts and the title, or, when matplotlib refuses the counts, as it
    does when no row lies in any bucket, the error text of the handler
    with matplotlib's message. *)
Theorem range_bucket_membership (float : string → Py.result Py.float)
    (str : Py.float → string) (ax_pie : list Q → option Py.exn) (k : nat)
    (min_var step_var : string)
    (min_val step_val : Py.float) (d : pd.DataFrame) :
  float min_var = Py.Ok min_val → float step_var = Py.Ok step_val →
  ∃ (edges : list Q) (b0 : Q) (counts : list (string * nat)) (title : string),
    let bins := Py.Fin <$> edges in
    PieDiagram.range_bins (21 + k) min_val step_val = Some bins
    ∧ StronglySorted Qlt edges
    ∧ head edges = Some b0
    ∧ ((2 ≤ length edges)%nat →
        PieDiagram.create_range_distribution_chart float str ax_pie (21 + k)
          min_var step_var d
        = Some
            match ax_pie ((λ e, inject_Z (Z.of_nat e.2)) <$> counts) with
            | None =>
              [plt.pie ((λ e, inject_Z (Z.of_nat e.2)) <$> counts) None
                       (counts.*1);
               plt.set_title title]
            | Some e =>
              [plt.text (plt.At 0.5 0.5)
                 ("Fehler bei der Diagrammerstellung:" +:+ Py.newline
                  +:+ Py.str_exn e)]
            end)
    ∧ (∀ i lo hi, edges !! i = Some lo → edges !! S i = Some hi →
        counts !! i =
          Some (Py.format_Q 0 lo +:+ "%-" +:+ Py.format_Q 0 hi +:+ "%",
                length (filter (λ row, pd.cut_code bins true (pd.Rate row)
                                       = Some i) d))
        ∧ (∀ r, pd.cut_code bins true r = Some i
                ↔ (lo < r)%Q ∧ (r <= hi)%Q ∨ i = 0%nat ∧ (r == lo)%Q)
        ∧ (∀ r, (r == hi)%Q → pd.cut_code bins true r = Some i)
        ∧ (∀ r, (r == b0)%Q → pd.cut_code bins true r = Some 0%nat))
    ∧ (∀ r, (r < b0)%Q ∨ (100 < r)%Q → pd.cut_code bins true r = None).
Proof.
  intros Hmin Hstep.
  destruct (range_chart_parsed float str ax_pie k min_var step_var
              min_val step_val d Hmin Hstep)
    as (m & s & rest & title & Hrun & Hmb & Hsb & Hchain & Hchart).
  assert (Hpos : (0 < s)%Q) by lra.
  pose proof (edge_chain_sorted s Hpos m rest Hchain) as Hsorted.
  destruct (edge_chain_last s Hpos m rest) as (top & Hlast & Htop);
    [lra|done|].
  set (bins := Py.Fin <$> m :: rest) in *.
  set (cat := {| pd.categories := PieDiagram.range_labels bins;
                 pd.codes := pd.cut_code bins true <$> (pd.Rate <$> d) |})
    in *.
  exists (m :: rest), m, (pd.value_counts_sort_index cat), title.
  split; [done|]. split; [done|]. split; [done|].
  split; [|split].
  - intros Hlen. rewrite Hchart. rewrite decide_False; [done|].
    unfold pd.value_counts_sort_index, cat. simpl.
    rewrite length_imap. unfold bins.
    rewrite range_labels_length. simpl in Hlen |- *. lia.
  - intros i lo hi Hlo Hhi.
    assert (Hiff : ∀ r, pd.cut_code bins true r = Some i
                ↔ (lo < r)%Q ∧ (r <= hi)%Q ∨ i = 0%nat ∧ (r == lo)%Q)
      by (intros r; by apply cut_code_interval).
    assert (Hlohi : (lo < hi)%Q)
      by (apply (sorted_lookup_lt (m :: rest) i (S i)); [done..|lia]).
    split; [|split; [done|split]].
    + unfold cat.
      erewrite value_counts_sort_index_lookup;
        [|apply range_labels_lookup; by exists lo, hi].
      do 2 f_equal. rewrite <-list_fmap_compose. apply count_fmap.
    + intros r Hr. apply Hiff. left. split; lra.
    + intros r Hr.
      destruct rest as [|b1 rest]; [by destruct i|].
      apply (cut_code_interval (m :: b1 :: rest) r 0 m b1); [done..|].
      by right.
  - intros r Hout. apply (cut_code_outside (m :: rest) r m top); [done..|].
    destruct Hout; [by left|right; lra].
Qed.

(** C6. The range distribution never lets an exception out.  When
    [float()] refuses the text of a spin box, or when matplotlib refuses
    the counts handed to [ax.pie], the handler writes, in the middle of
    the axes, the line "Fehler bei der Diagrammerstellung:" followed by the
    message of the exception, and nothing else is drawn.  With two numbers
    in the spin boxes nothing else can raise: [pd.cut] accepts the edges
    and labels the code builds, and the chart is the no-data text, the pie
    with its title, or that error text.  [update] with this chart type
    always ends, and ends without an exception.  With the letters abc in
    the first spin box the axes hold the two lines of the last
    conjunct. *)
Theorem range_chart_catches_exceptions (float : string → Py.result Py.float)
    (str : Py.float → string) (ax_pie : list Q → option Py.exn) (k : nat)
    (min_var step_var : string) (d : pd.DataFrame) :
  let error_message e :=
    [plt.text (plt.At 0.5 0.5)
       ("Fehler bei der Diagrammerstellung:" +:+ Py.newline
        +:+ Py.str_exn e)] in
  let chart :=
    PieDiagram.create_range_distribution_chart float str ax_pie (21 + k)
      min_var step_var d in
  (∀ e, float min_var = Py.Raise e → chart = Some (error_message e))
  ∧ (∀ v e, float min_var = Py.Ok v → float step_var = Py.Raise e →
       chart = Some (error_message e))
  ∧ (∀ v w, float min_var = Py.Ok v → float step_var = Py.Ok w →
       ∃ (counts : list (string * nat)) (title : string),
         chart = Some [plt.text (plt.At 0.5 0.5)
                         "Keine Daten in den angegebenen Bereichen"]
         ∨ (ax_pie ((λ e, inject_Z (Z.of_nat e.2)) <$> counts) = None
            ∧ chart = Some [plt.pie ((λ e, inject_Z (Z.of_nat e.2)) <$> counts)
                              None (counts.*1);
                            plt.set_title title])
         ∨ (∃ e, ax_pie ((λ e, inject_Z (Z.of_nat e.2)) <$> counts) = Some e
                 ∧ chart = Some (error_message e)))
  ∧ (∀ st, PieDiagram.df st = Some d →
       PieDiagram.chart_type_var st
       = "Verteilung nach Einschulungsratenbereichen" →
       PieDiagram.min_var st = min_var → PieDiagram.step_var st = step_var →
       ∃ calls,
         chart = Some calls
         ∧ PieDiagram.update float str ax_pie (21 + k) st
           = Some (PieDiagram.set_ax calls st, None))
  ∧ PieDiagram.create_range_distribution_chart Py.float_of_digits str ax_pie
      (21 + k) "abc" step_var d
    = Some [plt.text (plt.At 0.5 0.5)
              ("Fehler bei der Diagrammerstellung:"
               +:+ String "010"%char
                     "could not convert string to float: 'abc'")].
Proof.
  intros error_message chart.
  assert (Hparsed : ∀ v w, float min_var = Py.Ok v → float step_var = Py.Ok w →
            ∃ (counts : list (string * nat)) (title : string),
              chart = Some [plt.text (plt.At 0.5 0.5)
                              "Keine Daten in den angegebenen Bereichen"]
              ∨ (ax_pie ((λ e, inject_Z (Z.of_nat e.2)) <$> counts) = None
                 ∧ chart
                   = Some [plt.pie ((λ e, inject_Z (Z.of_nat e.2)) <$> counts)
                             None (counts.*1);
                           plt.set_title title])
              ∨ (∃ e, ax_pie ((λ e, inject_Z (Z.of_nat e.2)) <$> counts)
                      = Some e
                      ∧ chart = Some (error_message e))).
  { intros v w Hmin Hstep.
    destruct (range_chart_parsed float str ax_pie k min_var step_var v w d
                Hmin Hstep)
      as (m & s & rest & title & _ & _ & _ & _ & Hchart).
    cbv zeta in Hchart. fold chart in Hchart.
    eexists _, title. rewrite Hchart.
    case_decide; [by left|right].
    unfold PieDiagram.count_values.
    destruct (ax_pie _) as [e|] eqn:Hpie; [right; by exists e|by left]. }
  assert (Hmin_raise : ∀ e, float min_var = Py.Raise e →
            chart = Some (error_message e)).
  { intros e Hmin.
    unfold chart, PieDiagram.create_range_distribution_chart,
      PieDiagram.range_distribution_body.
    by rewrite Hmin. }
  assert (Hstep_raise : ∀ v e, float min_var = Py.Ok v →
            float step_var = Py.Raise e → chart = Some (error_message e)).
  { intros v e Hmin Hstep.
    unfold chart, PieDiagram.create_range_distribution_chart,
      PieDiagram.range_distribution_body.
    by rewrite Hmin, Hstep. }
  split; [done|]. split; [done|]. split; [done|].
  split; [|reflexivity].
  intros st Hdf Htype <- <-.
  assert (Hsome : ∃ calls, chart = Some calls).
  { destruct (float (PieDiagram.min_var st)) as [v|e] eqn:Hmin;
      [|eexists; by apply Hmin_raise].
    destruct (float (PieDiagram.step_var st)) as [w|e] eqn:Hstep;
      [|eexists; by eapply Hstep_raise].
    destruct (Hparsed v w eq_refl eq_refl)
      as (counts & title & [->|[[_ ->]|(e & _ & ->)]]); eauto. }
  destruct Hsome as [calls Hcalls]. exists calls. split; [done|].
  unfold PieDiagram.update. rewrite Hdf.
  cbn [PieDiagram.set_ax PieDiagram.chart_type_var PieDiagram.min_var
       PieDiagram.step_var PieDiagram.df].
  rewrite Htype, decide_False, decide_True by done.
  fold chart. by rewrite Hcalls.
Qed.

(** The error text is never the no-data text. *)
Lemma error_text_not_no_data (e : Py.exn) :
  [plt.text (plt.At 0.5 0.5)
     ("Fehler bei der Diagrammerstellung:" +:+ Py.newline +:+ Py.str_exn e)]
  ≠ [plt.text (plt.At 0.5 0.5) "Keine Daten in den angegebenen Bereichen"].
Proof. intros H. injection H as H. cbv [String.append] in H. discriminate H. Qed.

(** The no-data text of the range distribution appears exactly when there
    is no bucket at all, that is when the clamped minimum is 100. *)
Lemma range_no_data_iff (float : string → Py.result Py.float)
    (str : Py.float → string) (ax_pie : list Q → option Py.exn) (k : nat)
    (min_var step_var : string)
    (min_val step_val : Py.float) (d : pd.DataFrame) :
  float min_var = Py.Ok min_val → float step_var = Py.Ok step_val →
  ∃ m, Py.max (Py.Fin 0) (Py.min (Py.Fin 100) min_val) = Py.Fin m
    ∧ (PieDiagram.create_range_distribution_chart float str ax_pie (21 + k)
         min_var step_var d
       = Some [plt.text (plt.At 0.5 0.5)
                 "Keine Daten in den angegebenen Bereichen"]
       ↔ (m == 100)%Q).
Proof.
  intros Hmin Hstep.
  destruct (range_chart_parsed float str ax_pie k min_var step_var
              min_val step_val d Hmin Hstep)
    as (m & s & rest & title & Hrun & Hmb & Hsb & Hchain & Hchart).
  destruct (range_bins_edges min_val step_val k)
    as (m' & s' & rest' & Hm & _ & _ & _ & _ & _ & Hrun' & _).
  rewrite Hrun in Hrun'. injection Hrun' as <- _.
  exists m. split; [done|].
  rewrite Hchart. clear Hchart.
  unfold pd.value_counts_sort_index.
  cbn [pd.categories pd.codes].
  rewrite length_imap, range_labels_length.
  destruct rest as [|b rest].
  - rewrite decide_True by done. simpl in Hchain. split; [intros _; lra|done].
  - rewrite decide_False by (simpl; lia).
    destruct Hchain as [Hlt _]. split; [|lra].
    destruct (ax_pie _) as [e|]; [|done].
    intros H. destruct (error_text_not_no_data e). congruence.
Qed.

(** C5. When every rate lies outside the buckets, the range distribution
    does not show its no-data text.  The table below has no rate between
    60 and 100; the four buckets come out with a count of zero each, so
    the test on the number of buckets does not fire and the four zeros go
    to [ax.pie].  matplotlib refuses sizes that are all zero, and the
    handler then writes the error text with matplotlib's message; were the
    pie drawn, the axes would hold a pie of four zeros.  In neither case
    do they hold the no-data text. *)
Theorem range_no_data_check_misses_empty_buckets
    (ax_pie : list Q → option Py.exn) :
  let d := [pd.Row "Mali" "Africa" 2010 50;
            pd.Row "Niger" "Africa" 2011 55.5] in
  let chart :=
    PieDiagram.create_range_distribution_chart Py.float_of_digits
      (Py.format_f 1) ax_pie 21 "60" "10" d in
  (∀ r, r ∈ d → (pd.Rate r < 60)%Q)
  ∧ chart
    = Some
        match ax_pie [0; 0; 0; 0]%Q with
        | Some e =>
          [plt.text (plt.At 0.5 0.5)
             ("Fehler bei der Diagrammerstellung:" +:+ Py.newline
              +:+ Py.str_exn e)]
        | None =>
          [plt.pie [0; 0; 0; 0]%Q None
                   ["60%-70%"; "70%-80%"; "80%-90%"; "90%-100%"];
           plt.set_title
             "Verteilung der Länder nach Einschulungsrate (Minimum: 60.0%, Schritte: 10.0%)"]
        end
  ∧ chart ≠ Some [plt.text (plt.At 0.5 0.5)
                    "Keine Daten in den angegebenen Bereichen"].
Proof.
  intros d chart.
  assert (Hchart : chart
    = Some
        match ax_pie [0; 0; 0; 0]%Q with
        | Some e =>
          [plt.text (plt.At 0.5 0.5)
             ("Fehler bei der Diagrammerstellung:" +:+ Py.newline
              +:+ Py.str_exn e)]
        | None =>
          [plt.pie [0; 0; 0; 0]%Q None
                   ["60%-70%"; "70%-80%"; "80%-90%"; "90%-100%"];
           plt.set_title
             "Verteilung der Länder nach Einschulungsrate (Minimum: 60.0%, Schritte: 10.0%)"]
        end)
    by (vm_compute; destruct (ax_pie _); reflexivity).
  split; [|split; [done|]].
  - intros r Hr. unfold d in Hr.
    repeat (apply elem_of_cons in Hr; destruct Hr as [->|Hr]);
      [reflexivity..|by apply elem_of_nil in Hr].
  - rewrite Hchart. destruct (ax_pie _) as [e|]; [|done].
    intros H. destruct (error_text_not_no_data e). congruence.
Qed.

(** The same table under the answer [pie0], which refuses the four
    zeros. *)
Example range_no_data_scenario :
  PieDiagram.create_range_distribution_chart Py.float_of_digits
    (Py.format_f 1) pie0 21 "60" "10"
    [pd.Row "Mali" "Africa" 2010 50; pd.Row "Niger" "Africa" 2011 55.5]
  = Some [plt.text (plt.At 0.5 0.5)
            ("Fehler bei der Diagrammerstellung:"
             +:+ String "010"%char "cannot convert float NaN to integer")].
Proof. vm_compute. reflexivity. Qed.

(** ** The trend view *)

(** C1. The single-country trend line takes the rows of the country in the
    order of the table: with the row of 2012 before the row of 2010 the
    line runs from 2012 back to 2010.  The panel view of the same table
    orders the points of its line by year. *)
Theorem trend_single_entity_keeps_row_order :
  let d := [pd.Row "Ghana" "Africa" 2012 74.0;
            pd.Row "Kenya" "Africa" 2011 80.5;
            pd.Row "Ghana" "Africa" 2010 62.5] in
  ScatterPlot.draw "Alle" "Ghana" d =
    [plt.plot [2012; 2010]%Z [74.0; 62.5]%Q;
     plt.text (plt.Point 2012 (74.0 + 1)) "74.0%";
     plt.text (plt.Point 2010 (62.5 + 1)) "62.5%";
     plt.set_title "Einschulungsrate im Zeitverlauf - Ghana"]
  ∧ PlotterDiagram.update d =
    [[plt.set_title "Einschulung - Africa";
      plt.scatter [2012; 2010]%Z [74.0; 62.5]%Q "Ghana";
      plt.plot [2010; 2012]%Z [62.5; 74.0]%Q;
      plt.scatter [2011]%Z [80.5]%Q "Kenya";
      plt.legend 1]].
Proof. split; vm_compute; reflexivity. Qed.

(** The rows the continent filter keeps. *)
Lemma continent_filter (C : string) (d : pd.DataFrame) :
  (if decide (C = "Alle") then d else pd.where_Continent C d)
  = filter (λ r, C = "Alle" ∨ pd.Continent r = C) d.
Proof.
  destruct (decide (C = "Alle")) as [->|Hne].
  - induction d as [|r t IH]; [done|].
    rewrite filter_cons_True by (by left). by rewrite <-IH.
  - apply list_filter_iff. tauto.
Qed.

(** The multi-country mode of the trend view, call by call. *)
Lemma trend_multi_calls (d : pd.DataFrame) (C : string) :
  let rows := filter (λ r, C = "Alle" ∨ pd.Continent r = C) d in
  let countries := pd.unique (pd.Entity <$> rows) in
  ∃ title,
    ScatterPlot.draw C "Alle Länder" d =
      match rows with
      | [] => [plt.text (plt.At 0.5 0.5)
                 "Keine Daten für die ausgewählten Filter vorhanden"]
      | _ =>
        (((λ country,
             plt.scatter (pd.Year <$> pd.where_Entity country rows)
                         (pd.Rate <$> pd.where_Entity country rows) country)
            <$> countries)
         ++ (if decide (1 < length countries ∧ length countries ≤ 15)%nat
             then [plt.legend (5 `min` length countries)%nat]
             else [])
         ++ [plt.set_title title])%list
      end.
Proof.
  intros rows countries. subst countries rows. unfold ScatterPlot.draw.
  pose proof (continent_filter C d) as Hsel. revert Hsel.
  destruct (decide (C = "Alle")); intros Hsel; rewrite <-Hsel; cbv beta iota;
    rewrite !(decide_False (P := "Alle Länder" ≠ "Alle Länder"))
      by (intros Hne; by apply Hne);
    eexists; (destruct d; [done|]); by rewrite <-app_assoc.
Qed.

(** C4. The legend of the multi-country trend view is drawn exactly when
    the selection holds between 2 and 15 distinct countries.  With more
    than 15 the view draws no text at all, so no count of the countries
    stands in for the legend; for the sixteen countries of [D16] the axes
    hold the sixteen scatter series and the title, nothing else. *)
Theorem trend_legend_rule (d : pd.DataFrame) (C : string) :
  let countries :=
    pd.unique (pd.Entity <$> filter (λ r, C = "Alle" ∨ pd.Continent r = C) d) in
  let calls := ScatterPlot.draw C "Alle Länder" d in
  ((∃ ncol, plt.legend ncol ∈ calls)
     ↔ (2 ≤ length countries)%nat ∧ (length countries ≤ 15)%nat)
  ∧ ((15 < length countries)%nat → ∀ a s, plt.text a s ∉ calls)
  ∧ ScatterPlot.draw "Alle" "Alle Länder" D16 =
      (((λ r, plt.scatter [pd.Year r] [pd.Rate r] (pd.Entity r)) <$> D16)
       ++ [plt.set_title
             "Einschulungsrate im Zeitverlauf - Alle Kontinente"])%list.
Proof.
  intros countries calls. subst countries calls.
  destruct (trend_multi_calls d C) as [title ->].
  split; [|split]; [| |vm_compute; reflexivity].
  - destruct (filter _ d) as [|r0 rows].
    { split; [intros [? [=]%list_elem_of_singleton]|]. simpl. lia. }
    set (countries := pd.unique (pd.Entity <$> r0 :: rows)).
    split.
    + intros [ncol Hin].
      rewrite !elem_of_app in Hin. destruct Hin as [Hin|[Hin|Hin]].
      * by apply list_elem_of_fmap in Hin as (? & [=] & _).
      * case_decide; [lia|by apply elem_of_nil in Hin].
      * by apply list_elem_of_singleton in Hin.
    + intros Hn. exists (5 `min` length countries)%nat.
      rewrite !elem_of_app. right. left.
      rewrite decide_True by lia. by apply list_elem_of_singleton.
  - intros Hn a s.
    destruct (filter _ d) as [|r0 rows]; [simpl in Hn; lia|].
    set (countries := pd.unique (pd.Entity <$> r0 :: rows)) in *.
    rewrite !elem_of_app. intros [Hin|[Hin|Hin]].
    + by apply list_elem_of_fmap in Hin as (? & [=] & _).
    + rewrite decide_False in Hin by lia. by apply elem_of_nil in Hin.
    + by apply list_elem_of_singleton in Hin.
Qed.

(** The panel view of the same sixteen countries writes their number where
    the legend would be. *)
Example panel_counts_entities :
  PlotterDiagram.panel "Asia" D16 =
    ([plt.set_title "Einschulung - Asia"]
     ++ ((λ r, plt.scatter [pd.Year r] [pd.Rate r] (pd.Entity r))
           <$> merge_sort (λ r1 r2, String.le (pd.Entity r1) (pd.Entity r2)) D16)
     ++ [plt.text (plt.At 0.02 0.98) "16 Länder"])%list.
Proof. vm_compute. reflexivity. Qed.

(** ** The cascading filter *)

(** Every value the continent combobox offers is a key of
    [countries_by_continent]. *)
Lemma foldl_insert_is_Some (f : string → list string) (l : list string)
    (m : gmap string (list string)) (z : string) :
  z ∈ l ∨ is_Some (m !! z) →
  is_Some (foldl (λ acc c, <[c := f c]> acc) m l !! z).
Proof.
  revert m. induction l as [|c l IH]; intros m [Hin|Hm]; simpl.
  - by apply elem_of_nil in Hin.
  - done.
  - apply IH. apply elem_of_cons in Hin as [->|Hin]; [right|by left].
    by rewrite lookup_insert_eq.
  - apply IH. right. rewrite lookup_insert. by case_decide.
Qed.

Lemma load_offers_keys (d : pd.DataFrame) (st : Diagram.state) (z : string) :
  z ∈ Diagram.continent_combo (Diagram.load d st) →
  is_Some (Diagram.countries_by_continent (Diagram.load d st) !! z).
Proof.
  unfold Diagram.load. simpl. intros Hin.
  apply foldl_insert_is_Some.
  apply elem_of_cons in Hin as [->|Hin]; [right|by left].
  by rewrite lookup_singleton_eq.
Qed.

(** Selections change neither the table nor the dictionary. *)
Lemma bar_select_continent_keeps (v : string) (st : Diagram.state) :
  Diagram.df (BarDiagram.select_continent v st) = Diagram.df st
  ∧ Diagram.countries_by_continent (BarDiagram.select_continent v st)
    = Diagram.countries_by_continent st.
Proof.
  unfold BarDiagram.select_continent, BarDiagram.on_continent_selected,
    BarDiagram.update, Diagram.continent_selected. simpl.
  by repeat case_match.
Qed.

Lemma bar_select_country_keeps (v : string) (st : Diagram.state) :
  Diagram.df (BarDiagram.select_country v st) = Diagram.df st
  ∧ Diagram.countries_by_continent (BarDiagram.select_country v st)
    = Diagram.countries_by_continent st.
Proof.
  unfold BarDiagram.select_country, BarDiagram.on_country_selected,
    BarDiagram.update, Diagram.country_selected. simpl.
  by repeat case_match.
Qed.

Lemma scatter_select_continent_keeps (v : string) (st : Diagram.state) :
  Diagram.df (ScatterPlot.select_continent v st) = Diagram.df st
  ∧ Diagram.countries_by_continent (ScatterPlot.select_continent v st)
    = Diagram.countries_by_continent st.
Proof.
  unfold ScatterPlot.select_continent, ScatterPlot.on_continent_selected,
    ScatterPlot.update, Diagram.continent_selected. simpl.
  by repeat case_match.
Qed.

Lemma scatter_select_country_keeps (v : string) (st : Diagram.state) :
  Diagram.df (ScatterPlot.select_country v st) = Diagram.df st
  ∧ Diagram.countries_by_continent (ScatterPlot.select_country v st)
    = Diagram.countries_by_continent st.
Proof.
  unfold ScatterPlot.select_country, ScatterPlot.on_country_selected,
    ScatterPlot.update, Diagram.country_selected. simpl.
  by repeat case_match.
Qed.

(** Selecting a continent the dictionary knows puts the country combobox
    back on its first entry and redraws without a country. *)
Lemma bar_select_continent_resets (z : string) (st : Diagram.state)
    (d : pd.DataFrame) :
  Diagram.df st = Some d →
  is_Some (Diagram.countries_by_continent st !! z) →
  let st' := BarDiagram.select_continent z st in
  Diagram.continent_var st' = z
  ∧ Diagram.country_var st' = "Alle Länder"
  ∧ Diagram.highlight_country st' = None
  ∧ Diagram.ax st' = BarDiagram.draw z None d.
Proof.
  intros Hdf [countries Hz].
  unfold BarDiagram.select_continent, BarDiagram.on_continent_selected,
    BarDiagram.update, Diagram.continent_selected. simpl.
  by rewrite Hz; simpl; rewrite Hdf.
Qed.

Lemma scatter_select_continent_resets (z : string) (st : Diagram.state)
    (d : pd.DataFrame) :
  Diagram.df st = Some d →
  is_Some (Diagram.countries_by_continent st !! z) →
  let st' := ScatterPlot.select_continent z st in
  Diagram.continent_var st' = z
  ∧ Diagram.country_var st' = "Alle Länder"
  ∧ Diagram.highlight_country st' = None
  ∧ Diagram.ax st' = ScatterPlot.draw z "Alle Länder" d.
Proof.
  intros Hdf [countries Hz].
  unfold ScatterPlot.select_continent, ScatterPlot.on_continent_selected,
    ScatterPlot.update, Diagram.continent_selected. simpl.
  by rewrite Hz; simpl; rewrite Hdf.
Qed.

(** C7. The cascading filter.  After a table is loaded, whatever continent
    [X] and country [Y] were selected, selecting a continent [Z] offered by
    the continent combobox puts the country selection back to
    "Alle Länder", leaves no country highlighted, and redraws the view for
    [Z] alone; this holds for the bar diagram and for the scatter plot. *)
Theorem cascading_filter_reset (d : pd.DataFrame) (st0 : Diagram.state)
    (X Y Z : string) :
  Z ∈ Diagram.continent_combo (Diagram.load d st0) →
  let bar :=
    BarDiagram.select_continent Z
      (BarDiagram.select_country Y
         (BarDiagram.select_continent X
            (BarDiagram.set_data (Some d) st0))) in
  let scatter :=
    ScatterPlot.select_continent Z
      (ScatterPlot.select_country Y
         (ScatterPlot.select_continent X
            (ScatterPlot.set_data (Some d) st0))) in
  (Diagram.continent_var bar = Z
   ∧ Diagram.country_var bar = "Alle Länder"
   ∧ Diagram.highlight_country bar = None
   ∧ Diagram.ax bar = BarDiagram.draw Z None d)
  ∧ (Diagram.continent_var scatter = Z
     ∧ Diagram.country_var scatter = "Alle Länder"
     ∧ Diagram.highlight_country scatter = None
     ∧ Diagram.ax scatter = ScatterPlot.draw Z "Alle Länder" d).
Proof.
  intros HZ bar scatter.
  apply load_offers_keys in HZ.
  split.
  - apply bar_select_continent_resets.
    + destruct (bar_select_country_keeps Y
        (BarDiagram.select_continent X (BarDiagram.set_data (Some d) st0)))
        as [-> _].
      by destruct (bar_select_continent_keeps X
        (BarDiagram.set_data (Some d) st0)) as [-> _].
    + destruct (bar_select_country_keeps Y
        (BarDiagram.select_continent X (BarDiagram.set_data (Some d) st0)))
        as [_ ->].
      by destruct (bar_select_continent_keeps X
        (BarDiagram.set_data (Some d) st0)) as [_ ->].
  - apply scatter_select_continent_resets.
    + destruct (scatter_select_country_keeps Y
        (ScatterPlot.select_continent X (ScatterPlot.set_data (Some d) st0)))
        as [-> _].
      by destruct (scatter_select_continent_keeps X
        (ScatterPlot.set_data (Some d) st0)) as [-> _].
    + destruct (scatter_select_country_keeps Y
        (ScatterPlot.select_continent X (ScatterPlot.set_data (Some d) st0)))
        as [_ ->].
      by destruct (scatter_select_continent_keeps X
        (ScatterPlot.set_data (Some d) st0)) as [_ ->].
Qed.

(** ** Instances of the conditional theorems *)

Lemma range_bucket_membership_witness :
  Py.float_of_digits "60" = Py.Ok (Py.Fin 60)
  ∧ Py.float_of_digits "10" = Py.Ok (Py.Fin 10)
  ∧ ∃ (edges : list Q) (b0 : Q) (counts : list (string * nat)) (title : string),
      let bins := Py.Fin <$> edges in
      PieDiagram.range_bins (21 + 0) (Py.Fin 60) (Py.Fin 10) = Some bins
      ∧ StronglySorted Qlt edges
      ∧ head edges = Some b0
      ∧ ((2 ≤ length edges)%nat →
          PieDiagram.create_range_distribution_chart Py.float_of_digits
            (Py.format_f 1) pie0 (21 + 0) "60" "10" D0
          = Some
              match pie0 ((λ e, inject_Z (Z.of_nat e.2)) <$> counts) with
              | None =>
                [plt.pie ((λ e, inject_Z (Z.of_nat e.2)) <$> counts) None
                         (counts.*1);
                 plt.set_title title]
              | Some e =>
                [plt.text (plt.At 0.5 0.5)
                   ("Fehler bei der Diagrammerstellung:" +:+ Py.newline
                    +:+ Py.str_exn e)]
              end)
      ∧ (∀ i lo hi, edges !! i = Some lo → edges !! S i = Some hi →
          counts !! i =
            Some (Py.format_Q 0 lo +:+ "%-" +:+ Py.format_Q 0 hi +:+ "%",
                  length (filter (λ row, pd.cut_code bins true (pd.Rate row)
                                         = Some i) D0))
          ∧ (∀ r, pd.cut_code bins true r = Some i
                  ↔ (lo < r)%Q ∧ (r <= hi)%Q ∨ i = 0%nat ∧ (r == lo)%Q)
          ∧ (∀ r, (r == hi)%Q → pd.cut_code bins true r = Some i)
          ∧ (∀ r, (r == b0)%Q → pd.cut_code bins true r = Some 0%nat))
      ∧ (∀ r, (r < b0)%Q ∨ (100 < r)%Q → pd.cut_code bins true r = None).
Proof.
  split; [reflexivity|]. split; [reflexivity|].
  apply (range_bucket_membership Py.float_of_digits (Py.format_f 1) pie0 0
           "60" "10" (Py.Fin 60) (Py.Fin 10) D0); reflexivity.
Defined.

Lemma cascading_filter_reset_witness :
  "Europe" ∈ Diagram.continent_combo (Diagram.load D0 Diagram.init)
  ∧ let bar :=
      BarDiagram.select_continent "Europe"
        (BarDiagram.select_country "Ghana"
           (BarDiagram.select_continent "Africa"
              (BarDiagram.set_data (Some D0) Diagram.init))) in
    let scatter :=
      ScatterPlot.select_continent "Europe"
        (ScatterPlot.select_country "Ghana"
           (ScatterPlot.select_continent "Africa"
              (ScatterPlot.set_data (Some D0) Diagram.init))) in
    (Diagram.continent_var bar = "Europe"
     ∧ Diagram.country_var bar = "Alle Länder"
     ∧ Diagram.highlight_country bar = None
     ∧ Diagram.ax bar = BarDiagram.draw "Europe" None D0)
    ∧ (Diagram.continent_var scatter = "Europe"
       ∧ Diagram.country_var scatter = "Alle Länder"
       ∧ Diagram.highlight_country scatter = None
       ∧ Diagram.ax scatter = ScatterPlot.draw "Europe" "Alle Länder" D0).
Proof.
  split.
  - apply (bool_decide_unpack _). vm_compute. exact I.
  - apply (cascading_filter_reset D0 Diagram.init "Africa" "Ghana" "Europe").
    apply (bool_decide_unpack _). vm_compute. exact I.
Defined.

(** * Further properties of the code *)

(** ** What [set_data] puts into the comboboxes and the dictionary *)

Lemma sorted_spec (l : list string) :
  Py.sorted l ≡ₚ l ∧ StronglySorted String.le (Py.sorted l).
Proof.
  split; [apply merge_sort_Permutation|].
  apply (StronglySorted_merge_sort String.le).
Qed.

Lemma sorted_unique_spec (l : list string) :
  StronglySorted String.le (Py.sorted (pd.unique l))
  ∧ NoDup (Py.sorted (pd.unique l))
  ∧ ∀ x, x ∈ Py.sorted (pd.unique l) ↔ x ∈ l.
Proof.
  destruct (sorted_spec (pd.unique l)) as [Hperm Hsorted].
  split; [done|]. split.
  - rewrite Hperm. apply NoDup_unique.
  - intros x. rewrite Hperm. apply elem_of_unique.
Qed.

(** A dictionary filled key by key in a loop: a key of the loop holds its
    value, every other key what it held before. *)
Lemma foldl_insert_lookup {V} (f : string → V) (l : list string)
    (m : gmap string V) (z : string) :
  foldl (λ acc c, <[c := f c]> acc) m l !! z
  = if decide (z ∈ l) then Some (f z) else m !! z.
Proof.
  revert m. induction l as [|c l IH]; intros m; cbn [foldl].
  - rewrite decide_False; [done|]. apply not_elem_of_nil.
  - rewrite IH. destruct (decide (z ∈ l)) as [Hin|Hnin].
    + rewrite decide_True; [done|]. by right.
    + rewrite lookup_insert. destruct (decide (c = z)) as [->|Hne].
      * rewrite decide_True; [done|]. by left.
      * rewrite decide_False; [done|].
        intros [->|?]%elem_of_cons; done.
Qed.

Lemma load_dictionary (d : pd.DataFrame) (st : Diagram.state) (c : string) :
  Diagram.countries_by_continent (Diagram.load d st) !! c
  = if decide (c ∈ pd.Continent <$> d)
    then Some (Py.sorted (pd.unique
                 (pd.Entity <$> pd.where_Continent c d)))
    else if decide (c = "Alle")
    then Some (Py.sorted (pd.unique (pd.Entity <$> d)))
    else None.
Proof.
  unfold Diagram.load. cbn [Diagram.countries_by_continent].
  rewrite (foldl_insert_lookup
    (λ continent, Py.sorted (pd.unique
       (pd.Entity <$> pd.where_Continent continent d)))).
  destruct (sorted_unique_spec (pd.Continent <$> d)) as (_ & _ & Hin).
  destruct (decide (c ∈ pd.Continent <$> d)) as [Hc|Hc].
  - rewrite decide_True; [done|]. by apply Hin.
  - rewrite decide_False by (by rewrite Hin).
    destruct (decide (c = "Alle")) as [->|Hne].
    + by rewrite lookup_singleton_eq.
    + by rewrite lookup_singleton_ne.
Qed.

(** X1. The dictionary [countries_by_continent] after a table is loaded:
    under a continent of the table stand exactly the countries that have a
    row in that continent, in ascending order and each once; under "Alle",
    unless a continent bears that name, stand all countries of the table;
    no other key exists. *)
Theorem load_countries_by_continent (d : pd.DataFrame) (st : Diagram.state)
    (c : string) :
  let m := Diagram.countries_by_continent (Diagram.load d st) in
  (c ∈ pd.Continent <$> d →
     ∃ l, m !! c = Some l ∧ StronglySorted String.le l ∧ NoDup l
          ∧ ∀ e, e ∈ l ↔ ∃ r, r ∈ d ∧ pd.Continent r = c ∧ pd.Entity r = e)
  ∧ ("Alle" ∉ pd.Continent <$> d →
     ∃ l, m !! "Alle" = Some l ∧ StronglySorted String.le l ∧ NoDup l
          ∧ ∀ e, e ∈ l ↔ e ∈ pd.Entity <$> d)
  ∧ (c ≠ "Alle" → c ∉ pd.Continent <$> d → m !! c = None).
Proof.
  intros m. subst m. split; [|split].
  - intros Hc. rewrite load_dictionary, decide_True by done.
    eexists. split; [done|].
    destruct (sorted_unique_spec (pd.Entity <$> pd.where_Continent c d))
      as (Hsorted & Hnd & Hin).
    split; [done|]. split; [done|].
    intros e. rewrite Hin, list_elem_of_fmap. unfold pd.where_Continent.
    split.
    + intros (r & -> & Hr%list_elem_of_filter). exists r. tauto.
    + intros (r & Hr & Hcont & <-). exists r. split; [done|].
      by apply list_elem_of_filter.
  - intros Hc. rewrite load_dictionary, decide_False, decide_True by done.
    eexists. split; [done|]. apply sorted_unique_spec.
  - intros Hne Hc. by rewrite load_dictionary, !decide_False.
Qed.

(** X2. Loading a table sets both views back, whatever was selected
    before: the continent combobox offers "Alle" and then the continents of
    the table in ascending order, each once; the selections are "Alle" and
    "Alle Länder"; the scatter plot is drawn for all rows and the bar
    diagram too, with the highlight it had before the load. *)
Theorem set_data_resets_selection (d : pd.DataFrame) (st : Diagram.state) :
  let bar := BarDiagram.set_data (Some d) st in
  let scatter := ScatterPlot.set_data (Some d) st in
  ∃ continents,
    Diagram.continent_combo bar = "Alle" :: continents
    ∧ Diagram.continent_combo scatter = "Alle" :: continents
    ∧ StronglySorted String.le continents ∧ NoDup continents
    ∧ (∀ c, c ∈ continents ↔ c ∈ pd.Continent <$> d)
    ∧ Diagram.continent_var bar = "Alle"
    ∧ Diagram.country_var bar = "Alle Länder"
    ∧ Diagram.continent_var scatter = "Alle"
    ∧ Diagram.country_var scatter = "Alle Länder"
    ∧ head (Diagram.country_combo bar) = Some "Alle Länder"
    ∧ head (Diagram.country_combo scatter) = Some "Alle Länder"
    ∧ Diagram.highlight_country bar = Diagram.highlight_country st
    ∧ Diagram.ax bar = BarDiagram.draw "Alle" (Diagram.highlight_country st) d
    ∧ Diagram.ax scatter = ScatterPlot.draw "Alle" "Alle Länder" d.
Proof.
  intros bar scatter.
  exists (Py.sorted (pd.unique (pd.Continent <$> d))).
  destruct (sorted_unique_spec (pd.Continent <$> d)) as (Hsorted & Hnd & Hin).
  by repeat split; try apply Hin.
Qed.

(** ** Selections made through the comboboxes *)

(** The single-country mode of the trend view, call by call. *)
Lemma trend_single_calls (d : pd.DataFrame) (C Y : string) :
  Y ≠ "Alle Länder" →
  ScatterPlot.draw C Y d =
    match filter (λ r, pd.Entity r = Y ∧ (C = "Alle" ∨ pd.Continent r = C)) d
    with
    | [] => [plt.text (plt.At 0.5 0.5)
               "Keine Daten für die ausgewählten Filter vorhanden"]
    | rows =>
      ([plt.plot (pd.Year <$> rows) (pd.Rate <$> rows)]
       ++ ScatterPlot.point_labels (pd.Year <$> rows) (pd.Rate <$> rows)
       ++ [plt.set_title ("Einschulungsrate im Zeitverlauf - " +:+ Y)])%list
    end.
Proof.
  intros HY. unfold ScatterPlot.draw.
  rewrite <-(list_filter_filter (λ r, pd.Entity r = Y)
               (λ r, C = "Alle" ∨ pd.Continent r = C)).
  rewrite <-(continent_filter C d).
  destruct (decide (C = "Alle")); cbv beta iota;
    rewrite !(decide_True (P := Y ≠ "Alle Länder")) by done;
    unfold pd.where_Entity; cbv beta iota;
    (destruct (filter _ _); [done|]); by rewrite <-app_assoc.
Qed.

(** A country offered for a continent has a row in that continent. *)
Lemma offered_country_row (d : pd.DataFrame) (st : Diagram.state)
    (X Y : string) (countries : list string) :
  Diagram.countries_by_continent (Diagram.load d st) !! X = Some countries →
  Y ∈ countries →
  ∃ r, r ∈ d ∧ pd.Entity r = Y ∧ (X = "Alle" ∨ pd.Continent r = X).
Proof.
  rewrite load_dictionary. intros Hlookup HY.
  destruct (decide (X ∈ pd.Continent <$> d)).
  - injection Hlookup as <-.
    destruct (sorted_unique_spec (pd.Entity <$> pd.where_Continent X d))
      as (_ & _ & Hin).
    apply Hin in HY.
    apply list_elem_of_fmap in HY as (r & -> & Hr).
    apply list_elem_of_filter in Hr as [Hcont Hr].
    exists r. auto.
  - destruct (decide (X = "Alle")) as [->|]; [|done].
    injection Hlookup as <-.
    destruct (sorted_unique_spec (pd.Entity <$> d)) as (_ & _ & Hin).
    apply Hin in HY.
    apply list_elem_of_fmap in HY as (r & -> & Hr).
    exists r. auto.
Qed.

(** X3. The cascade keeps the no-data text away from the trend view.
    After a table is loaded and a continent [X] of the combobox is
    selected, every country [Y] the country combobox then offers has rows
    under that selection: selecting it draws the line through the rows of
    [Y], at least one, and the title names [Y]. *)
Theorem offered_country_has_data (d : pd.DataFrame) (st0 : Diagram.state)
    (X Y : string) :
  X ∈ Diagram.continent_combo (ScatterPlot.set_data (Some d) st0) →
  Y ∈ Diagram.country_combo
        (ScatterPlot.select_continent X (ScatterPlot.set_data (Some d) st0)) →
  Y ≠ "Alle Länder" →
  ∃ r rows,
    filter (λ r, pd.Entity r = Y ∧ (X = "Alle" ∨ pd.Continent r = X)) d
      = r :: rows
    ∧ Diagram.ax
        (ScatterPlot.select_country Y
           (ScatterPlot.select_continent X
              (ScatterPlot.set_data (Some d) st0)))
      = ([plt.plot (pd.Year <$> r :: rows) (pd.Rate <$> r :: rows)]
         ++ ScatterPlot.point_labels (pd.Year <$> r :: rows)
              (pd.Rate <$> r :: rows)
         ++ [plt.set_title ("Einschulungsrate im Zeitverlauf - " +:+ Y)])%list.
Proof.
  intros HX HY HneY.
  change (Diagram.continent_combo (ScatterPlot.set_data (Some d) st0))
    with (Diagram.continent_combo (Diagram.load d st0)) in HX.
  destruct (load_offers_keys d st0 X HX) as [countries Hcountries].
  assert (Hst1 :
    ScatterPlot.select_continent X (ScatterPlot.set_data (Some d) st0)
    = Diagram.State (Some d) None
        (Diagram.countries_by_continent (Diagram.load d st0))
        X (Diagram.continent_combo (Diagram.load d st0))
        "Alle Länder" ("Alle Länder" :: countries)
        (ScatterPlot.draw X "Alle Länder" d)).
  { unfold ScatterPlot.select_continent, ScatterPlot.on_continent_selected,
      ScatterPlot.set_data, ScatterPlot.update, Diagram.continent_selected.
    cbn [Diagram.df Diagram.load Diagram.set_ax Diagram.set_continent_var
         Diagram.continent_var Diagram.countries_by_continent].
    change (foldl _ _ _) with
      (Diagram.countries_by_continent (Diagram.load d st0)).
    by rewrite Hcountries. }
  rewrite Hst1 in HY |- *. cbn [Diagram.country_combo] in HY.
  apply elem_of_cons in HY as [->|HY]; [done|].
  destruct (offered_country_row d st0 X Y countries Hcountries HY)
    as (r & Hr & HrY & HrX).
  assert (Hin : r ∈ filter
    (λ r, pd.Entity r = Y ∧ (X = "Alle" ∨ pd.Continent r = X)) d)
    by (by apply list_elem_of_filter).
  destruct (filter _ d) as [|r0 rows] eqn:Hrows;
    [by apply elem_of_nil in Hin|].
  exists r0, rows. split; [done|].
  unfold ScatterPlot.select_country, ScatterPlot.on_country_selected,
    ScatterPlot.update, Diagram.country_selected.
  cbn [Diagram.set_country_var Diagram.country_var Diagram.df].
  rewrite decide_False by done.
  cbn -[ScatterPlot.draw].
  rewrite trend_single_calls by done. by rewrite Hrows.
Qed.

(** The bar diagram, call by call. *)
Lemma bar_calls (d : pd.DataFrame) (C : string) (highlight : option string) :
  ∃ rest,
    BarDiagram.draw C highlight d =
      match pd.sort_values_Rate_desc
              (filter (λ r, C = "Alle" ∨ pd.Continent r = C) d) with
      | [] => [plt.text (plt.At 0.5 0.5)
                 ("Keine Daten für " +:+ C +:+ " vorhanden")]
      | rows =>
        plt.bar (pd.Entity <$> rows) (pd.Rate <$> rows)
          ((λ r, if decide (highlight = Some (pd.Entity r))
                 then "orange" else "skyblue") <$> rows)
        :: rest
      end.
Proof.
  unfold BarDiagram.draw. rewrite <-(continent_filter C d).
  destruct (decide (C = "Alle")); cbv beta iota;
    match goal with
    | |- context [pd.sort_values_Rate_desc ?sel] =>
      set (sorted := pd.sort_values_Rate_desc sel)
    end;
    match goal with
    | |- context [plt.set_title ?title] =>
      exists (BarDiagram.year_labels (pd.Year <$> sorted)
              ++ [plt.set_title title]
              ++ BarDiagram.value_labels (pd.Rate <$> sorted))%list
    end;
    (destruct sorted; [done|]);
    simpl; by rewrite <-list_fmap_compose.
Qed.

Lemma bar_select_country_draws (v : string) (st : Diagram.state)
    (d : pd.DataFrame) :
  Diagram.df st = Some d →
  Diagram.df (BarDiagram.select_country v st) = Some d
  ∧ Diagram.continent_var (BarDiagram.select_country v st)
    = Diagram.continent_var st
  ∧ Diagram.ax (BarDiagram.select_country v st)
    = BarDiagram.draw (Diagram.continent_var st)
        (if decide (v = "Alle Länder") then None else Some v) d.
Proof.
  intros Hdf.
  unfold BarDiagram.select_country, BarDiagram.on_country_selected,
    BarDiagram.update, Diagram.country_selected.
  cbn -[BarDiagram.draw].
  destruct (decide (v = "Alle Länder")); cbn -[BarDiagram.draw];
    by rewrite Hdf.
Qed.

(** X4. Highlighting in the bar diagram changes colours and nothing else.
    After a table is loaded and a continent [X] of the combobox is
    selected, selecting a country [Y] the country combobox offers leaves
    the bars as they are, the rows of [X] by falling rate, colours the bars
    of [Y] orange and the others blue, and at least one bar is orange;
    selecting "Alle Länder" afterwards makes every bar blue again. *)
Theorem bar_highlight_changes_colours_only (d : pd.DataFrame)
    (st0 : Diagram.state) (X Y : string) :
  X ∈ Diagram.continent_combo (BarDiagram.set_data (Some d) st0) →
  Y ∈ Diagram.country_combo
        (BarDiagram.select_continent X (BarDiagram.set_data (Some d) st0)) →
  Y ≠ "Alle Länder" →
  let rows :=
    pd.sort_values_Rate_desc
      (filter (λ r, X = "Alle" ∨ pd.Continent r = X) d) in
  let picked :=
    BarDiagram.select_country Y
      (BarDiagram.select_continent X (BarDiagram.set_data (Some d) st0)) in
  (∃ r, r ∈ rows ∧ pd.Entity r = Y)
  ∧ (∃ rest,
      Diagram.ax picked =
        plt.bar (pd.Entity <$> rows) (pd.Rate <$> rows)
          ((λ r, if decide (pd.Entity r = Y) then "orange" else "skyblue")
             <$> rows) :: rest)
  ∧ (∃ rest,
      Diagram.ax (BarDiagram.select_country "Alle Länder" picked) =
        plt.bar (pd.Entity <$> rows) (pd.Rate <$> rows)
          ((λ _, "skyblue") <$> rows) :: rest).
Proof.
  intros HX HY HneY rows picked.
  change (Diagram.continent_combo (BarDiagram.set_data (Some d) st0))
    with (Diagram.continent_combo (Diagram.load d st0)) in HX.
  destruct (load_offers_keys d st0 X HX) as [countries Hcountries].
  assert (Hst1 :
    BarDiagram.select_continent X (BarDiagram.set_data (Some d) st0)
    = Diagram.State (Some d) None
        (Diagram.countries_by_continent (Diagram.load d st0))
        X (Diagram.continent_combo (Diagram.load d st0))
        "Alle Länder" ("Alle Länder" :: countries)
        (BarDiagram.draw X None d)).
  { unfold BarDiagram.select_continent, BarDiagram.on_continent_selected,
      BarDiagram.set_data, BarDiagram.update, Diagram.continent_selected.
    cbn [Diagram.df Diagram.load Diagram.set_ax Diagram.set_continent_var
         Diagram.continent_var Diagram.countries_by_continent].
    change (foldl _ _ _) with
      (Diagram.countries_by_continent (Diagram.load d st0)).
    by rewrite Hcountries. }
  subst picked. rewrite Hst1 in HY |- *. cbn [Diagram.country_combo] in HY.
  apply elem_of_cons in HY as [->|HY]; [done|].
  destruct (offered_country_row d st0 X Y countries Hcountries HY)
    as (r & Hr & HrY & HrX).
  assert (Hin : r ∈ rows).
  { unfold rows, pd.sort_values_Rate_desc.
    rewrite merge_sort_Permutation. by apply list_elem_of_filter. }
  split; [by exists r|].
  set (st1 := Diagram.State (Some d) None
        (Diagram.countries_by_continent (Diagram.load d st0))
        X (Diagram.continent_combo (Diagram.load d st0))
        "Alle Länder" ("Alle Länder" :: countries)
        (BarDiagram.draw X None d)).
  destruct (bar_select_country_draws Y st1 d eq_refl) as (Hdf1 & Hvar1 & Hax1).
  destruct (bar_select_country_draws "Alle Länder"
              (BarDiagram.select_country Y st1) d Hdf1) as (_ & _ & Hax2).
  rewrite Hax1, Hax2, Hvar1.
  rewrite decide_False, decide_True by done.
  cbn [Diagram.continent_var st1].
  destruct (bar_calls d X (Some Y)) as [rest1 ->].
  destruct (bar_calls d X None) as [rest2 ->].
  fold rows. destruct rows as [|r0 rows0]; [by apply elem_of_nil in Hin|].
  split; eexists.
  - f_equal. f_equal. apply list_fmap_ext. intros _ r' _.
    destruct (decide (pd.Entity r' = Y)) as [HrY'|HrY'].
    + rewrite decide_True; [done|]. by rewrite HrY'.
    + rewrite decide_False; [done|]. intros [= Heq]. by apply HrY'.
  - done.
Qed.

(** ** The series of the trend view *)

Lemma StronglySorted_filter {A} (R : relation A) (P : A → Prop)
    `{∀ x, Decision (P x)} (l : list A) :
  StronglySorted R l → StronglySorted R (filter P l).
Proof.
  induction 1 as [|x l Hsorted IH Hall]; [constructor|].
  rewrite filter_cons. destruct (decide (P x)); [|done].
  constructor; [done|].
  apply Forall_forall. intros y [_ Hy]%list_elem_of_filter.
  rewrite Forall_forall in Hall. by apply Hall.
Qed.

(** X5. The single-country line follows the table.  Its points are the
    years and rates of the rows of the country under the continent filter,
    in the order of the table; so the line runs forward in time whenever
    the rows of that country stand in ascending order of year in the
    table. *)
Theorem trend_single_entity_follows_table (d : pd.DataFrame) (C Y : string) :
  Y ≠ "Alle Länder" →
  StronglySorted (λ r1 r2, (pd.Year r1 ≤ pd.Year r2)%Z)
    (filter (λ r, pd.Entity r = Y) d) →
  ∀ x y, plt.plot x y ∈ ScatterPlot.draw C Y d →
    x = pd.Year <$>
          filter (λ r, pd.Entity r = Y ∧ (C = "Alle" ∨ pd.Continent r = C)) d
    ∧ y = pd.Rate <$>
          filter (λ r, pd.Entity r = Y ∧ (C = "Alle" ∨ pd.Continent r = C)) d
    ∧ StronglySorted Z.le x.
Proof.
  intros HY Hsorted x y. rewrite trend_single_calls by done.
  assert (Hrows : StronglySorted (λ r1 r2, (pd.Year r1 ≤ pd.Year r2)%Z)
    (filter (λ r, pd.Entity r = Y ∧ (C = "Alle" ∨ pd.Continent r = C)) d)).
  { rewrite <-(list_filter_filter_l
                 (λ r, pd.Entity r = Y ∧ (C = "Alle" ∨ pd.Continent r = C))
                 (λ r, pd.Entity r = Y)) by tauto.
    by apply StronglySorted_filter. }
  revert Hrows.
  generalize (filter
    (λ r, pd.Entity r = Y ∧ (C = "Alle" ∨ pd.Continent r = C)) d).
  intros [|r0 rows] Hrows.
  { by intros [=]%list_elem_of_singleton. }
  cbv zeta. rewrite !elem_of_app. intros [Hin|[Hin|Hin]].
  - apply list_elem_of_singleton in Hin. injection Hin as -> ->.
    split; [done|]. split; [done|].
    by apply (StronglySorted_fmap pd.Year
                (λ r1 r2, (pd.Year r1 ≤ pd.Year r2)%Z) Z.le (r0 :: rows)).
  - unfold ScatterPlot.point_labels in Hin.
    by apply list_elem_of_fmap in Hin as ([? ?] & [=] & _).
  - by apply list_elem_of_singleton in Hin.
Qed.

(** X6. The series of the multi-country trend view split the selected
    rows.  There is one scatter series per distinct country of the
    selection, labelled with the country and holding the years and rates of
    its rows in table order; no series is empty, and together the series
    have as many points as the selection has rows. *)
Theorem trend_multi_series_partition (d : pd.DataFrame) (C : string) :
  let rows := filter (λ r, C = "Alle" ∨ pd.Continent r = C) d in
  let countries := pd.unique (pd.Entity <$> rows) in
  NoDup countries
  ∧ (∀ x y label,
       plt.scatter x y label ∈ ScatterPlot.draw C "Alle Länder" d
       ↔ label ∈ countries
         ∧ x = pd.Year <$> filter (λ r, pd.Entity r = label) rows
         ∧ y = pd.Rate <$> filter (λ r, pd.Entity r = label) rows)
  ∧ (∀ label, label ∈ countries →
       filter (λ r, pd.Entity r = label) rows ≠ [])
  ∧ sum_list_with (λ label, length (filter (λ r, pd.Entity r = label) rows))
      countries
    = length rows.
Proof.
  intros rows countries.
  split; [apply NoDup_unique|]. split; [|split].
  - intros x y label.
    destruct (trend_multi_calls d C) as [title ->].
    fold rows. fold countries.
    destruct rows as [|r0 rows0] eqn:Hrows.
    { split.
      - by intros [=]%list_elem_of_singleton.
      - intros [Hin _]. by apply elem_of_nil in Hin. }
    rewrite !elem_of_app, list_elem_of_fmap. split.
    + intros [(c & [= -> -> ->] & Hc)|[Hin|Hin]].
      * done.
      * case_decide; [|by apply elem_of_nil in Hin].
        by apply list_elem_of_singleton in Hin.
      * by apply list_elem_of_singleton in Hin.
    + intros (Hc & -> & ->). left. by exists label.
  - intros label Hin Hempty.
    apply elem_of_unique, list_elem_of_fmap in Hin as (r & -> & Hr).
    assert (Hr' : r ∈ filter (λ r', pd.Entity r' = pd.Entity r) rows)
      by (by apply list_elem_of_filter).
    rewrite Hempty in Hr'. by apply elem_of_nil in Hr'.
  - rewrite <-(length_fmap pd.Entity rows).
    rewrite <-(sum_counts_unique (pd.Entity <$> rows)).
    fold countries. generalize countries. intros l.
    induction l as [|c l IH]; simpl; [done|].
    by rewrite IH, count_fmap.
Qed.

(** ** The range distribution: errors, buckets and counts *)

(** The number of edges after the first. *)
Lemma edge_chain_count (s c : Q) (rest : list Q) :
  (0 < s)%Q → (c <= 100)%Q → edge_chain s c rest →
  match rest with
  | [] => (c == 100)%Q
  | _ :: t =>
    (c + inject_Z (Z.of_nat (length t)) * s < 100)%Q
    ∧ (100 <= c + inject_Z (Z.of_nat (S (length t))) * s)%Q
  end.
Proof.
  intros Hs. revert c. induction rest as [|b t IH]; intros c Hc Hchain.
  - simpl in Hchain. lra.
  - destruct Hchain as (Hlt & Hb & Hchain).
    assert (Hb100 : (b <= 100)%Q) by (rewrite Hb; apply Q.le_min_r).
    specialize (IH b Hb100 Hchain).
    rewrite Nat2Z.inj_succ, <-Z.add_1_r, inject_Z_plus.
    change (inject_Z 1) with 1%Q.
    destruct t as [|b' t'].
    + change (inject_Z (Z.of_nat (length []))) with 0%Q.
      destruct (Qlt_le_dec 100 (c + s)).
      * split; lra.
      * rewrite Q.min_l in Hb by lra. split; lra.
    + destruct IH as [IHlt IHle].
      destruct Hchain as (Hblt & _ & _).
      destruct (Qlt_le_dec 100 (c + s)).
      { rewrite Q.min_r in Hb by lra. lra. }
      rewrite Q.min_l in Hb by lra.
      change (length (b' :: t')) with (S (length t')) in *.
      rewrite Nat2Z.inj_succ, <-Z.add_1_r, inject_Z_plus in IHle |- *.
      change (inject_Z 1) with 1%Q in *.
      split; lra.
Qed.

(** X9. How many buckets there are, for spin boxes that hold integers, as
    the arrows of the spin boxes leave them: sums of integers are exact on
    doubles as well.  With [m] the clamped minimum and [s] the clamped
    step, the number [n] of buckets is the least number of steps that
    reach 100 from [m]: none when [m] is 100, and otherwise
    [m + (n - 1) s < 100 <= m + n s]; there are never more than twenty. *)
Theorem range_bucket_count (min_int step_int : Z) (k : nat) :
  let min_val := Py.Fin (inject_Z min_int) in
  let step_val := Py.Fin (inject_Z step_int) in
  ∃ (m s : Q) (edges : list Q),
    Py.max (Py.Fin 0) (Py.min (Py.Fin 100) min_val) = Py.Fin m
    ∧ Py.max (Py.Fin 5) (Py.min (Py.Fin 25) step_val) = Py.Fin s
    ∧ PieDiagram.range_bins (21 + k) min_val step_val
        = Some (Py.Fin <$> edges)
    ∧ length (PieDiagram.range_labels (Py.Fin <$> edges))
      = (length edges - 1)%nat
    ∧ (length edges - 1 ≤ 20)%nat
    ∧ ((length edges - 1 = 0)%nat ↔ (m == 100)%Q)
    ∧ ∀ n, (length edges - 1 = S n)%nat →
        (m + inject_Z (Z.of_nat n) * s < 100)%Q
        ∧ (100 <= m + inject_Z (Z.of_nat (S n)) * s)%Q.
Proof.
  intros min_val step_val.
  destruct (range_bins_edges min_val step_val k)
    as (m & s & rest & Hm & Hs & Hmb & Hsb & _ & _ & Hrun & Hchain).
  exists m, s, (m :: rest). repeat (split; [done|]).
  split; [apply range_labels_length|].
  pose proof (edge_chain_count s m rest) as Hcount.
  specialize (Hcount ltac:(lra) ltac:(lra) Hchain).
  replace (length (m :: rest) - 1)%nat with (length rest) by (simpl; lia).
  destruct rest as [|b t].
  - split; [simpl; lia|]. split; [done|]. intros n [=].
  - destruct Hcount as [Hlt Hle]. cbn [length].
    split; [|split].
    + destruct (decide (length t < 20)%nat) as [|Hbig]; [lia|].
      exfalso.
      assert (H20 : (20 <= inject_Z (Z.of_nat (length t)))%Q).
      { change 20%Q with (inject_Z 20). rewrite <-Zle_Qle. lia. }
      assert (Hprod : (20 * 5 <= inject_Z (Z.of_nat (length t)) * s)%Q).
      { apply Qmult_le_compat_nonneg; split; lra. }
      lra.
    + split; [done|]. intros Heq. destruct Hchain as [Hm100 _]. lra.
    + intros n [= <-]. done.
Qed.

(** A rate between the first and the last edge gets a bucket, and a bucket
    is always one of those between the edges. *)
Lemma cut_code_inside (edges : list Q) (r m top : Q) :
  StronglySorted Qlt edges →
  head edges = Some m → last edges = Some top → (2 ≤ length edges)%nat →
  (m <= r)%Q → (r <= top)%Q →
  pd.cut_code (Py.Fin <$> edges) true r ≠ None.
Proof.
  intros Hsorted Hhead Hlast Hlen Hlo Hhi.
  destruct (searchsorted_left_spec edges r Hsorted) as (_ & Hbelow & Habove).
  destruct edges as [|m' rest]; [done|]. injection Hhead as ->.
  rewrite last_lookup in Hlast.
  unfold pd.cut_code. rewrite length_fmap.
  set (n := pd.searchsorted_left (Py.Fin <$> m :: rest) (Py.Fin r)) in *.
  rewrite fmap_cons. cbn [andb]. rewrite eq_Fin.
  destruct (bool_decide_reflect (r == m)%Q) as [Heq|Hne].
  - rewrite decide_False; [done|]. simpl in Hlen |- *. lia.
  - rewrite decide_False; [done|]. intros [Hn|Hn].
    + assert (top < r)%Q; [|lra].
      apply (Hbelow (pred (length (m :: rest)))); [done|].
      rewrite Hn. simpl. lia.
    + assert (r <= m)%Q by (apply (Habove 0%nat); [done|lia]).
      apply Hne. lra.
Qed.

Lemma cut_code_bound (edges : list Q) (r : Q) (i : nat) :
  StronglySorted Qlt edges →
  pd.cut_code (Py.Fin <$> edges) true r = Some i →
  (S i < length edges)%nat.
Proof.
  intros Hsorted.
  destruct (searchsorted_left_spec edges r Hsorted) as (Hlen & _ & _).
  unfold pd.cut_code. rewrite length_fmap.
  set (n := pd.searchsorted_left (Py.Fin <$> edges) (Py.Fin r)) in *.
  destruct edges as [|m rest].
  - by compute.
  - rewrite fmap_cons. cbn [andb].
    destruct (Py.eq (Py.Fin r) (Py.Fin m));
      case_decide; try done; intros [= <-]; simpl in *; lia.
Qed.

Lemma sum_indicator_seq (j a n : nat) :
  sum_list_with (λ i, if decide (j = i) then 1%nat else 0%nat) (seq a n)
  = if decide (a ≤ j < a + n)%nat then 1%nat else 0%nat.
Proof.
  revert a. induction n as [|n IH]; intros a; simpl.
  - rewrite decide_False; [done|lia].
  - rewrite IH. repeat case_decide; lia.
Qed.

(** The counts of all categories together: the rows that have one. *)
Lemma sum_category_counts (n : nat) (codes : list (option nat)) :
  (∀ i, Some i ∈ codes → (i < n)%nat) →
  sum_list_with (λ i, length (filter (λ c, c = Some i) codes)) (seq 0 n)
  = length (filter (λ c, c ≠ None) codes).
Proof.
  induction codes as [|c codes IH]; intros Hbound.
  - simpl. induction (seq 0 n) as [|i l IHl]; simpl; [done|]. by rewrite IHl.
  - assert (Hsplit : ∀ l,
      sum_list_with (λ i, length (filter (λ c', c' = Some i) (c :: codes))) l
      = (sum_list_with (λ i, if decide (c = Some i) then 1 else 0) l
         + sum_list_with (λ i, length (filter (λ c', c' = Some i) codes)) l)%nat).
    { intros l. induction l as [|i l IHl]; simpl; [done|].
      rewrite IHl, filter_cons. case_decide; simpl; lia. }
    rewrite Hsplit, IH by (intros i Hi; apply Hbound; by right).
    assert (Hind :
      sum_list_with (λ i, if decide (c = Some i) then 1%nat else 0%nat)
        (seq 0 n)
      = if decide (c ≠ None) then 1%nat else 0%nat).
    { destruct (decide (c ≠ None)) as [Hsome|Hnone].
      - destruct c as [j|]; [|done].
        transitivity (sum_list_with
          (λ i, if decide (j = i) then 1%nat else 0%nat) (seq 0 n)).
        + generalize (seq 0 n). intros l.
          induction l as [|i l IHl]; [done|].
          cbn [sum_list_with]. rewrite IHl.
          repeat case_decide; congruence.
        + rewrite sum_indicator_seq, decide_True; [done|].
          assert (j < n)%nat by (apply Hbound; by left). lia.
      - generalize (seq 0 n). intros l.
        induction l as [|i l IHl]; [done|].
        cbn [sum_list_with]. rewrite IHl.
        rewrite decide_False; [done|]. intros ->. by apply Hnone. }
    rewrite Hind, filter_cons. by case_decide.
Qed.

Lemma sum_imap_counts {A} (g : nat → nat) (l : list A) (a : nat) :
  sum_list ((imap (λ i x, (x, g (a + i)%nat)) l).*2)
  = sum_list_with g (seq a (length l)).
Proof.
  revert a. induction l as [|x l IH]; intros a; [done|].
  rewrite imap_cons. csimpl. rewrite Nat.add_0_r. f_equal.
  rewrite <-(IH (S a)). do 2 f_equal. apply imap_ext.
  intros i y _. simpl. do 2 f_equal. lia.
Qed.

Lemma sum_imap_counts_0 {A} (g : nat → nat) (l : list A) :
  sum_list ((imap (λ i x, (x, g i)) l).*2)
  = sum_list_with g (seq 0 (length l)).
Proof.
  by rewrite <-(sum_imap_counts g l 0).
Qed.

Lemma sum_list_eq_0 (l : list nat) :
  sum_list l = 0%nat ↔ Forall (λ n, n = 0%nat) l.
Proof.
  induction l as [|n l IH]; simpl; [by split|].
  rewrite Forall_cons, <-IH. lia.
Qed.

(** X8. The counts of the range distribution count the rows in range, each
    once.  When the clamped minimum [m] is below 100, the counts of the
    buckets add up to the number of rows whose rate lies between [m] and
    100, both included: rows below [m] or above 100 are counted nowhere,
    and all counts are zero exactly when no rate lies in that range.  The
    counts go to [ax.pie]: the axes hold their pie and the title, or the
    error text with matplotlib's message when matplotlib refuses them. *)
Theorem range_counts_add_up (float : string → Py.result Py.float)
    (str : Py.float → string) (ax_pie : list Q → option Py.exn) (k : nat)
    (min_var step_var : string)
    (min_val step_val : Py.float) (d : pd.DataFrame) :
  float min_var = Py.Ok min_val → float step_var = Py.Ok step_val →
  ∃ (m : Q) (counts : list (string * nat)) (title : string),
    Py.max (Py.Fin 0) (Py.min (Py.Fin 100) min_val) = Py.Fin m
    ∧ ((m < 100)%Q →
        let in_range :=
          filter (λ r, (m <= pd.Rate r)%Q ∧ (pd.Rate r <= 100)%Q) d in
        PieDiagram.create_range_distribution_chart float str ax_pie (21 + k)
          min_var step_var d
        = Some
            match ax_pie ((λ e, inject_Z (Z.of_nat e.2)) <$> counts) with
            | None =>
              [plt.pie ((λ e, inject_Z (Z.of_nat e.2)) <$> counts) None
                       (counts.*1);
               plt.set_title title]
            | Some e =>
              [plt.text (plt.At 0.5 0.5)
                 ("Fehler bei der Diagrammerstellung:" +:+ Py.newline
                  +:+ Py.str_exn e)]
            end
        ∧ sum_list (counts.*2) = length in_range
        ∧ (Forall (λ n, n = 0%nat) (counts.*2) ↔ in_range = [])).
Proof.
  intros Hmin Hstep.
  destruct (range_chart_parsed float str ax_pie k min_var step_var
              min_val step_val d Hmin Hstep)
    as (m & s & rest & title & Hrun & Hmb & Hsb & Hchain & Hchart).
  destruct (range_bins_edges min_val step_val k)
    as (m' & s' & rest' & Hm & _ & _ & _ & _ & _ & Hrun' & _).
  rewrite Hrun in Hrun'. injection Hrun' as <- _.
  assert (Hpos : (0 < s)%Q) by lra.
  pose proof (edge_chain_sorted s Hpos m rest Hchain) as Hsorted.
  destruct (edge_chain_last s Hpos m rest) as (top & Hlast & Htop);
    [lra|done|].
  set (bins := Py.Fin <$> m :: rest) in *.
  set (codes := pd.cut_code bins true <$> (pd.Rate <$> d)) in *.
  exists m,
    (pd.value_counts_sort_index
       {| pd.categories := PieDiagram.range_labels bins; pd.codes := codes |}),
    title.
  split; [done|]. intros Hm100 in_range.
  assert (Hlen : (2 ≤ length (m :: rest))%nat).
  { destruct rest as [|b t]; [simpl in Hchain; lra|simpl; lia]. }
  assert (Hsum : sum_list
            (pd.value_counts_sort_index
               {| pd.categories := PieDiagram.range_labels bins;
                  pd.codes := codes |}).*2
          = length in_range).
  { unfold pd.value_counts_sort_index. cbn [pd.categories pd.codes].
    rewrite (sum_imap_counts_0
               (λ i, length (filter (λ code, code = Some i) codes))
               (PieDiagram.range_labels bins)).
    rewrite sum_category_counts.
    + unfold codes, in_range. rewrite <-list_fmap_compose.
      clear Hchart in_range. induction d as [|r t IH]; [done|].
      rewrite fmap_cons, !filter_cons.
      destruct (decide ((m <= pd.Rate r)%Q ∧ (pd.Rate r <= 100)%Q))
        as [[Hlo Hhi]|Hout].
      * rewrite decide_True; [simpl; by rewrite IH|].
        apply (cut_code_inside (m :: rest) (pd.Rate r) m top); [done..|lra].
      * rewrite decide_False; [done|]. intros Hsome. apply Hsome.
        apply (cut_code_outside (m :: rest) (pd.Rate r) m top); [done..|].
        destruct (Qlt_le_dec (pd.Rate r) m); [by left|right].
        destruct (Qlt_le_dec top (pd.Rate r)); [done|].
        exfalso. apply Hout. split; lra.
    + intros i Hi. unfold codes in Hi.
      apply list_elem_of_fmap in Hi as (r & Hr & _). symmetry in Hr.
      apply cut_code_bound in Hr; [|done].
      unfold bins. rewrite range_labels_length. lia. }
  split; [|split; [done|]].
  - rewrite Hchart. rewrite decide_False; [done|].
    unfold pd.value_counts_sort_index. cbn [pd.categories].
    rewrite length_imap. unfold bins.
    rewrite range_labels_length. lia.
  - rewrite <-sum_list_eq_0, Hsum. by destruct in_range.
Qed.

(** ** The panels of the continent diagram *)

#[global] Instance pair_le_total : Total PlotterDiagram.pair_le.
Proof.
  intros [y1 r1] [y2 r2]. unfold PlotterDiagram.pair_le. simpl.
  destruct (Z.lt_total y1 y2) as [?|[->|?]]; [tauto| |tauto].
  destruct (Qlt_le_dec r1 r2) as [?%Qlt_le_weak|?]; tauto.
Qed.

#[global] Instance pair_le_trans : Transitive PlotterDiagram.pair_le.
Proof.
  intros [y1 r1] [y2 r2] [y3 r3]. unfold PlotterDiagram.pair_le. simpl.
  intros [?|[-> ?]] [?|[-> ?]]; [left; lia|by left|by left|right].
  split; [done|]. by apply Qle_trans with r2.
Qed.

Lemma sorted_nil_inv (l : list string) : Py.sorted l = [] → l = [].
Proof.
  intros H. apply Permutation_nil_r. rewrite <-H.
  symmetry. apply merge_sort_Permutation.
Qed.

Lemma zip_columns {A B C} (f : A → B) (g : A → C) (l : list A) :
  zip (f <$> l) (g <$> l) = (λ x, (f x, g x)) <$> l.
Proof. induction l as [|x l IH]; [done|]. csimpl. by rewrite IH. Qed.

(** X10. The continent diagram has one panel per continent of the table,
    in ascending order of the names and none twice; its title names the
    continent, and no panel is empty: a scatter series follows the
    title. *)
Theorem plotter_one_panel_per_continent (d : pd.DataFrame) :
  ∃ continents : list string,
    StronglySorted String.le continents ∧ NoDup continents
    ∧ (∀ c, c ∈ continents ↔ ∃ r, r ∈ d ∧ pd.Continent r = c)
    ∧ length (PlotterDiagram.update d) = length continents
    ∧ ∀ i c, continents !! i = Some c →
        ∃ e xs ys rest,
          PlotterDiagram.update d !! i
          = Some (plt.set_title ("Einschulung - " +:+ c)
                  :: plt.scatter xs ys e :: rest)
          ∧ ∃ r, r ∈ d ∧ pd.Continent r = c ∧ pd.Entity r = e.
Proof.
  exists (Py.sorted (pd.unique (pd.Continent <$> d))).
  destruct (sorted_unique_spec (pd.Continent <$> d)) as (Hs & Hnd & Hin).
  assert (Hrow : ∀ c, c ∈ Py.sorted (pd.unique (pd.Continent <$> d))
                      ↔ ∃ r, r ∈ d ∧ pd.Continent r = c).
  { intros c. rewrite Hin, list_elem_of_fmap.
    split; intros (r & ? & ?); eauto. }
  split_and!; [done..| |].
  - unfold PlotterDiagram.update. by rewrite length_fmap.
  - intros i c Hi. unfold PlotterDiagram.update.
    rewrite list_lookup_fmap, Hi. simpl.
    apply list_elem_of_lookup_2, Hrow in Hi as (r & Hr & Hc).
    unfold PlotterDiagram.panel.
    set (rows := pd.where_Continent c d).
    destruct (sorted_unique_spec (pd.Entity <$> rows)) as (_ & _ & Hents).
    destruct (Py.sorted (pd.unique (pd.Entity <$> rows))) as [|e ents] eqn:He.
    { exfalso. apply (not_elem_of_nil (pd.Entity r)), Hents.
      apply list_elem_of_fmap. exists r. split; [done|].
      apply list_elem_of_filter. by split. }
    assert (He' : e ∈ pd.Entity <$> rows) by (apply Hents; left).
    apply list_elem_of_fmap in He' as (r' & -> & [Hc' Hr']%list_elem_of_filter).
    cbn [fmap list_fmap mjoin list_join app].
    rewrite <-!app_assoc. simpl. do 4 eexists. split; [done|].
    by exists r'.
Qed.

(** X11. A line of a panel joins the points of one country of that
    continent, at least two of them, in ascending order of the year and,
    within a year, of the rate, whatever the order of the rows in the
    table. *)
Theorem plotter_lines_sorted_by_year (d : pd.DataFrame) (c : string)
    (xs : list Z) (ys : list Q) :
  plt.plot xs ys ∈ PlotterDiagram.panel c d →
  ∃ e, let pts := (λ r, (pd.Year r, pd.Rate r))
                    <$> filter (λ r, pd.Entity r = e ∧ pd.Continent r = c) d in
    zip xs ys ≡ₚ pts ∧ length xs = length ys ∧ (2 ≤ length pts)%nat
    ∧ StronglySorted PlotterDiagram.pair_le (zip xs ys)
    ∧ StronglySorted Z.le xs.
Proof.
  unfold PlotterDiagram.panel. rewrite !elem_of_app.
  intros [Hin|[Hin|Hin]].
  - by apply list_elem_of_singleton in Hin.
  - apply list_elem_of_join in Hin as (l & Hin & Hl).
    apply list_elem_of_fmap in Hl as (e & -> & _).
    apply elem_of_cons in Hin as [?|Hin]; [done|].
    case_decide as Hlen; [|by apply elem_of_nil in Hin].
    apply list_elem_of_singleton in Hin. injection Hin as -> ->.
    exists e. simpl. unfold pd.where_Entity, pd.where_Continent in *.
    rewrite list_filter_filter in *. rewrite zip_fst_snd, zip_columns.
    rewrite length_fmap in Hlen.
    set (pts := (λ r, (pd.Year r, pd.Rate r)) <$> filter _ d) in *.
    rewrite !length_fmap.
    pose proof (StronglySorted_merge_sort PlotterDiagram.pair_le pts) as Hs.
    split_and!; [apply merge_sort_Permutation|done| |done|].
    + unfold pts. rewrite length_fmap. lia.
    + apply (StronglySorted_fmap fst PlotterDiagram.pair_le Z.le _); [|done].
      intros [y1 r1] [y2 r2] [?|[? _]]; simpl in *; lia.
  - case_decide; by apply list_elem_of_singleton in Hin.
Qed.

(** ** Loading a file: the header repair and the column check *)

Lemma foldl_insert_pairs_fresh (l : list (string * string))
    (m : gmap string string) (k : string) :
  k ∉ l.*1 → foldl (λ m p, <[p.1 := p.2]> m) m l !! k = m !! k.
Proof.
  revert m. induction l as [|[k' v'] l IH]; intros m Hk; [done|].
  cbn [foldl]. rewrite IH.
  - simpl. apply lookup_insert_ne. intros ->. apply Hk. left.
  - intros Hin. apply Hk. by right.
Qed.

Lemma foldl_insert_pairs_lookup (l : list (string * string))
    (m : gmap string string) (k v : string) :
  NoDup (l.*1) → (k, v) ∈ l →
  foldl (λ m p, <[p.1 := p.2]> m) m l !! k = Some v.
Proof.
  revert m. induction l as [|[k' v'] l IH]; intros m Hnd Hin.
  { by apply elem_of_nil in Hin. }
  apply NoDup_cons in Hnd as [Hfresh Hnd]. cbn [foldl].
  apply elem_of_cons in Hin as [[= <- <-]|Hin].
  - rewrite foldl_insert_pairs_fresh by done. apply lookup_insert_eq.
  - by apply IH.
Qed.

Lemma NoDup_zip_fst (l k : list string) : NoDup l → NoDup (zip l k).*1.
Proof.
  revert k. induction l as [|x l IH]; intros [|y k] Hnd; try constructor.
  - apply NoDup_cons in Hnd as [Hx _].
    intros ([x' y'] & Heq & Hin%elem_of_zip_l)%list_elem_of_fmap.
    simpl in Heq. by subst.
  - apply IH. by apply NoDup_cons in Hnd as [_ ?].
Qed.

Lemma rename_dict_lookup (columns cleaned_headers : list string)
    (i : nat) (col : string) :
  NoDup columns → columns !! i = Some col →
  EinschulungsApp.rename_dict columns cleaned_headers !! col
  = cleaned_headers !! i.
Proof.
  intros Hnd Hi. unfold EinschulungsApp.rename_dict.
  destruct (cleaned_headers !! i) as [clean|] eqn:Hclean.
  - apply foldl_insert_pairs_lookup; [by apply NoDup_zip_fst|].
    apply (list_elem_of_lookup_2 _ i).
    apply lookup_zip_with_Some. by exists col, clean.
  - rewrite foldl_insert_pairs_fresh; [done|].
    intros ([x y] & Heq & Hin)%list_elem_of_fmap. simpl in Heq. subst x.
    apply list_elem_of_lookup_1 in Hin as [j Hj].
    apply lookup_zip_with_Some in Hj as (x' & y' & [= <- <-] & Hx & Hy).
    assert (i = j) as -> by (by eapply NoDup_lookup).
    congruence.
Qed.

(** X13. The repair of the header line.  When the frame has no column
    [Entity] but a cleaned header is [Entity], every column gets the
    cleaned header at its own position as its name, and a column beyond
    the last header keeps its name; the names of the frame are taken to be
    distinct, as [read_csv] makes them. *)
Theorem load_renames_by_position (f : EinschulungsApp.csv_file)
    (i : nat) (col : string) :
  let cleaned_headers :=
    EinschulungsApp.strip EinschulungsApp.header_chars
      <$> EinschulungsApp.headers f in
  NoDup (EinschulungsApp.columns f) →
  "Entity" ∉ EinschulungsApp.columns f →
  "Entity" ∈ cleaned_headers →
  EinschulungsApp.columns f !! i = Some col →
  EinschulungsApp.final_columns f !! i
  = Some (default col (cleaned_headers !! i)).
Proof.
  intros cleaned_headers Hnd Hno Hyes Hi.
  unfold EinschulungsApp.final_columns. fold cleaned_headers.
  rewrite decide_True by done. unfold EinschulungsApp.rename.
  rewrite list_lookup_fmap, Hi. simpl.
  by rewrite (rename_dict_lookup _ _ i).
Qed.




(** [update] changes the axes and nothing else, also when an exception
    leaves it. *)
Lemma pie_update_keeps (float : string → Py.result Py.float)
    (str : Py.float → string) (ax_pie : list Q → option Py.exn) (fuel : nat)
    (st st' : PieDiagram.state) (raised : option Py.exn) :
  PieDiagram.update float str ax_pie fuel st = Some (st', raised) →
  PieDiagram.df st' = PieDiagram.df st
  ∧ PieDiagram.chart_type_var st' = PieDiagram.chart_type_var st
  ∧ PieDiagram.min_var st' = PieDiagram.min_var st
  ∧ PieDiagram.step_var st' = PieDiagram.step_var st.
Proof.
  unfold PieDiagram.update. destruct (PieDiagram.df st) as [d|] eqn:Hd;
    [|by intros [= <- <-]].
  cbv zeta. repeat case_decide.
  - destruct (PieDiagram.create_continent_avg_chart _ _);
      by intros [= <- <-].
  - destruct (PieDiagram.create_range_distribution_chart _ _ _ _ _ _ _);
      [|done].
    by intros [= <- <-].
  - destruct (PieDiagram.on_axes _ _); by intros [= <- <-].
  - by intros [= <- <-].
Qed.

Lemma bar_update_sync (st : Diagram.state) (d : pd.DataFrame) :
  Diagram.df st = Some d →
  Diagram.df (BarDiagram.update st) = Some d
  ∧ Diagram.ax (BarDiagram.update st)
    = BarDiagram.draw (Diagram.continent_var (BarDiagram.update st))
        (Diagram.highlight_country (BarDiagram.update st)) d.
Proof. unfold BarDiagram.update. intros Hd. by rewrite Hd. Qed.

Lemma scatter_update_sync (st : Diagram.state) (d : pd.DataFrame) :
  Diagram.df st = Some d →
  Diagram.df (ScatterPlot.update st) = Some d
  ∧ Diagram.ax (ScatterPlot.update st)
    = ScatterPlot.draw (Diagram.continent_var (ScatterPlot.update st))
        (Diagram.country_var (ScatterPlot.update st)) d.
Proof. unfold ScatterPlot.update. intros Hd. by rewrite Hd. Qed.

Lemma continent_selected_df (v : string) (st : Diagram.state) :
  Diagram.df (Diagram.continent_selected (Diagram.set_continent_var v st))
  = Diagram.df st.
Proof. unfold Diagram.continent_selected. simpl. by case_match. Qed.

Lemma country_selected_df (v : string) (st : Diagram.state) :
  Diagram.df (Diagram.country_selected (Diagram.set_country_var v st))
  = Diagram.df st.
Proof. unfold Diagram.country_selected. simpl. by case_decide. Qed.

Lemma bar_update_df (st : Diagram.state) :
  Diagram.df (BarDiagram.update st) = Diagram.df st.
Proof. unfold BarDiagram.update. by case_match. Qed.

Lemma scatter_update_df (st : Diagram.state) :
  Diagram.df (ScatterPlot.update st) = Diagram.df st.
Proof. unfold ScatterPlot.update. by case_match. Qed.

Lemma plotter_update_sync (st : EinschulungsApp.plotter_state)
    (d : pd.DataFrame) :
  (∀ d', EinschulungsApp.plotter_df st = Some d' →
         EinschulungsApp.plotter_axes st = PlotterDiagram.update d') →
  EinschulungsApp.plotter_df (EinschulungsApp.plotter_update st) = Some d →
  EinschulungsApp.plotter_axes (EinschulungsApp.plotter_update st)
  = PlotterDiagram.update d.
Proof.
  unfold EinschulungsApp.plotter_update.
  destruct (EinschulungsApp.plotter_df st) as [d0|] eqn:Hd; simpl.
  - by intros _ [= <-].
  - intros _ H. by rewrite Hd in H.
Qed.

Section session.

Variable float : string → Py.result Py.float.
Variable str : Py.float → string.
Variable ax_pie : list Q → option Py.exn.

(** What [load_csv_file] leaves: the state it found and at most one error
    box, or the new table in the application and in the diagrams that got
    it before an exception, if any, ended the loading. *)
Lemma load_csv_file_cases (fuel : nat) (path : string)
    (read : Py.result EinschulungsApp.csv_file)
    (app app' : EinschulungsApp.state) (out : list EinschulungsApp.effect) :
  EinschulungsApp.load_csv_file float str ax_pie fuel path read app
    = Some (app', out) →
  (app' = app
   ∧ (out = []
      ∨ (∃ message, out = [EinschulungsApp.showerror "Fehler" message])
      ∨ ∃ e, out = EinschulungsApp.load_failed e))
  ∨ ∃ f pie raised,
      read = Py.Ok f ∧ path ≠ ""
      ∧ EinschulungsApp.missing_cols (EinschulungsApp.final_columns f) = []
      ∧ EinschulungsApp.pie_set_data float str ax_pie fuel
          (EinschulungsApp.rows f) (EinschulungsApp.pie_diagram app)
        = Some (pie, raised)
      ∧ out = match raised with
              | Some e => EinschulungsApp.load_failed e
              | None => []
              end
      ∧ app' = EinschulungsApp.State
                 (Some (EinschulungsApp.rows f)) (Some path)
                 (BarDiagram.set_data (Some (EinschulungsApp.rows f))
                    (EinschulungsApp.bar_diagram app))
                 (ScatterPlot.set_data (Some (EinschulungsApp.rows f))
                    (EinschulungsApp.scatter_plot app))
                 pie
                 match raised with
                 | Some _ => EinschulungsApp.plotter_diagram app
                 | None =>
                   EinschulungsApp.plotter_set_data (EinschulungsApp.rows f)
                     (EinschulungsApp.plotter_diagram app)
                 end.
Proof.
  unfold EinschulungsApp.load_csv_file.
  case_decide as Hpath; [intros [= <- <-]; left; auto|].
  destruct read as [f|e]; [|intros [= <- <-]; left; eauto].
  destruct (EinschulungsApp.missing_cols _) as [|col l] eqn:Hmissing;
    [|intros [= <- <-]; left; eauto].
  cbv zeta.
  destruct (EinschulungsApp.pie_set_data _ _ _ _ _ _) as [[pie raised]|]
    eqn:Hpie; [|done].
  simpl. destruct raised as [e|]; intros [= <- <-]; right.
  - by exists f, pie, (Some e).
  - by exists f, pie, None.
Qed.

Lemma load_csv_file_consistent (f : EinschulungsApp.csv_file)
    (path : string) (fuel : nat) (pie : PieDiagram.state)
    (raised : option Py.exn) (app : EinschulungsApp.state) :
  EinschulungsApp.pie_set_data float str ax_pie fuel (EinschulungsApp.rows f)
    (EinschulungsApp.pie_diagram app) = Some (pie, raised) →
  let app' :=
    EinschulungsApp.State
      (Some (EinschulungsApp.rows f)) (Some path)
      (BarDiagram.set_data (Some (EinschulungsApp.rows f))
         (EinschulungsApp.bar_diagram app))
      (ScatterPlot.set_data (Some (EinschulungsApp.rows f))
         (EinschulungsApp.scatter_plot app))
      pie
      match raised with
      | Some _ => EinschulungsApp.plotter_diagram app
      | None =>
        EinschulungsApp.plotter_set_data (EinschulungsApp.rows f)
          (EinschulungsApp.plotter_diagram app)
      end in
  consistent app' ∧ (in_sync app → in_sync app').
Proof.
  intros Hpie app'. split.
  - unfold consistent, app'. cbn -[BarDiagram.draw ScatterPlot.draw].
    apply pie_update_keeps in Hpie as (-> & _). simpl.
    split_and!; first [done|split; eauto].
  - intros [_ Hplotter]. split.
    + intros d [= <-]. unfold app'. cbn -[BarDiagram.draw ScatterPlot.draw].
      done.
    + unfold app'. cbn [EinschulungsApp.plotter_diagram].
      destruct raised as [e|]; [done|].
      intros d. unfold EinschulungsApp.plotter_set_data,
        EinschulungsApp.plotter_update. simpl. by intros [= <-].
Qed.

Lemma step_consistent (fuel : nat) (ev : EinschulungsApp.event)
    (app app' : EinschulungsApp.state) (out : list EinschulungsApp.effect) :
  EinschulungsApp.step float str ax_pie fuel ev app = Some (app', out) →
  consistent app → consistent app'.
Proof.
  intros Hstep Hcons. revert Hstep.
  pose proof Hcons as (Hbar & Hscatter & Hpie & Hpath).
  destruct ev; cbn [EinschulungsApp.step].
  - intros Hstep. apply load_csv_file_cases in Hstep
      as [[-> _]|(f & pie & raised & _ & _ & _ & Hset & _ & ->)]; [done|].
    by destruct (load_csv_file_consistent f file_path fuel pie raised app
                   Hset).
  - by intros [= <- <-].
  - by intros [= <- <-].
  - by intros [= <- <-].
  - unfold EinschulungsApp.on_tab_changed.
    destruct (EinschulungsApp.df app) as [d|] eqn:Hd;
      [|by intros [= <- <-]].
    destruct tab as [|[|[|[|[|tab]]]]]; cbn -[PieDiagram.update];
      try (by intros [= <- <-]);
      try (intros [= <- <-]; unfold consistent; simpl;
           rewrite ?bar_update_df, ?scatter_update_df;
           by split_and!).
    destruct (PieDiagram.update _ _ _ _ _) as [[pie raised]|] eqn:Hupd;
      [|done].
    simpl. intros [= <- <-].
    apply pie_update_keeps in Hupd as (Hdf & _).
    unfold consistent. simpl. rewrite Hdf. by split_and!.
  - intros [= <- <-]. unfold consistent. simpl.
    destruct (bar_select_continent_keeps v (EinschulungsApp.bar_diagram app))
      as [-> _]. by split_and!.
  - intros [= <- <-]. unfold consistent. simpl.
    destruct (bar_select_country_keeps v (EinschulungsApp.bar_diagram app))
      as [-> _]. by split_and!.
  - intros [= <- <-]. unfold consistent. simpl.
    destruct (scatter_select_continent_keeps v
                (EinschulungsApp.scatter_plot app)) as [-> _]. by split_and!.
  - intros [= <- <-]. unfold consistent. simpl.
    destruct (scatter_select_country_keeps v
                (EinschulungsApp.scatter_plot app)) as [-> _]. by split_and!.
  - unfold EinschulungsApp.pie_select_chart_type.
    destruct (PieDiagram.update _ _ _ _ _) as [[pie raised]|] eqn:Hupd;
      [|done].
    simpl. intros [= <- <-].
    apply pie_update_keeps in Hupd as (Hdf & _).
    unfold consistent. simpl. rewrite Hdf. by split_and!.
  - unfold EinschulungsApp.pie_refresh.
    destruct (PieDiagram.update _ _ _ _ _) as [[pie raised]|] eqn:Hupd;
      [|done].
    simpl. intros [= <- <-].
    apply pie_update_keeps in Hupd as (Hdf & _).
    unfold consistent. simpl. rewrite Hdf. by split_and!.
Qed.

Lemma step_in_sync (fuel : nat) (ev : EinschulungsApp.event)
    (app app' : EinschulungsApp.state) (out : list EinschulungsApp.effect) :
  EinschulungsApp.step float str ax_pie fuel ev app = Some (app', out) →
  consistent app → in_sync app → in_sync app'.
Proof.
  intros Hstep Hcons Hsync. revert Hstep.
  pose proof Hcons as (Hbar & Hscatter & Hpie & Hpath).
  pose proof Hsync as [Hviews Hplotter].
  destruct ev; cbn [EinschulungsApp.step].
  - intros Hstep. apply load_csv_file_cases in Hstep
      as [[-> _]|(f & pie & raised & _ & _ & _ & Hset & _ & ->)]; [done|].
    destruct (load_csv_file_consistent f file_path fuel pie raised app Hset)
      as [_ H].
    by apply H.
  - by intros [= <- <-].
  - by intros [= <- <-].
  - by intros [= <- <-].
  - unfold EinschulungsApp.on_tab_changed.
    destruct (EinschulungsApp.df app) as [d|] eqn:Hd;
      [|by intros [= <- <-]].
    destruct (Hviews d eq_refl) as (Hax1 & Hax2).
    destruct tab as [|[|[|[|[|tab]]]]]; cbn -[PieDiagram.update];
      try (by intros [= <- <-]).
    + intros [= <- <-]. split; [|done]. intros d' [= <-].
      cbn -[BarDiagram.update].
      by destruct (bar_update_sync _ _ Hbar).
    + intros [= <- <-]. split; [|done]. intros d' [= <-].
      cbn -[ScatterPlot.update].
      by destruct (scatter_update_sync _ _ Hscatter).
    + destruct (PieDiagram.update _ _ _ _ _) as [[pie raised]|]; [|done].
      simpl. intros [= <- <-]. split; [|done]. by intros d' [= <-].
    + intros [= <- <-]. split; [by intros d' [= <-]|].
      intros d'. cbn -[EinschulungsApp.plotter_update].
      by apply plotter_update_sync.
  - intros [= <- <-]. split; [|done]. intros d Hd. simpl in Hd.
    destruct (Hviews d Hd) as (_ & ?).
    cbn -[BarDiagram.update]. split; [|done].
    unfold BarDiagram.select_continent, BarDiagram.on_continent_selected.
    apply bar_update_sync. by rewrite continent_selected_df, Hbar.
  - intros [= <- <-]. split; [|done]. intros d Hd. simpl in Hd.
    destruct (Hviews d Hd) as (_ & ?).
    cbn -[BarDiagram.update]. split; [|done].
    unfold BarDiagram.select_country, BarDiagram.on_country_selected.
    apply bar_update_sync. by rewrite country_selected_df, Hbar.
  - intros [= <- <-]. split; [|done]. intros d Hd. simpl in Hd.
    destruct (Hviews d Hd) as (? & _).
    cbn -[ScatterPlot.update]. split; [done|].
    unfold ScatterPlot.select_continent, ScatterPlot.on_continent_selected.
    apply scatter_update_sync. by rewrite continent_selected_df, Hscatter.
  - intros [= <- <-]. split; [|done]. intros d Hd. simpl in Hd.
    destruct (Hviews d Hd) as (? & _).
    cbn -[ScatterPlot.update]. split; [done|].
    unfold ScatterPlot.select_country, ScatterPlot.on_country_selected.
    apply scatter_update_sync. by rewrite country_selected_df, Hscatter.
  - destruct (EinschulungsApp.pie_select_chart_type _ _ _ _ _ _)
      as [[pie raised]|]; [|done].
    simpl. by intros [= <- <-].
  - destruct (EinschulungsApp.pie_refresh _ _ _ _ _ _ _)
      as [[pie raised]|]; [|done].
    simpl. by intros [= <- <-].
Qed.


Lemma run_preserves (fuel : nat) (events : list EinschulungsApp.event)
    (app final : EinschulungsApp.state) (out : list EinschulungsApp.effect) :
  EinschulungsApp.run float str ax_pie fuel events app = Some (final, out) →
  consistent app → in_sync app → consistent final ∧ in_sync final.
Proof.
  revert app out. induction events as [|ev events IH]; intros app out.
  { cbn [EinschulungsApp.run]. intros [= <- <-] ? ?. by split. }
  cbn [EinschulungsApp.run].
  destruct (EinschulungsApp.step _ _ _ _ _ _) as [[app' out1]|] eqn:Hstep;
    [|done].
  cbn [mbind option_bind].
  destruct (EinschulungsApp.run _ _ _ _ _ _) as [[final' out2]|] eqn:Hrun;
    [|done].
  cbn [mbind option_bind]. intros [= <- <-] Hcons Hsync.
  apply (IH app' out2 Hrun).
  - by eapply step_consistent.
  - by eapply step_in_sync.
Qed.


End session.

Lemma init_consistent :
  consistent EinschulungsApp.init ∧ in_sync EinschulungsApp.init.
Proof.
  split; [|by split; intros d].
  unfold consistent. simpl.
  split_and!; try reflexivity. by split; intros [? [=]].
Qed.

Ltac effect_in H :=
  repeat (apply elem_of_cons in H; destruct H as [H|H];
          [try discriminate H|]);
  try (by apply elem_of_nil in H).

Lemma step_writes (float : string → Py.result Py.float)
    (str : Py.float → string) (ax_pie : list Q → option Py.exn) (fuel : nat)
    (ev : EinschulungsApp.event)
    (app app' : EinschulungsApp.state) (out : list EinschulungsApp.effect)
    (p : string) (d : pd.DataFrame) :
  EinschulungsApp.step float str ax_pie fuel ev app = Some (app', out) →
  EinschulungsApp.to_csv p d ∈ out ∨ EinschulungsApp.write_json p d ∈ out →
  EinschulungsApp.df app = Some d.
Proof.
  destruct ev; cbn [EinschulungsApp.step].
  - intros [[_ [->|[[message ->]|[e ->]]]]
            |(? & ? & [e|] & _ & _ & _ & _ & -> & _)]%load_csv_file_cases
           [Hin|Hin];
      unfold EinschulungsApp.load_failed in Hin; effect_in Hin.
  - intros [= <- <-]. unfold EinschulungsApp.save_csv_file.
    destruct (EinschulungsApp.df app) as [d0|];
      [|intros [Hin|Hin]; effect_in Hin].
    case_decide; [intros [Hin|Hin]; effect_in Hin|].
    destruct failure; intros [Hin|Hin]; effect_in Hin;
      by injection Hin as _ ->.
  - intros [= <- <-]. unfold EinschulungsApp.convert_to_json.
    destruct (EinschulungsApp.df app) as [d0|];
      [|intros [Hin|Hin]; effect_in Hin].
    destruct (EinschulungsApp.file_path app);
      [|intros [Hin|Hin]; effect_in Hin].
    case_decide; [intros [Hin|Hin]; effect_in Hin|].
    destruct failure; intros [Hin|Hin]; effect_in Hin;
      by injection Hin as _ ->.
  - intros [= <- <-]. unfold EinschulungsApp.save_chart_as_image,
      EinschulungsApp.save.
    intros Hin.
    repeat case_match; simplify_eq/=; destruct Hin as [Hin|Hin];
      effect_in Hin.
  - unfold EinschulungsApp.on_tab_changed.
    destruct (EinschulungsApp.df app) as [d0|];
      [|intros [= <- <-] [Hin|Hin]; effect_in Hin].
    destruct tab as [|[|[|[|[|tab]]]]]; cbn -[PieDiagram.update];
      try (intros [= <- <-] [Hin|Hin]; effect_in Hin).
    destruct (PieDiagram.update _ _ _ _ _) as [[pie [e|]]|]; [| |done];
      simpl; intros [= <- <-] [Hin|Hin]; effect_in Hin.
  - intros [= <- <-] [Hin|Hin]; effect_in Hin.
  - intros [= <- <-] [Hin|Hin]; effect_in Hin.
  - intros [= <- <-] [Hin|Hin]; effect_in Hin.
  - intros [= <- <-] [Hin|Hin]; effect_in Hin.
  - destruct (EinschulungsApp.pie_select_chart_type _ _ _ _ _ _)
      as [[pie [e|]]|]; [| |done];
      simpl; intros [= <- <-] [Hin|Hin]; effect_in Hin.
  - destruct (EinschulungsApp.pie_refresh _ _ _ _ _ _ _)
      as [[pie [e|]]|]; [| |done];
      simpl; intros [= <- <-] [Hin|Hin]; effect_in Hin.
Qed.

Lemma step_df (float : string → Py.result Py.float)
    (str : Py.float → string) (ax_pie : list Q → option Py.exn) (fuel : nat)
    (ev : EinschulungsApp.event)
    (app app' : EinschulungsApp.state) (out : list EinschulungsApp.effect) :
  EinschulungsApp.step float str ax_pie fuel ev app = Some (app', out) →
  EinschulungsApp.df app' = EinschulungsApp.df app
  ∨ ∃ path f, ev = EinschulungsApp.LoadCsv path (Py.Ok f) ∧ path ≠ ""
      ∧ EinschulungsApp.missing_cols (EinschulungsApp.final_columns f) = []
      ∧ EinschulungsApp.df app' = Some (EinschulungsApp.rows f).
Proof.
  destruct ev; cbn [EinschulungsApp.step];
    try (intros [= <- <-]; by left).
  - intros [[-> _]|(f & pie & raised & -> & ? & ? & _ & _ & ->)]
           %load_csv_file_cases; [by left|right].
    by exists file_path, f.
  - unfold EinschulungsApp.on_tab_changed.
    destruct (EinschulungsApp.df app) as [d|] eqn:Hd;
      [|intros [= <- <-]; by left].
    destruct tab as [|[|[|[|[|tab]]]]]; cbn -[PieDiagram.update];
      try (intros [= <- <-]; by left).
    destruct (PieDiagram.update _ _ _ _ _) as [[pie raised]|]; [|done].
    simpl. intros [= <- <-]. by left.
  - destruct (EinschulungsApp.pie_select_chart_type _ _ _ _ _ _)
      as [[pie raised]|]; [|done].
    simpl. intros [= <- <-]. by left.
  - destruct (EinschulungsApp.pie_refresh _ _ _ _ _ _ _)
      as [[pie raised]|]; [|done].
    simpl. intros [= <- <-]. by left.
Qed.

Lemma run_writes (float : string → Py.result Py.float)
    (str : Py.float → string) (ax_pie : list Q → option Py.exn) (fuel : nat)
    (events : list EinschulungsApp.event)
    (app final : EinschulungsApp.state) (out : list EinschulungsApp.effect)
    (p : string) (d : pd.DataFrame) :
  EinschulungsApp.run float str ax_pie fuel events app = Some (final, out) →
  EinschulungsApp.to_csv p d ∈ out ∨ EinschulungsApp.write_json p d ∈ out →
  EinschulungsApp.df app = Some d
  ∨ ∃ path f, EinschulungsApp.LoadCsv path (Py.Ok f) ∈ events ∧ path ≠ ""
      ∧ EinschulungsApp.missing_cols (EinschulungsApp.final_columns f) = []
      ∧ EinschulungsApp.rows f = d.
Proof.
  revert app out. induction events as [|ev events IH]; intros app out.
  { cbn [EinschulungsApp.run].
    intros [= <- <-] [H|H]; by apply elem_of_nil in H. }
  cbn [EinschulungsApp.run].
  destruct (EinschulungsApp.step _ _ _ _ _ _) as [[app' out1]|] eqn:Hstep;
    [|done].
  cbn [mbind option_bind].
  destruct (EinschulungsApp.run _ _ _ _ _ _) as [[final' out2]|] eqn:Hrun;
    [|done].
  cbn [mbind option_bind]. intros [= <- <-] Hin.
  assert (Hsplit : (EinschulungsApp.to_csv p d ∈ out1
                    ∨ EinschulungsApp.write_json p d ∈ out1)
                   ∨ (EinschulungsApp.to_csv p d ∈ out2
                      ∨ EinschulungsApp.write_json p d ∈ out2)).
  { rewrite !elem_of_app in Hin. tauto. }
  destruct Hsplit as [H1|H2].
  - left. by eapply step_writes.
  - destruct (IH app' out2 Hrun H2) as [Hd|(path & f & Hev & ? & ? & ?)].
    + destruct (step_df _ _ _ _ _ _ _ _ Hstep)
        as [Hsame|(path & f & -> & ? & ? & Hnew)].
      * left. congruence.
      * right. exists path, f. split_and!; [left|done..|congruence].
    + right. exists path, f. split_and!; [by right|done..].
Qed.




(** X17. The program writes nothing but a loaded table.  A table that a
    session hands to [to_csv] or writes as JSON is the table of a file
    that the same session loaded: the file was chosen, it was read, and
    none of the required columns was missing. *)
Theorem session_writes_loaded_table (float : string → Py.result Py.float)
    (str : Py.float → string) (ax_pie : list Q → option Py.exn) (k : nat)
    (events : list EinschulungsApp.event)
    (final : EinschulungsApp.state) (out : list EinschulungsApp.effect)
    (p : string) (d : pd.DataFrame) :
  EinschulungsApp.run float str ax_pie (21 + k) events EinschulungsApp.init
    = Some (final, out) →
  EinschulungsApp.to_csv p d ∈ out ∨ EinschulungsApp.write_json p d ∈ out →
  ∃ path f,
    EinschulungsApp.LoadCsv path (Py.Ok f) ∈ events ∧ path ≠ ""
    ∧ EinschulungsApp.missing_cols (EinschulungsApp.final_columns f) = []
    ∧ EinschulungsApp.rows f = d.
Proof.
  intros Hrun Hin.
  by destruct (run_writes float str ax_pie _ events _ _ _ p d Hrun Hin)
    as [?|?].
Qed.


(** X19. The second half of the guard of [convert_to_json] never decides.
    In a state a session, with files that have rows, has reached, a table
    is held only together with the path of its file, so the conversion
    warns exactly when no table is loaded: with a table, a path chosen and
    no failure, the table is written and the success box follows. *)
Theorem convert_to_json_needs_only_the_table
    (float : string → Py.result Py.float) (str : Py.float → string)
    (ax_pie : list Q → option Py.exn)
    (k : nat) (events : list EinschulungsApp.event)
    (app : EinschulungsApp.state) (out : list EinschulungsApp.effect)
    (json_path : string) (failure : option Py.exn) :
  EinschulungsApp.run float str ax_pie (21 + k) events EinschulungsApp.init
    = Some (app, out) →
  (EinschulungsApp.convert_to_json json_path failure app
   = [EinschulungsApp.showwarning "Warnung"
        "Keine Daten zum Konvertieren vorhanden."]
   ↔ EinschulungsApp.df app = None)
  ∧ ∀ d, EinschulungsApp.df app = Some d → json_path ≠ "" →
      EinschulungsApp.convert_to_json json_path None app
      = [EinschulungsApp.write_json json_path d;
         EinschulungsApp.showinfo "Erfolg"
           ("Datei erfolgreich als JSON gespeichert:" +:+ Py.newline
            +:+ json_path)].
Proof.
  intros Hrun. destruct init_consistent as [Hcons Hsync].
  destruct (run_preserves float str ax_pie _ events _ _ _ Hrun Hcons Hsync)
    as [(_ & _ & _ & Hpath) _].
  unfold EinschulungsApp.convert_to_json.
  destruct (EinschulungsApp.df app) as [d|] eqn:Hd.
  - destruct (proj1 Hpath) as [path Hp]; [by exists d|].
    rewrite Hp. split.
    + split; [|done]. case_decide; [done|]. by destruct failure.
    + intros d' [= <-] Hjson. by rewrite decide_False.
  - split; [done|]. by intros d' [=].
Qed.

(** ** Instances of the conditional properties *)

Lemma offered_country_has_data_witness :
  "Africa" ∈ Diagram.continent_combo (ScatterPlot.set_data (Some D0) Diagram.init)
  ∧ "Ghana" ∈ Diagram.country_combo
                (ScatterPlot.select_continent "Africa"
                   (ScatterPlot.set_data (Some D0) Diagram.init))
  ∧ "Ghana" ≠ "Alle Länder"
  ∧ ∃ r rows,
      filter (λ r, pd.Entity r = "Ghana"
                   ∧ ("Africa" = "Alle" ∨ pd.Continent r = "Africa")) D0
        = r :: rows
      ∧ Diagram.ax
          (ScatterPlot.select_country "Ghana"
             (ScatterPlot.select_continent "Africa"
                (ScatterPlot.set_data (Some D0) Diagram.init)))
        = ([plt.plot (pd.Year <$> r :: rows) (pd.Rate <$> r :: rows)]
           ++ ScatterPlot.point_labels (pd.Year <$> r :: rows)
                (pd.Rate <$> r :: rows)
           ++ [plt.set_title
                 ("Einschulungsrate im Zeitverlauf - " +:+ "Ghana")])%list.
Proof.
  assert (H1 : "Africa" ∈ Diagram.continent_combo
                 (ScatterPlot.set_data (Some D0) Diagram.init))
    by (apply (bool_decide_unpack _); vm_compute; exact I).
  assert (H2 : "Ghana" ∈ Diagram.country_combo
                 (ScatterPlot.select_continent "Africa"
                    (ScatterPlot.set_data (Some D0) Diagram.init)))
    by (apply (bool_decide_unpack _); vm_compute; exact I).
  assert (H3 : "Ghana" ≠ "Alle Länder") by discriminate.
  split; [exact H1|]. split; [exact H2|]. split; [exact H3|].
  exact (offered_country_has_data D0 Diagram.init "Africa" "Ghana" H1 H2 H3).
Defined.

Lemma bar_highlight_changes_colours_only_witness :
  "Africa" ∈ Diagram.continent_combo (BarDiagram.set_data (Some D0) Diagram.init)
  ∧ "Ghana" ∈ Diagram.country_combo
                (BarDiagram.select_continent "Africa"
                   (BarDiagram.set_data (Some D0) Diagram.init))
  ∧ "Ghana" ≠ "Alle Länder"
  ∧ let rows :=
      pd.sort_values_Rate_desc
        (filter (λ r, "Africa" = "Alle" ∨ pd.Continent r = "Africa") D0) in
    let picked :=
      BarDiagram.select_country "Ghana"
        (BarDiagram.select_continent "Africa"
           (BarDiagram.set_data (Some D0) Diagram.init)) in
    (∃ r, r ∈ rows ∧ pd.Entity r = "Ghana")
    ∧ (∃ rest,
        Diagram.ax picked =
          plt.bar (pd.Entity <$> rows) (pd.Rate <$> rows)
            ((λ r, if decide (pd.Entity r = "Ghana")
                   then "orange" else "skyblue") <$> rows) :: rest)
    ∧ (∃ rest,
        Diagram.ax (BarDiagram.select_country "Alle Länder" picked) =
          plt.bar (pd.Entity <$> rows) (pd.Rate <$> rows)
            ((λ _, "skyblue") <$> rows) :: rest).
Proof.
  assert (H1 : "Africa" ∈ Diagram.continent_combo
                 (BarDiagram.set_data (Some D0) Diagram.init))
    by (apply (bool_decide_unpack _); vm_compute; exact I).
  assert (H2 : "Ghana" ∈ Diagram.country_combo
                 (BarDiagram.select_continent "Africa"
                    (BarDiagram.set_data (Some D0) Diagram.init)))
    by (apply (bool_decide_unpack _); vm_compute; exact I).
  assert (H3 : "Ghana" ≠ "Alle Länder") by discriminate.
  split; [exact H1|]. split; [exact H2|]. split; [exact H3|].
  exact (bar_highlight_changes_colours_only D0 Diagram.init "Africa" "Ghana"
           H1 H2 H3).
Defined.

Lemma trend_single_entity_follows_table_witness :
  let d := [pd.Row "Ghana" "Africa" 2010 62.5;
            pd.Row "Kenya" "Africa" 2011 80.5;
            pd.Row "Ghana" "Africa" 2012 74.0] in
  "Ghana" ≠ "Alle Länder"
  ∧ StronglySorted (λ r1 r2, (pd.Year r1 ≤ pd.Year r2)%Z)
      (filter (λ r, pd.Entity r = "Ghana") d)
  ∧ plt.plot [2010%Z; 2012%Z] [62.5%Q; 74.0%Q]
    ∈ ScatterPlot.draw "Africa" "Ghana" d
  ∧ [2010%Z; 2012%Z]
    = pd.Year <$>
        filter (λ r, pd.Entity r = "Ghana"
                     ∧ ("Africa" = "Alle" ∨ pd.Continent r = "Africa")) d
  ∧ [62.5%Q; 74.0%Q]
    = pd.Rate <$>
        filter (λ r, pd.Entity r = "Ghana"
                     ∧ ("Africa" = "Alle" ∨ pd.Continent r = "Africa")) d
  ∧ StronglySorted Z.le [2010%Z; 2012%Z].
Proof.
  intros d.
  assert (H1 : "Ghana" ≠ "Alle Länder") by discriminate.
  assert (H2 : StronglySorted (λ r1 r2, (pd.Year r1 ≤ pd.Year r2)%Z)
                 (filter (λ r, pd.Entity r = "Ghana") d)).
  { replace (filter (λ r, pd.Entity r = "Ghana") d)
      with [pd.Row "Ghana" "Africa" 2010 62.5;
            pd.Row "Ghana" "Africa" 2012 74.0]
      by (vm_compute; reflexivity).
    repeat constructor. simpl. lia. }
  assert (H3 : plt.plot [2010%Z; 2012%Z] [62.5%Q; 74.0%Q]
               ∈ ScatterPlot.draw "Africa" "Ghana" d)
    by (vm_compute; left).
  split; [exact H1|]. split; [exact H2|]. split; [exact H3|].
  exact (trend_single_entity_follows_table d "Africa" "Ghana" H1 H2
           [2010%Z; 2012%Z] [62.5%Q; 74.0%Q] H3).
Defined.

Lemma range_counts_add_up_witness :
  Py.float_of_digits "60" = Py.Ok (Py.Fin 60)
  ∧ Py.float_of_digits "10" = Py.Ok (Py.Fin 10)
  ∧ ∃ (m : Q) (counts : list (string * nat)) (title : string),
      Py.max (Py.Fin 0) (Py.min (Py.Fin 100) (Py.Fin 60)) = Py.Fin m
      ∧ ((m < 100)%Q →
          let in_range :=
            filter (λ r, (m <= pd.Rate r)%Q ∧ (pd.Rate r <= 100)%Q) D0 in
          PieDiagram.create_range_distribution_chart Py.float_of_digits
            (Py.format_f 1) pie0 (21 + 0) "60" "10" D0
          = Some
              match pie0 ((λ e, inject_Z (Z.of_nat e.2)) <$> counts) with
              | None =>
                [plt.pie ((λ e, inject_Z (Z.of_nat e.2)) <$> counts) None
                         (counts.*1);
                 plt.set_title title]
              | Some e =>
                [plt.text (plt.At 0.5 0.5)
                   ("Fehler bei der Diagrammerstellung:" +:+ Py.newline
                    +:+ Py.str_exn e)]
              end
          ∧ sum_list (counts.*2) = length in_range
          ∧ (Forall (λ n, n = 0%nat) (counts.*2) ↔ in_range = [])).
Proof.
  split; [reflexivity|]. split; [reflexivity|].
  exact (range_counts_add_up Py.float_of_digits (Py.format_f 1) pie0 0
           "60" "10" (Py.Fin 60) (Py.Fin 10) D0 eq_refl eq_refl).
Defined.

Lemma plotter_lines_sorted_by_year_witness :
  plt.plot [2010%Z; 2012%Z] [60%Q; 70%Q] ∈ PlotterDiagram.panel "Africa" D1
  ∧ ∃ e, let pts := (λ r, (pd.Year r, pd.Rate r))
                      <$> filter (λ r, pd.Entity r = e
                                       ∧ pd.Continent r = "Africa") D1 in
      zip [2010%Z; 2012%Z] [60%Q; 70%Q] ≡ₚ pts
      ∧ length [2010%Z; 2012%Z] = length [60%Q; 70%Q]
      ∧ (2 ≤ length pts)%nat
      ∧ StronglySorted PlotterDiagram.pair_le
          (zip [2010%Z; 2012%Z] [60%Q; 70%Q])
      ∧ StronglySorted Z.le [2010%Z; 2012%Z].
Proof.
  assert (H1 : plt.plot [2010%Z; 2012%Z] [60%Q; 70%Q]
               ∈ PlotterDiagram.panel "Africa" D1)
    by (vm_compute; right; right; left).
  split; [exact H1|].
  exact (plotter_lines_sorted_by_year D1 "Africa" [2010%Z; 2012%Z]
           [60%Q; 70%Q] H1).
Defined.

Lemma load_renames_by_position_witness :
  NoDup (EinschulungsApp.columns file1)
  ∧ ("Entity" ∉ EinschulungsApp.columns file1)
  ∧ ("Entity" ∈ EinschulungsApp.strip EinschulungsApp.header_chars
                  <$> EinschulungsApp.headers file1)
  ∧ EinschulungsApp.columns file1 !! 1%nat = Some " 'Continent'"
  ∧ EinschulungsApp.final_columns file1 !! 1%nat
    = Some (default " 'Continent'"
              ((EinschulungsApp.strip EinschulungsApp.header_chars
                  <$> EinschulungsApp.headers file1) !! 1%nat)).
Proof.
  assert (H1 : NoDup (EinschulungsApp.columns file1))
    by (apply (bool_decide_unpack _); vm_compute; exact I).
  assert (H2 : "Entity" ∉ EinschulungsApp.columns file1)
    by (apply (bool_decide_unpack _); vm_compute; exact I).
  assert (H3 : "Entity" ∈ EinschulungsApp.strip EinschulungsApp.header_chars
                            <$> EinschulungsApp.headers file1)
    by (apply (bool_decide_unpack _); vm_compute; exact I).
  split; [exact H1|]. split; [exact H2|]. split; [exact H3|].
  split; [reflexivity|].
  exact (load_renames_by_position file1 1 " 'Continent'" H1 H2 H3 eq_refl).
Defined.


Lemma session0_runs :
  EinschulungsApp.run Py.float_of_digits (Py.format_f 1) pie0 (21 + 0)
    session0 EinschulungsApp.init
  = Some (end0.1, end0.2).
Proof. vm_compute. reflexivity. Qed.


Lemma session_writes_loaded_table_witness :
  EinschulungsApp.run Py.float_of_digits (Py.format_f 1) pie0 (21 + 0)
    session0 EinschulungsApp.init
  = Some (end0.1, end0.2)
  ∧ ((EinschulungsApp.to_csv "kopie.csv" D0 ∈ end0.2)
     ∨ (EinschulungsApp.write_json "kopie.csv" D0 ∈ end0.2))
  ∧ ∃ path f,
      EinschulungsApp.LoadCsv path (Py.Ok f) ∈ session0 ∧ path ≠ ""
      ∧ EinschulungsApp.missing_cols (EinschulungsApp.final_columns f) = []
      ∧ EinschulungsApp.rows f = D0.
Proof.
  assert (H2 : (EinschulungsApp.to_csv "kopie.csv" D0 ∈ end0.2)
               ∨ (EinschulungsApp.write_json "kopie.csv" D0 ∈ end0.2))
    by (left; vm_compute; right; right; left).
  split; [exact session0_runs|]. split; [exact H2|].
  exact (session_writes_loaded_table Py.float_of_digits (Py.format_f 1) pie0
           0 session0 end0.1 end0.2 "kopie.csv" D0 session0_runs H2).
Defined.


Lemma convert_to_json_needs_only_the_table_witness :
  EinschulungsApp.run Py.float_of_digits (Py.format_f 1) pie0 (21 + 0)
    session0 EinschulungsApp.init
  = Some (end0.1, end0.2)
  ∧ (EinschulungsApp.convert_to_json "daten.json" None end0.1
     = [EinschulungsApp.showwarning "Warnung"
          "Keine Daten zum Konvertieren vorhanden."]
     ↔ EinschulungsApp.df end0.1 = None)
  ∧ ∀ d, EinschulungsApp.df end0.1 = Some d → "daten.json" ≠ "" →
      EinschulungsApp.convert_to_json "daten.json" None end0.1
      = [EinschulungsApp.write_json "daten.json" d;
         EinschulungsApp.showinfo "Erfolg"
           ("Datei erfolgreich als JSON gespeichert:" +:+ Py.newline
            +:+ "daten.json")].
Proof.
  split; [exact session0_runs|].
  exact (convert_to_json_needs_only_the_table Py.float_of_digits
           (Py.format_f 1) pie0 0 session0 end0.1 end0.2 "daten.json" None
           session0_runs).
Defined.
